(** * NLC: the PDF question-answering Lambda handler

    A shallow embedding of [lambda_function.py]: the handler
    [lambda_handler] uploads a PDF to S3, runs an asynchronous Textract
    job on it, polls the job, assembles the detected lines, asks a
    hosted language model and returns an HTTP-style response.

    The handler is sequential and talks to four outside parties (S3,
    Textract, the inference endpoint and the clock).  It is embedded in
    a small monad that threads the state of the outside world, records
    every outside call in a trace and distinguishes the four ways a
    Python block can end: falling through with a value, executing a
    [return], raising an exception, or never ending (the [while True]
    pagination loop has no bound of its own; it runs on fuel here). *)

From Stdlib Require Import Strings.String Strings.Ascii Lists.List.
From Stdlib Require Import ZArith Arith Lia Bool.
From Stdlib Require Import Numbers.DecimalString.
Import ListNotations.

Set Warnings "-register-all".
Local Open Scope list_scope.
Local Open Scope string_scope.

(** ** Python values

    Everything the handler inspects dynamically is a JSON document: the
    event, the parsed request body and the parsed reply of the
    inference endpoint.  Numbers are integers here; a dict is an
    association list in insertion order, with distinct keys. *)

Inductive json : Type :=
| JNull
| JBool (b : bool)
| JNum (z : Z)
| JStr (s : string)
| JArr (l : list json)
| JObj (fields : list (string * json)).

(** Python's truth value of an object, as used by [not x], [all] and
    [x if x else y]. *)
Definition truthy (v : json) : bool :=
  match v with
  | JNull => false
  | JBool b => b
  | JNum z => negb (z =? 0)%Z
  | JStr s => negb (s =? "")
  | JArr l => match l with [] => false | _ => true end
  | JObj f => match f with [] => false | _ => true end
  end.

(** [type(v).__name__], which Python puts into its error messages. *)
Definition type_name (v : json) : string :=
  match v with
  | JNull => "NoneType"
  | JBool _ => "bool"
  | JNum _ => "int"
  | JStr _ => "str"
  | JArr _ => "list"
  | JObj _ => "dict"
  end.

Fixpoint lookup (k : string) (fields : list (string * json)) : option json :=
  match fields with
  | [] => None
  | (k', v) :: rest => if k' =? k then Some v else lookup k rest
  end.

(** ** Exceptions

    An exception is known by its class and by [str(e)].  The classes are
    the ones the handler's [except] clauses tell apart, plus the built-in
    errors the handler's own expressions can raise.  [requests]'
    JSONDecodeError derives from both RequestException and
    [json.JSONDecodeError]. *)

Inductive exn_class : Type :=
| ClientError
| RequestException
| JSONDecodeError
| RequestsJSONDecodeError
| KeyError
| TypeError
| AttributeError
| IndexError
| OtherError.

Record exn : Type := mkExn { exn_cls : exn_class; exn_msg : string }.

Definition is_ClientError (e : exn) : bool :=
  match exn_cls e with ClientError => true | _ => false end.

Definition is_RequestException (e : exn) : bool :=
  match exn_cls e with
  | RequestException | RequestsJSONDecodeError => true
  | _ => false
  end.

Definition is_JSONDecodeError (e : exn) : bool :=
  match exn_cls e with
  | JSONDecodeError | RequestsJSONDecodeError => true
  | _ => false
  end.

(** [obj.attr] on an object of a type without that attribute. *)
Definition no_attribute (v : json) (attr : string) : exn :=
  mkExn AttributeError
        ("'" ++ type_name v ++ "' object has no attribute '" ++ attr ++ "'").

(** [d[k]] on a dict without key [k]: [str(KeyError(k))] is [repr(k)]. *)
Definition key_error (k : string) : exn :=
  mkExn KeyError ("'" ++ k ++ "'").

(** ** Python string operations

    A character stands for a code point below 256. *)

Definition is_space (c : ascii) : bool :=
  let n := nat_of_ascii c in
  (((9 <=? n) && (n <=? 13)) || ((28 <=? n) && (n <=? 32))
   || (n =? 133) || (n =? 160))%nat.

Fixpoint lstrip (s : string) : string :=
  match s with
  | EmptyString => EmptyString
  | String c s' => if is_space c then lstrip s' else s
  end.

Fixpoint rstrip (s : string) : string :=
  match s with
  | EmptyString => EmptyString
  | String c s' =>
      match rstrip s' with
      | EmptyString => if is_space c then EmptyString else String c EmptyString
      | r => String c r
      end
  end.

(** [s.strip()] *)
Definition strip (s : string) : string := rstrip (lstrip s).

(** [s.replace(old, new)] for a non-empty [old]: occurrences are found
    from the left and do not overlap.  [skip] counts the characters of a
    found occurrence that are still to be dropped. *)
Fixpoint replace_from (old new : string) (skip : nat) (s : string) : string :=
  match s with
  | EmptyString => EmptyString
  | String c s' =>
      match skip with
      | S k => replace_from old new k s'
      | O =>
          if prefix old s
          then new ++ replace_from old new (String.length old - 1) s'
          else String c (replace_from old new 0 s')
      end
  end.

Fixpoint intersperse (new s : string) : string :=
  match s with
  | EmptyString => EmptyString
  | String c s' => String c (new ++ intersperse new s')
  end.

Definition replace (old new s : string) : string :=
  match old with
  | EmptyString => new ++ intersperse new s
  | _ => replace_from old new 0 s
  end.



(** [s[:n]] *)
Definition slice_to (n : nat) (s : string) : string := substring 0 n s.

(** [str(n)] for the integers the handler formats. *)
Definition str_nat (n : nat) : string := NilZero.string_of_uint (Nat.to_uint n).
Definition str_Z (z : Z) : string := NilZero.string_of_int (Z.to_int z).

(** ** Responses *)

Record response : Type := mkResponse {
  statusCode : Z;
  headers : list (string * string);
  body : string
}.

(** ** What the outside services answer *)

Record block : Type := mkBlock {
  BlockType : option string;
  Text : option string
}.

(** The reply of [get_document_text_detection]; a field that is [None]
    is a key the reply does not have. *)
Record detection : Type := mkDetection {
  JobStatus : option string;
  StatusMessage : option string;
  Blocks : option (list block);
  NextToken : option string
}.

Record start_reply : Type := mkStart { JobId : option string }.

(** The reply of [requests.post]: [resp_text] is its [.text] and
    [resp_json] is what [.json()] gives. *)
Record http_reply : Type := mkHttp {
  status_code : Z;
  resp_text : string;
  resp_json : exn + json
}.

Definition bytes : Type := list Byte.byte.

(** The outside world: its state, the services as transitions of that
    state, and the library functions the handler only calls
    ([json.loads], [json.dumps], [str] of a non-string, [b64decode]). *)
Class Env : Type := mkEnv {
  World : Type;
  uuid4 : World -> string * World;
  boto3_client : string -> World -> (exn + unit) * World;
  put_object : string -> string -> bytes -> World -> (exn + unit) * World;
  delete_object : string -> string -> World -> (exn + unit) * World;
  start_document_text_detection :
    string -> string -> World -> (exn + start_reply) * World;
  get_document_text_detection :
    string -> option string -> World -> (exn + detection) * World;
  requests_post : string -> string -> World -> (exn + http_reply) * World;
  time_sleep : nat -> World -> World;
  json_loads : string -> exn + json;
  json_dumps : json -> string;
  py_repr : json -> string;
  b64decode : string -> exn + bytes
}.

Inductive level : Type := INFO | ERROR.

(** One entry of the trace per outside call, with what it answered. *)
Inductive event : Type :=
| EvLog (lvl : level) (msg : string)
| EvUuid (u : string)
| EvClient (service : string) (res : exn + unit)
| EvPut (bucket key : string) (data : bytes) (res : exn + unit)
| EvDelete (bucket key : string) (res : exn + unit)
| EvStart (bucket key : string) (res : exn + start_reply)
| EvGet (job : string) (token : option string) (res : exn + detection)
| EvSleep (secs : nat)
| EvPost (url prompt : string) (res : exn + http_reply).

(** How a block of statements ends. *)
Inductive outcome (A : Type) : Type :=
| Val (a : A)
| Ret (r : response)
| Exc (e : exn)
| Spin.

Arguments Val {A} a.
Arguments Ret {A} r.
Arguments Exc {A} e.
Arguments Spin {A}.

(** ** The monad of handler code *)

Section Monad.

Context {E : Env}.

Definition M (A : Type) : Type :=
  World -> outcome A * World * list event.

Definition pure {A} (a : A) : M A := fun w => (Val a, w, []).

(** [return r] *)
Definition ret {A} (r : response) : M A := fun w => (Ret r, w, []).

(** [raise e] *)
Definition raise {A} (e : exn) : M A := fun w => (Exc e, w, []).

Definition spin {A} : M A := fun w => (Spin, w, []).

Definition bind {A B} (m : M A) (k : A -> M B) : M B := fun w =>
  match m w with
  | (Val a, w1, t1) =>
      match k a w1 with (o, w2, t2) => (o, w2, (t1 ++ t2)%list) end
  | (Ret r, w1, t1) => (Ret r, w1, t1)
  | (Exc e, w1, t1) => (Exc e, w1, t1)
  | (Spin, w1, t1) => (Spin, w1, t1)
  end.

(** [try: m  except C as e: h e], where [handles] says whether an
    exception is an instance of [C]. *)
Definition try_except {A} (m : M A) (handles : exn -> bool)
           (h : exn -> M A) : M A := fun w =>
  match m w with
  | (Exc e, w1, t1) =>
      if handles e
      then match h e w1 with (o, w2, t2) => (o, w2, (t1 ++ t2)%list) end
      else (Exc e, w1, t1)
  | r => r
  end.

(** A call of an outside service. *)
Definition call {A} (op : World -> (exn + A) * World)
           (ev : exn + A -> event) : M A := fun w =>
  match op w with
  | (inl e, w1) => (Exc e, w1, [ev (inl e)])
  | (inr a, w1) => (Val a, w1, [ev (inr a)])
  end.

(** A library function that returns or raises. *)
Definition lift {A} (r : exn + A) : M A :=
  match r with inl e => raise e | inr a => pure a end.

Definition log (lvl : level) (msg : string) : M unit :=
  fun w => (Val tt, w, [EvLog lvl msg]).

Definition sleep (secs : nat) : M unit :=
  fun w => (Val tt, time_sleep secs w, [EvSleep secs]).

Definition new_uuid : M string := fun w =>
  match uuid4 w with (u, w1) => (Val u, w1, [EvUuid u]) end.

End Monad.

Notation "x <- m ;; k" := (bind m (fun x => k))
  (at level 61, m at next level, right associativity).
Notation "m ;; k" := (bind m (fun _ => k))
  (at level 61, right associativity).

(** ** The handler *)

Definition nl : string := String (ascii_of_nat 10) EmptyString.

Definition std_headers : list (string * string) :=
  [("Content-Type", "application/json"); ("Access-Control-Allow-Origin", "*")].

Definition bucket_name : string := "awshugb".
Definition api_url : string := "Model_URL".
Definition max_retries : nat := 12.
Definition max_context_length : nat := 2000.

Section Handler.

Context {E : Env}.

(** How often the model lets the [while True] loop repeat its body
    (the code has no such bound). *)
Variable fuel : nat.

(** [error_details if error_details else str(error_message)] *)
Definition details_or (error_message : string) (error_details : option string)
  : string :=
  match error_details with
  | Some d => if d =? "" then error_message else d
  | None => error_message
  end.

Definition create_error_response (status : Z) (error_message : string)
           (error_details : option string) : response :=
  {| statusCode := status;
     headers := std_headers;
     body := json_dumps
               (JObj [("error", JStr error_message);
                      ("details", JStr (details_or error_message error_details))]) |}.

(** [v.get(k, default)] *)
Definition py_get (v : json) (k : string) (default : json) : exn + json :=
  match v with
  | JObj f => inr (match lookup k f with Some x => x | None => default end)
  | _ => inl (no_attribute v "get")
  end.

(** [json.loads(v)] *)
Definition loads (v : json) : exn + json :=
  match v with
  | JStr s => json_loads s
  | _ => inl (mkExn TypeError
                ("the JSON object must be str, bytes or bytearray, not "
                 ++ type_name v))
  end.

(** [base64.b64decode(v)] *)
Definition decode (v : json) : exn + bytes :=
  match v with
  | JStr s => b64decode s
  | _ => inl (mkExn TypeError
                ("argument should be a bytes-like object or ASCII string, not '"
                 ++ type_name v ++ "'"))
  end.

(** [str(v)], as an f-string formats it. *)
Definition str (v : json) : string :=
  match v with JStr s => s | _ => py_repr v end.

Definition get_detection (job_id : string) (token : option string)
  : M detection :=
  call (get_document_text_detection job_id token) (EvGet job_id token).

(** [if next_token:] *)
Definition has_token (t : option string) : bool :=
  match t with Some s => negb (s =? "") | None => false end.

(** The [for block in response.get('Blocks', [])] loop: the texts of
    the LINE blocks, in order. *)
Definition is_line (b : block) : bool :=
  match BlockType b with Some t => t =? "LINE" | None => false end.

Definition block_text (b : block) : string :=
  match Text b with Some t => t | None => "" end.

Definition page_lines (response : detection) : list string :=
  map block_text
      (filter is_line (match Blocks response with Some l => l | None => [] end)).

(** [job_status.get('StatusMessage', 'No error details available')] *)
Definition status_message (job_status : detection) : string :=
  match StatusMessage job_status with
  | Some m => m
  | None => "No error details available"
  end.

(** The [while True] loop, entered with [pages_text] and [next_token];
    [n] bounds how often the body is repeated. *)
Fixpoint paginate (n : nat) (job_id : string) (job_status : detection)
         (pages_text : list string) (next_token : option string)
  : M (list string) :=
  response <- (if has_token next_token
               then get_detection job_id next_token
               else pure job_status) ;;
  let pages_text := (pages_text ++ page_lines response)%list in
  let next_token := NextToken response in
  if has_token next_token
  then match n with
       | O => spin
       | S n' => paginate n' job_id job_status pages_text next_token
       end
  else pure pages_text.

(** The [for attempt in range(max_retries)] loop with [n] attempts
    left; its value is [text] as the loop leaves it. *)
Fixpoint poll_loop (n : nat) (attempt : nat) (job_id : string) : M string :=
  match n with
  | O => pure ""
  | S n' =>
      job_status <- get_detection job_id None ;;
      status <- (match JobStatus job_status with
                 | Some s => pure s
                 | None => raise (key_error "JobStatus")
                 end) ;;
      log INFO ("Textract job status: " ++ status ++ " (attempt "
                ++ str_nat (attempt + 1) ++ ")") ;;
      if status =? "SUCCEEDED" then
        pages_text <- paginate fuel job_id job_status [] None ;;
        let text := String.concat " " pages_text in
        log INFO ("Extracted text length: " ++ str_nat (String.length text)) ;;
        pure text
      else if status =? "FAILED" then
        ret (create_error_response 500 "Textract processing failed"
               (Some (status_message job_status)))
      else
        sleep 5 ;;
        poll_loop n' (S attempt) job_id
  end.

Definition make_prompt (text_chunk question : string) : string :=
  "Provide a detailed answer to the following question based on the context. Only respond with the answer, without any additional questions."
  ++ nl ++ nl ++ "Context: " ++ text_chunk
  ++ nl ++ nl ++ "Question: " ++ question
  ++ nl ++ nl ++ "Answer:".

(** Lines 151-154: the generated text of the reply. *)
Definition generated_text (response_data : json) : exn + json :=
  match response_data with
  | JArr l =>
      match l with
      | first :: _ => py_get first "generated_text" (JStr "No answer found")
      | [] => inl (mkExn IndexError "list index out of range")
      end
  | _ => py_get response_data "generated_text" (JStr "No answer found")
  end.

(** Line 157: [answer.replace(prompt, '').strip()] *)
Definition clean_answer (prompt : string) (answer : json) : exn + string :=
  match answer with
  | JStr a => inr (strip (replace prompt "" a))
  | _ => inl (no_attribute answer "replace")
  end.

(** Lines 151-157 together. *)
Definition parse_answer (prompt : string) (response_data : json)
  : exn + string :=
  match generated_text response_data with
  | inl e => inl e
  | inr answer => clean_answer prompt answer
  end.

Definition text_preview (text : string) : string :=
  if (200 <? String.length text)%nat then slice_to 200 text ++ "..." else text.

Definition success_response (question : json) (answer text : string)
  : response :=
  {| statusCode := 200;
     headers := std_headers;
     body := json_dumps
               (JObj [("question", question);
                      ("answer", JStr answer);
                      ("textPreview", JStr (text_preview text))]) |}.

(** Lines 115-181: the inference stage with its [except] clause. *)
Definition inference (text : string) (question : json) (pdf_key : string)
  : M unit :=
  try_except
    (let text_chunk := slice_to max_context_length text in
     let prompt := make_prompt text_chunk (str question) in
     api_response <- call (requests_post api_url prompt)
                          (EvPost api_url prompt) ;;
     log INFO ("HF API Status: " ++ str_Z (status_code api_response)) ;;
     log INFO ("HF API Response: " ++ resp_text api_response) ;;
     if negb (status_code api_response =? 200)%Z then
       ret (create_error_response 500
              ("Hugging Face API error: " ++ resp_text api_response) None)
     else
       response_data <- lift (resp_json api_response) ;;
       answer <- lift (parse_answer prompt response_data) ;;
       try_except
         (call (delete_object bucket_name pdf_key)
               (EvDelete bucket_name pdf_key) ;;
          log INFO ("Deleted PDF from S3: " ++ pdf_key))
         is_ClientError
         (fun e => log ERROR ("Error deleting PDF from S3: " ++ exn_msg e)) ;;
       ret (success_response question answer text))
    is_RequestException
    (fun e => ret (create_error_response 500
                     ("Error calling Hugging Face API: " ++ exn_msg e) None)).

(** Lines 63-184: the Textract stage with its [except] clause. *)
Definition textract (question : json) (pdf_key : string) : M unit :=
  try_except
    (call (boto3_client "textract") (EvClient "textract") ;;
     start_response <- call (start_document_text_detection bucket_name pdf_key)
                            (EvStart bucket_name pdf_key) ;;
     job_id <- (match JobId start_response with
                | Some j => pure j
                | None => raise (key_error "JobId")
                end) ;;
     log INFO ("Started Textract job: " ++ job_id) ;;
     text <- poll_loop max_retries 0 job_id ;;
     if text =? "" then
       ret (create_error_response 500 "Textract processing timeout" None)
     else
       inference text question pdf_key)
    (fun _ => true)
    (fun e => ret (create_error_response 500
                     ("Textract processing error: " ++ exn_msg e) None)).

(** Lines 44-48. *)
Definition missing_params (pdf_base64 question : json) : list string :=
  ((if truthy pdf_base64 then [] else ["pdf_base64"])
   ++ (if truthy question then [] else ["question"]))%list.

(** Lines 30-184: the body of the outermost [try]. *)
Definition lambda_body (event : json) : M unit :=
  log INFO ("Incoming event: " ++ json_dumps event) ;;
  body <- try_except
            (raw <- lift (py_get event "body" (JStr "{}")) ;;
             lift (loads raw))
            is_JSONDecodeError
            (fun _ => ret (create_error_response 400
                             "Invalid JSON in request body" None)) ;;
  pdf_base64 <- lift (py_get body "pdf_base64" JNull) ;;
  question <- lift (py_get body "question" JNull) ;;
  if negb (truthy pdf_base64 && truthy question) then
    ret (create_error_response 400
           ("Missing required parameters: "
            ++ String.concat ", " (missing_params pdf_base64 question)) None)
  else
    u <- new_uuid ;;
    let pdf_key := "uploads/" ++ u ++ ".pdf" in
    call (boto3_client "s3") (EvClient "s3") ;;
    try_except
      (pdf_data <- lift (decode pdf_base64) ;;
       call (put_object bucket_name pdf_key pdf_data)
            (EvPut bucket_name pdf_key pdf_data) ;;
       log INFO "Successfully uploaded PDF to S3")
      is_ClientError
      (fun e => ret (create_error_response 500
                       ("S3 upload error: " ++ exn_msg e) None)) ;;
    textract question pdf_key.

Definition lambda_handler (event : json) : M unit :=
  try_except
    (lambda_body event)
    (fun _ => true)
    (fun e =>
       log ERROR ("Unexpected error: " ++ exn_msg e) ;;
       ret (create_error_response 500 ("Unexpected error: " ++ exn_msg e) None)).

End Handler.

(** ** Reading a trace *)

(** The replies to the status polls: the calls of
    [get_document_text_detection] without a continuation token. *)
Fixpoint polls (t : list event) : list (exn + detection) :=
  match t with
  | [] => []
  | EvGet _ None r :: t' => r :: polls t'
  | _ :: t' => polls t'
  end.

(** The page fetches: the calls with a continuation token. *)
Fixpoint fetch_events (t : list event) : list event :=
  match t with
  | [] => []
  | EvGet j (Some tok) r :: t' => EvGet j (Some tok) r :: fetch_events t'
  | _ :: t' => fetch_events t'
  end.

(** The pages that the fetches delivered. *)
Fixpoint fetched_pages (t : list event) : list detection :=
  match t with
  | [] => []
  | EvGet _ (Some _) (inr d) :: t' => d :: fetched_pages t'
  | _ :: t' => fetched_pages t'
  end.

(** No fetch raised. *)
Fixpoint fetches_ok (t : list event) : bool :=
  match t with
  | [] => true
  | EvGet _ (Some _) (inl _) :: _ => false
  | _ :: t' => fetches_ok t'
  end.

(** The calls of the inference endpoint. *)
Fixpoint posts (t : list event) : list (string * string * (exn + http_reply)) :=
  match t with
  | [] => []
  | EvPost u p r :: t' => (u, p, r) :: posts t'
  | _ :: t' => posts t'
  end.

(** The results of the deletions of the staged document. *)
Fixpoint deletes (t : list event) : list (exn + unit) :=
  match t with
  | [] => []
  | EvDelete _ _ r :: t' => r :: deletes t'
  | _ :: t' => deletes t'
  end.

(** The status polls and the sleeps, in the order they happened. *)
Fixpoint timeline (t : list event) : list event :=
  match t with
  | [] => []
  | EvGet j None r :: t' => EvGet j None r :: timeline t'
  | EvSleep n :: t' => EvSleep n :: timeline t'
  | _ :: t' => timeline t'
  end.

(** The calls of S3, Textract and the inference endpoint. *)
Definition is_service_call (e : event) : bool :=
  match e with
  | EvPut _ _ _ _ | EvDelete _ _ _ | EvStart _ _ _ | EvGet _ _ _
  | EvPost _ _ _ => true
  | _ => false
  end.

(** A status poll that found the job neither succeeded nor failed (the
    code treats every such status alike, RUNNING or IN_PROGRESS). *)
Definition in_progress (r : exn + detection) : bool :=
  match r with
  | inr d =>
      match JobStatus d with
      | Some s => negb (s =? "SUCCEEDED") && negb (s =? "FAILED")
      | None => false
      end
  | inl _ => false
  end.

(** [chain j tok t]: the trace [t] is a run of page fetches for job [j]
    in which the first fetch uses the token [tok], every later one the
    token of the page before it, and nothing follows a fetch that
    raised. *)
Fixpoint chain (j : string) (tok : option string) (t : list event) : Prop :=
  match t with
  | [] => True
  | EvGet j' tok' r :: t' =>
      j' = j /\ tok' = tok /\ has_token tok = true /\
      match r with
      | inr d => chain j (NextToken d) t'
      | inl _ => t' = []
      end
  | _ :: _ => False
  end.

(** How the pagination loop ends, read off its fetches: [acc] holds the
    lines collected so far and [tok] is the token of the latest page. *)
Fixpoint pag_outcome (acc : list string) (tok : option string)
         (t : list event) : outcome (list string) :=
  match t with
  | [] => if has_token tok then Spin else Val acc
  | EvGet _ _ (inr d) :: t' =>
      pag_outcome (acc ++ page_lines d)%list (NextToken d) t'
  | EvGet _ _ (inl e) :: _ => Exc e
  | _ :: _ => Spin
  end.

(** The continuation token in force after the pages [ps], when the one
    before them was [tok]: the token of the last page. *)
Definition final_token (tok : option string) (ps : list detection)
  : option string :=
  fold_left (fun _ p => NextToken p) ps tok.

(** The text assembled from a list of pages. *)
Definition extracted_text (pages : list detection) : string :=
  String.concat " " (flat_map page_lines pages).

(** ** The extracted text, in the words of the specification

    The texts of exactly the blocks whose BlockType is LINE, page after
    page and block after block within a page, joined by single spaces.
    A LINE block that carries no text counts with the empty text. *)

Definition blocks_as_stated (pages : list detection) : list block :=
  flat_map (fun page => match Blocks page with Some l => l | None => [] end)
           pages.

Fixpoint line_texts_as_stated (blocks : list block) : list string :=
  match blocks with
  | [] => []
  | b :: rest =>
      match BlockType b with
      | Some kind =>
          if string_dec kind "LINE"
          then match Text b with Some s => s | None => "" end
               :: line_texts_as_stated rest
          else line_texts_as_stated rest
      | None => line_texts_as_stated rest
      end
  end.

Definition text_as_stated (pages : list detection) : string :=
  String.concat " " (line_texts_as_stated (blocks_as_stated pages)).

(** ** Statements about all runs *)

(** [post m P]: whatever the world does, a run of [m] ends with an
    outcome and a trace that satisfy [P]. *)
Definition post {E : Env} {A} (m : M A)
           (P : outcome A -> list event -> Prop) : Prop :=
  forall w, match m w with (o, _, t) => P o t end.

(** [settled m1 m2]: a run of [m1] that comes to an end is a run of
    [m2] as well, with the same outcome, world and trace.  It relates
    a loop on little fuel to the same loop on more. *)
Definition settled {E : Env} {A} (m1 m2 : M A) : Prop :=
  forall w o w' t, m1 w = (o, w', t) -> o <> Spin -> m2 w = (o, w', t).

(** ** The answer, in the words of the specification

    The answer candidate is the first element when the reply is a
    sequence and the reply itself otherwise; its generated text is the
    field of that name, or a placeholder when the field is absent. *)



(** ** The stages of a run *)

(** Events before the polling starts: anything but a poll, a fetch, a
    sleep, an inference call or a deletion. *)
Definition quiet_event (e : event) : bool :=
  match e with
  | EvGet _ _ _ | EvSleep _ | EvPost _ _ _ | EvDelete _ _ _ => false
  | _ => true
  end.

Definition quiet (t : list event) : Prop := forallb quiet_event t = true.

Section Stages.

Context {E : Env}.
Variable fuel : nat.

(** Lines 35, 41 and 42: the parsed body of the request and a field of
    it. *)
Definition request_body (event : json) : exn + json :=
  match py_get event "body" (JStr "{}") with
  | inl e => inl e
  | inr raw => loads raw
  end.

Definition request_field (event : json) (k : string) : exn + json :=
  match request_body event with
  | inl e => inl e
  | inr body => py_get body k JNull
  end.

Definition timeout_response : response :=
  create_error_response 500 "Textract processing timeout" None.

Definition failed_response (job_status : detection) : response :=
  create_error_response 500 "Textract processing failed"
                        (Some (status_message job_status)).

Definition textract_error (e : exn) : response :=
  create_error_response 500 ("Textract processing error: " ++ exn_msg e) None.

Definition inference_error (e : exn) : response :=
  create_error_response 500
                        ("Error calling Hugging Face API: " ++ exn_msg e) None.

Definition api_error (api_response : http_reply) : response :=
  create_error_response 500
                        ("Hugging Face API error: " ++ resp_text api_response)
                        None.

(** What becomes of an exception raised in the inference stage: the
    stage's own [except] clause takes a RequestException, anything
    else leaves the stage. *)
Definition escape (e : exn) : outcome unit :=
  if is_RequestException e then Ret (inference_error e) else Exc e.

(** The inference stage, as a reading of its trace: the call of the
    endpoint, two log lines, and after a usable answer the deletion of
    the staged document. *)
Definition inference_spec (text : string) (question : json) (pdf_key : string)
           (o : outcome unit) (t : list event) : Prop :=
  let prompt := make_prompt (slice_to max_context_length text) (str question) in
  exists res rest,
    t = EvPost api_url prompt res :: rest /\
    match res with
    | inl e => rest = [] /\ o = escape e
    | inr api =>
        exists rest',
        rest = EvLog INFO ("HF API Status: " ++ str_Z (status_code api))
               :: EvLog INFO ("HF API Response: " ++ resp_text api) :: rest' /\
        if negb (status_code api =? 200)%Z
        then rest' = [] /\ o = Ret (api_error api)
        else
          match resp_json api with
          | inl e => rest' = [] /\ o = escape e
          | inr response_data =>
              match parse_answer prompt response_data with
              | inl e => rest' = [] /\ o = escape e
              | inr answer =>
                  exists deleted rest'',
                  rest' = EvDelete bucket_name pdf_key deleted :: rest'' /\
                  match deleted with
                  | inr _ =>
                      rest'' = [EvLog INFO ("Deleted PDF from S3: " ++ pdf_key)] /\
                      o = Ret (success_response question answer text)
                  | inl e =>
                      if is_ClientError e
                      then rest'' = [EvLog ERROR ("Error deleting PDF from S3: "
                                                  ++ exn_msg e)] /\
                           o = Ret (success_response question answer text)
                      else rest'' = [] /\ o = escape e
                  end
              end
          end
    end.

(** What follows the polling loop in a run that reached it. *)
Definition continued (question : json) (key : string)
           (op : outcome string) (tail : list event) (o : outcome unit)
  : Prop :=
  match op with
  | Val text =>
      if text =? ""
      then tail = [] /\ o = Ret timeout_response
      else exists oi,
          inference_spec text question key oi tail /\
          o = match oi with Exc e => Ret (textract_error e) | _ => oi end
  | Ret r => tail = [] /\ o = Ret r
  | Exc e => tail = [] /\ o = Ret (textract_error e)
  | Spin => tail = [] /\ o = Spin
  end.

(** A run from the first status poll on: the polling loop, then
    either nothing more or the inference stage. *)
Definition polled (ev : json) (o : outcome unit) (t : list event) : Prop :=
  exists job_id question pdf_key op tp tail,
    t = (tp ++ tail)%list /\
    request_field ev "question" = inr question /\
    (exists w w', poll_loop fuel max_retries 0 job_id w = (op, w', tp)) /\
    match op with
    | Val text =>
        if text =? ""
        then tail = [] /\ o = Ret timeout_response
        else exists oi,
            (exists w w', inference text question pdf_key w = (oi, w', tail)) /\
            o = match oi with Exc e => Ret (textract_error e) | _ => oi end
    | Ret r => tail = [] /\ o = Ret r
    | Exc e => tail = [] /\ o = Ret (textract_error e)
    | Spin => tail = [] /\ o = Spin
    end.

(** Every run: quiet preparations, and then either an error response
    or the polling and what follows it. *)
Definition staged (ev : json) (o : outcome unit) (t : list event) : Prop :=
  exists pre rest,
    t = (pre ++ rest)%list /\ quiet pre /\
    ((rest = [] /\
      exists s m, (s = 400 \/ s = 500)%Z /\
                  o = Ret (create_error_response s m None))
     \/ polled ev o rest).

End Stages.

(** The environment [E] with another [delete_object]. *)
Definition with_delete (E : Env)
           (del : string -> string -> @World E -> (exn + unit) * @World E) : Env :=
  {| World := @World E;
     uuid4 := @uuid4 E;
     boto3_client := @boto3_client E;
     put_object := @put_object E;
     delete_object := del;
     start_document_text_detection := @start_document_text_detection E;
     get_document_text_detection := @get_document_text_detection E;
     requests_post := @requests_post E;
     time_sleep := @time_sleep E;
     json_loads := @json_loads E;
     json_dumps := @json_dumps E;
     py_repr := @py_repr E;
     b64decode := @b64decode E |}.

(** ** Five claims as the specification states them

    These readings of the specification do not hold of the handler;
    they are refuted below, next to the statements that do hold. *)

(** A FAILED job gives a 500 response whose details are the service's
    status message when present and the placeholder otherwise. *)
Definition failure_details_as_stated : Prop :=
  forall (E : Env) fuel ev w o w' t k d,
    lambda_handler fuel ev w = (o, w', t) ->
    nth_error (polls t) k = Some (inr d) ->
    JobStatus d = Some "FAILED" ->
    exists r,
      o = Ret r /\ statusCode r = 500%Z /\
      body r = json_dumps (JObj [("error", JStr "Textract processing failed");
                                 ("details", JStr (status_message d))]).

(** A field of the parsed body is absent or empty. *)
Definition absent_or_empty (body : json) (k : string) : bool :=
  match body with
  | JObj f =>
      match lookup k f with
      | None | Some JNull | Some (JArr []) | Some (JObj []) => true
      | Some (JStr s) => s =? ""
      | Some _ => false
      end
  | _ => true
  end.

(** Every request whose body parses and lacks a field is answered
    with status 400. *)
Definition missing_parameters_as_stated : Prop :=
  forall (E : Env) fuel ev body w o w' t,
    request_body ev = inr body ->
    absent_or_empty body "pdf_base64" || absent_or_empty body "question" = true ->
    lambda_handler fuel ev w = (o, w', t) ->
    exists r, o = Ret r /\ statusCode r = 400%Z.

(** Of two runs on the same request that saw the same replies of
    Textract and of the endpoint, one with a successful deletion and one
    with a failed deletion, the second returns what the first returns. *)
Definition deletion_failure_as_stated : Prop :=
  forall (E : Env) fuel ev w1 w2 o1 o2 w1' w2' t1 t2 e,
    lambda_handler fuel ev w1 = (o1, w1', t1) ->
    lambda_handler fuel ev w2 = (o2, w2', t2) ->
    polls t1 = polls t2 ->
    fetched_pages t1 = fetched_pages t2 ->
    posts t1 = posts t2 ->
    deletes t1 = [inr tt] ->
    deletes t2 = [inl e] ->
    o2 = o1.

(** Every run of the handler comes to an end and returns a response. *)
Definition always_responds_as_stated : Prop :=
  forall (E : Env) ev (w : @World E),
    exists fuel r w' t, @lambda_handler E fuel ev w = (Ret r, w', t).

(** A 200 reply of the endpoint whose body cannot be parsed is reported
    as a Textract processing error with the message of the exception
    that [.json()] raised. *)
Definition unparseable_reply_as_stated : Prop :=
  forall (E : Env) fuel ev w o w' t u p api e,
    lambda_handler fuel ev w = (o, w', t) ->
    In (u, p, inr api) (posts t) ->
    status_code api = 200%Z ->
    resp_json api = inl e ->
    is_JSONDecodeError e = true ->
    o = Ret (textract_error e).

(** ** A scripted environment

    A test double for the outside world, used to run the handler on
    concrete inputs.  The state of the world is a script of what the
    services are going to answer; [get_document_text_detection] takes
    its replies from the script one after the other.  [json.loads]
    knows a fixed table of documents. *)

Module Scripted.

Record script : Type := mkScript {
  put_reply : exn + unit;
  start_reply_of : exn + start_reply;
  get_replies : list (exn + detection);
  post_reply : exn + http_reply;
  delete_reply : exn + unit
}.

Definition request : json :=
  JObj [("pdf_base64", JStr "JVBERi0="); ("question", JStr "Who?")].

(** The documents that [json.loads] knows, by their text. *)
Definition docs : list (string * json) :=
  [("REQ", request);
   ("NOPDF", JObj [("question", JStr "Who?")]);
   ("{}", JObj []);
   ("[]", JArr [])].

Fixpoint find_doc (s : string) (l : list (string * json)) : exn + json :=
  match l with
  | [] => inl (mkExn JSONDecodeError "Expecting value: line 1 column 1 (char 0)")
  | (k, v) :: rest => if k =? s then inr v else find_doc s rest
  end.

Definition quoted (s : string) : string :=
  String (ascii_of_nat 34) (s ++ String (ascii_of_nat 34) EmptyString).

(** A plain serializer (no escapes), in the layout of [json.dumps]. *)
Fixpoint dumps (v : json) : string :=
  match v with
  | JNull => "null"
  | JBool true => "true"
  | JBool false => "false"
  | JNum z => str_Z z
  | JStr s => quoted s
  | JArr l => "[" ++ String.concat ", " (map dumps l) ++ "]"
  | JObj f =>
      "{" ++ String.concat ", "
               (map (fun kv => quoted (fst kv) ++ ": " ++ dumps (snd kv)) f)
          ++ "}"
  end.

Definition no_reply : exn := mkExn ClientError "no reply scripted".

Definition next_get (w : script) : (exn + detection) * script :=
  match get_replies w with
  | [] => (inl no_reply, w)
  | r :: rest =>
      (r, mkScript (put_reply w) (start_reply_of w) rest (post_reply w)
                   (delete_reply w))
  end.

Definition env : Env :=
  {| World := script;
     uuid4 := fun w => ("0000", w);
     boto3_client := fun _ w => (inr tt, w);
     put_object := fun _ _ _ w => (put_reply w, w);
     delete_object := fun _ _ w => (delete_reply w, w);
     start_document_text_detection := fun _ _ w => (start_reply_of w, w);
     get_document_text_detection := fun _ _ w => next_get w;
     requests_post := fun _ _ w => (post_reply w, w);
     time_sleep := fun _ w => w;
     json_loads := fun d => find_doc d docs;
     json_dumps := dumps;
     py_repr := dumps;
     b64decode := fun d => inr (list_byte_of_string d) |}.

(** The handler run on an event in a scripted world. *)
Definition run (fuel : nat) (s : script) (ev : json)
  : outcome unit * list event :=
  match @lambda_handler env fuel ev s with
  | (o, _, t) => (o, t)
  end.

Definition event_of (body_text : string) : json :=
  JObj [("body", JStr body_text)].

Definition line (s : string) : block := mkBlock (Some "LINE") (Some s).
Definition word (s : string) : block := mkBlock (Some "WORD") (Some s).

Definition page (status : string) (bs : list block) (tok : option string)
  : exn + detection :=
  inr (mkDetection (Some status) None (Some bs) tok).

Definition answer_reply (generated : string) : exn + http_reply :=
  inr (mkHttp 200 "<reply>" (inr (JArr [JObj [("generated_text", JStr generated)]]))).

(** Everything goes well: the job succeeds at the second poll and has
    two pages. *)
Definition happy : script :=
  {| put_reply := inr tt;
     start_reply_of := inr (mkStart (Some "job-1"));
     get_replies :=
       [page "RUNNING" [] None;
        page "SUCCEEDED" [line "Hello"; word "Hello"; line "world"] (Some "t1");
        page "SUCCEEDED" [line "again"] None];
     post_reply := answer_reply "  Alice  ";
     delete_reply := inr tt |}.

(** As [happy], with other answers of Textract, of the endpoint and of
    the deletion. *)
Definition with_gets (l : list (exn + detection)) (s : script) : script :=
  mkScript (put_reply s) (start_reply_of s) l (post_reply s) (delete_reply s).

Definition with_post (r : exn + http_reply) (s : script) : script :=
  mkScript (put_reply s) (start_reply_of s) (get_replies s) r (delete_reply s).

Definition with_deletion (r : exn + unit) (s : script) : script :=
  mkScript (put_reply s) (start_reply_of s) (get_replies s) (post_reply s) r.

(** A job that never leaves RUNNING. *)
Definition stuck : script :=
  with_gets (repeat (page "RUNNING" [] None) 20) happy.

(** A job that succeeds with a page that holds no line. *)
Definition blank : script :=
  with_gets [page "SUCCEEDED" [word "Hello"] None] happy.

(** A job that fails at the second poll, with an empty status message. *)
Definition failing : script :=
  with_gets [page "RUNNING" [] None;
             inr (mkDetection (Some "FAILED") (Some "") None None)] happy.

(** The deletion fails, with a ClientError and with a connection error
    that is none. *)
Definition denied : script :=
  with_deletion (inl (mkExn ClientError "AccessDenied")) happy.

Definition unreachable : script :=
  with_deletion
    (inl (mkExn OtherError "Could not connect to the endpoint URL")) happy.

(** The endpoint answers with an empty sequence. *)
Definition speechless : script :=
  with_post (inr (mkHttp 200 "[]" (inr (JArr [])))) happy.

End Scripted.

(** An environment in which Textract never runs out of pages: every
    reply is a SUCCEEDED page with a continuation token. *)
Module Endless.

Definition the_page : detection :=
  mkDetection (Some "SUCCEEDED") None
              (Some [mkBlock (Some "LINE") (Some "Hello")]) (Some "more").

Definition env : Env :=
  {| World := unit;
     uuid4 := fun w => ("0000", w);
     boto3_client := fun _ w => (inr tt, w);
     put_object := fun _ _ _ w => (inr tt, w);
     delete_object := fun _ _ w => (inr tt, w);
     start_document_text_detection :=
       fun _ _ w => (inr (mkStart (Some "job-1")), w);
     get_document_text_detection := fun _ _ w => (inr the_page, w);
     requests_post := fun _ _ w => (Scripted.answer_reply "Alice", w);
     time_sleep := fun _ w => w;
     json_loads := fun d => Scripted.find_doc d Scripted.docs;
     json_dumps := Scripted.dumps;
     py_repr := Scripted.dumps;
     b64decode := fun d => inr (list_byte_of_string d) |}.

End Endless.

(** * The rest of the handler

    The parts of a run before the polling and the calls of S3 and
    Textract, read off the trace. *)

(** The uploads: bucket, key and result of each [put_object]. *)
Fixpoint puts (t : list event) : list (string * string * (exn + unit)) :=
  match t with
  | [] => []
  | EvPut b k _ r :: t' => (b, k, r) :: puts t'
  | _ :: t' => puts t'
  end.

(** The job submissions: bucket, key and result. *)
Fixpoint starts (t : list event) : list (string * string * (exn + start_reply)) :=
  match t with
  | [] => []
  | EvStart b k r :: t' => (b, k, r) :: starts t'
  | _ :: t' => starts t'
  end.

(** Bucket and key of each deletion. *)
Fixpoint deleted_keys (t : list event) : list (string * string) :=
  match t with
  | [] => []
  | EvDelete b k _ :: t' => (b, k) :: deleted_keys t'
  | _ :: t' => deleted_keys t'
  end.

(** The job identifier of each call of [get_document_text_detection]. *)
Fixpoint get_jobs (t : list event) : list string :=
  match t with
  | [] => []
  | EvGet j _ _ :: t' => j :: get_jobs t'
  | _ :: t' => get_jobs t'
  end.

(** The identifiers drawn from [uuid.uuid4]. *)
Fixpoint uuids (t : list event) : list string :=
  match t with
  | [] => []
  | EvUuid u :: t' => u :: uuids t'
  | _ :: t' => uuids t'
  end.

(** The creations of service clients: service and result. *)
Fixpoint clients (t : list event) : list (string * (exn + unit)) :=
  match t with
  | [] => []
  | EvClient s r :: t' => (s, r) :: clients t'
  | _ :: t' => clients t'
  end.

(** The seconds slept, all together. *)
Fixpoint slept (t : list event) : nat :=
  match t with
  | [] => 0
  | EvSleep n :: t' => n + slept t'
  | _ :: t' => slept t'
  end.

(** The events of the polling loop for job [j]: calls for that job,
    sleeps and log lines. *)
Definition polling_event (j : string) (e : event) : Prop :=
  match e with
  | EvGet j' _ _ => j' = j
  | EvSleep _ | EvLog _ _ => True
  | _ => False
  end.

Section Prelude.

Context {E : Env}.
Variable fuel : nat.

Definition invalid_json_response : response :=
  create_error_response 400 "Invalid JSON in request body" None.

Definition missing_response (pdf_base64 question : json) : response :=
  create_error_response 400
    ("Missing required parameters: "
     ++ String.concat ", " (missing_params pdf_base64 question)) None.

Definition upload_error (e : exn) : response :=
  create_error_response 500 ("S3 upload error: " ++ exn_msg e) None.

Definition unexpected_error (e : exn) : response :=
  create_error_response 500 ("Unexpected error: " ++ exn_msg e) None.

(** The outermost [except] clause at work: the exception is logged and
    reported. *)
Definition unexpected (e : exn) (o : outcome unit) (rest : list event) : Prop :=
  rest = [EvLog ERROR ("Unexpected error: " ++ exn_msg e)] /\
  o = Ret (unexpected_error e).

(** The [except ClientError] clause of the upload at work. *)
Definition upload_failed (e : exn) (o : outcome unit) (rest : list event)
  : Prop :=
  if is_ClientError e
  then rest = [] /\ o = Ret (upload_error e)
  else unexpected e o rest.

(** The key under which the document is staged. *)
Definition pdf_key_of (u : string) : string := "uploads/" ++ u ++ ".pdf".

(** A run from the start of the Textract stage on. *)
Definition submitted (question : json) (pdf_key : string)
           (o : outcome unit) (t : list event) : Prop :=
  exists client rest,
    t = EvClient "textract" client :: rest /\
    match client with
    | inl e => rest = [] /\ o = Ret (textract_error e)
    | inr _ =>
        exists started rest',
        rest = EvStart bucket_name pdf_key started :: rest' /\
        match started with
        | inl e => rest' = [] /\ o = Ret (textract_error e)
        | inr reply =>
            match JobId reply with
            | None => rest' = [] /\ o = Ret (textract_error (key_error "JobId"))
            | Some job_id =>
                exists op tp tail,
                rest' = EvLog INFO ("Started Textract job: " ++ job_id)
                        :: (tp ++ tail)%list /\
                (exists w w', poll_loop fuel max_retries 0 job_id w = (op, w', tp)) /\
                continued question pdf_key op tail o
            end
        end
    end.

(** A run from the generation of the key on, for a request with both
    parameters. *)
Definition uploaded (pdf_base64 question : json)
           (o : outcome unit) (t : list event) : Prop :=
  exists u client rest,
    t = EvUuid u :: EvClient "s3" client :: rest /\
    match client with
    | inl e => unexpected e o rest
    | inr _ =>
        match decode pdf_base64 with
        | inl e => upload_failed e o rest
        | inr pdf_data =>
            exists put rest',
            rest = EvPut bucket_name (pdf_key_of u) pdf_data put :: rest' /\
            match put with
            | inl e => upload_failed e o rest'
            | inr _ =>
                exists rest'',
                rest' = EvLog INFO "Successfully uploaded PDF to S3" :: rest'' /\
                submitted question (pdf_key_of u) o rest''
            end
        end
    end.

(** A whole run of the handler, read off its trace. *)
Definition handled (ev : json) (o : outcome unit) (t : list event) : Prop :=
  exists rest,
    t = EvLog INFO ("Incoming event: " ++ json_dumps ev) :: rest /\
    match request_body ev with
    | inl e =>
        if is_JSONDecodeError e
        then rest = [] /\ o = Ret invalid_json_response
        else unexpected e o rest
    | inr body =>
        match py_get body "pdf_base64" JNull with
        | inl e => unexpected e o rest
        | inr pdf_base64 =>
            match py_get body "question" JNull with
            | inl e => unexpected e o rest
            | inr question =>
                if negb (truthy pdf_base64 && truthy question)
                then rest = [] /\ o = Ret (missing_response pdf_base64 question)
                else uploaded pdf_base64 question o rest
            end
        end
    end.

End Prelude.


(** ** Worlds in which the preparations fail *)

Module Faulty.

Import Scripted.

Definition with_put (r : exn + unit) (s : script) : script :=
  mkScript r (start_reply_of s) (get_replies s) (post_reply s) (delete_reply s).

Definition with_start (r : exn + start_reply) (s : script) : script :=
  mkScript (put_reply s) r (get_replies s) (post_reply s) (delete_reply s).

(** The scripted environment with its own creation of clients and its
    own base64 decoder. *)
Definition env (client : string -> exn + unit)
           (decoder : string -> exn + bytes) : Env :=
  {| World := script;
     uuid4 := fun w => ("0000", w);
     boto3_client := fun service w => (client service, w);
     put_object := fun _ _ _ w => (put_reply w, w);
     delete_object := fun _ _ w => (delete_reply w, w);
     start_document_text_detection := fun _ _ w => (start_reply_of w, w);
     get_document_text_detection := fun _ _ w => next_get w;
     requests_post := fun _ _ w => (post_reply w, w);
     time_sleep := fun _ w => w;
     json_loads := fun d => find_doc d docs;
     json_dumps := dumps;
     py_repr := dumps;
     b64decode := decoder |}.

(** A decoder that takes nothing for base64. *)
Definition no_decoder (d : string) : exn + bytes :=
  inl (mkExn OtherError "Incorrect padding").

Definition decoder (d : string) : exn + bytes := inr (list_byte_of_string d).

Definition any_client (service : string) : exn + unit := inr tt.

Definition no_region : exn := mkExn OtherError "You must specify a region.".

(** Textract cannot be reached from here. *)
Definition only_s3 (service : string) : exn + unit :=
  if service =? "s3" then inr tt else inl no_region.

(** The upload is refused. *)
Definition locked : script :=
  with_put (inl (mkExn ClientError "AccessDenied")) happy.

(** The submission is refused. *)
Definition throttled : script :=
  with_start (inl (mkExn ClientError "ThrottlingException")) happy.

(** The second poll raises. *)
Definition interrupted : script :=
  with_gets [page "RUNNING" [] None;
             inl (mkExn ClientError "InvalidJobIdException")] happy.

(** The second page cannot be fetched. *)
Definition torn : script :=
  with_gets [page "SUCCEEDED" [line "Hello"] (Some "t1");
             inl (mkExn ClientError "ProvisionedThroughputExceededException")]
            happy.

(** The endpoint is loading its model, and cannot be reached. *)
Definition loading : script :=
  with_post (inr (mkHttp 503 "Model is loading"
                         (inl (mkExn RequestsJSONDecodeError "Expecting value"))))
            happy.

Definition offline : script :=
  with_post (inl (mkExn RequestException "Connection refused")) happy.

(** The endpoint answers 200 with a page that is no JSON: [.json()]
    raises the JSONDecodeError of [requests]. *)
Definition garbled : script :=
  with_post (inr (mkHttp 200 "<html>"
                         (inl (mkExn RequestsJSONDecodeError
                                     "Expecting value: line 1 column 1 (char 0)"))))
            happy.

End Faulty.

(** * The Streamlit front end

    A shallow embedding of [rag_app.py].  One run of the script draws
    the page, reads the widgets and, after a click with both inputs,
    asks the pipeline once.  What the user sees and what is sent are
    recorded in a trace; an exception that the script does not catch
    ends the run. *)

Module RagApp.

Inductive ui : Type :=
| StTitle (s : string)
| StWrite (s : string)
| StEmpty
| StMarkdown (s : string)
| TimeSleep (one_over : positive)
| TimeSleepZero
| RequestsPost (url : string) (payload : json)
| StSuccess (s : string)
| StError (s : string)
| StWarning (s : string).

(** A block of the script: what it showed and how it ended. *)
Definition Ui (A : Type) : Type := list ui * (exn + A).

Definition done {A} (a : A) : Ui A := ([], inr a).

Definition emit (e : ui) : Ui unit := ([e], inr tt).

Definition attempt {A} (r : exn + A) : Ui A := ([], r).

Definition and_then {A B} (m : Ui A) (k : A -> Ui B) : Ui B :=
  match m with
  | (t, inl e) => (t, inl e)
  | (t, inr a) => let (t', r) := k a in ((t ++ t')%list, r)
  end.

Local Notation "m >>= k" := (and_then m k) (at level 58, left associativity).
Local Notation "m >> k" := (and_then m (fun _ => k))
  (at level 58, left associativity).

(** ** [str.split()] and [str.join]

    [scan s] is the word at the very beginning of [s] (empty when [s]
    begins with whitespace) and the words after it. *)
Definition cons_word (word : string) (rest : list string) : list string :=
  if word =? "" then rest else word :: rest.

Fixpoint scan (s : string) : string * list string :=
  match s with
  | EmptyString => (EmptyString, [])
  | String c s' =>
      let (word, rest) := scan s' in
      if is_space c then (EmptyString, cons_word word rest)
      else (String c word, rest)
  end.

(** [s.split()]: the maximal runs of characters that are no
    whitespace. *)
Definition split (s : string) : list string :=
  let (word, rest) := scan s in cons_word word rest.

(** [" ".join(l)] *)
Definition join (l : list string) : string := String.concat " " l.

(** [text.split()] on whatever the reply holds as answer. *)
Definition split_of (text : json) : exn + list string :=
  match text with
  | JStr s => inr (split s)
  | _ => inl (no_attribute text "split")
  end.

(** [time.sleep(1 / speed)] for an integer [speed].  The quotient is
    a float: the division raises for 0, and a negative quotient makes
    [time.sleep] raise, unless the speed is so far below zero that the
    quotient is rounded to the negative zero (from -2^1075 on, half of
    the smallest float), which [time.sleep] takes.  [TimeSleep p]
    stands for the sleep of one over [p] seconds, [TimeSleepZero] for
    the one of no length. *)
Definition sleep_one_over (speed : Z) : Ui unit :=
  if (speed =? 0)%Z then attempt (inl (mkExn OtherError "division by zero"))
  else if (0 <? speed)%Z then emit (TimeSleep (Z.to_pos speed))
  else if (speed <=? - 2 ^ 1075)%Z then emit TimeSleepZero
  else attempt (inl (mkExn OtherError "sleep length must be non-negative")).

(** Lines 10-13: the loop over [range(len(tokens) + 1)]. *)
Fixpoint show (tokens : list string) (indices : list nat) (speed : Z)
  : Ui unit :=
  match indices with
  | [] => done tt
  | index :: later =>
      let curr_full_text := join (firstn index tokens) in
      emit (StMarkdown curr_full_text) >>
      sleep_one_over speed >>
      show tokens later speed
  end.

(** Lines 7-13. *)
Definition typewriter (text : json) (template : string) (speed : Z)
  : Ui unit :=
  attempt (split_of text) >>= fun tokens =>
  emit StEmpty >>
  show tokens (seq 0 (length tokens + 1)) speed.

Definition api_url : string := "Invoke_URL".

Section Script.

(** [base64.b64encode(data).decode("utf-8")] and the imported
    template. *)
Variable b64encode : bytes -> string.
Variable user_template : string.

(** Lines 18-49.  The widgets' values are what the user has put in:
    the uploaded file if any, the question, and whether the button was
    clicked; [reply] is what [requests.post] answers, should it be
    called. *)
Definition script (uploaded_pdf : option bytes) (question : string)
           (clicked : bool) (reply : exn + http_reply) : Ui unit :=
  emit (StTitle "PDF Chat - RAG Pipeline") >>
  emit (StWrite "Upload a PDF and enter a question to get answers based on the PDF content.") >>
  if clicked then
    match uploaded_pdf with
    | Some data =>
        if negb (question =? "") then
          let pdf_base64 := b64encode data in
          let payload := JObj [("pdf_base64", JStr pdf_base64);
                               ("question", JStr question)] in
          emit (RequestsPost api_url payload) >>
          attempt reply >>= fun response =>
          if (status_code response =? 200)%Z then
            attempt (resp_json response) >>= fun data =>
            attempt (py_get data "answer" (JStr "No answer found.")) >>= fun answer =>
            emit (StWrite "### Answer:") >>
            typewriter answer user_template 10 >>
            emit (StSuccess "Done!")
          else
            emit (StError "Error retrieving answer. Please try again.")
        else
          emit (StWarning "Please upload a PDF and enter a question.")
    | None =>
        emit (StWarning "Please upload a PDF and enter a question.")
    end
  else done tt.

End Script.

(** ** Reading the front end's trace *)

(** The texts the placeholder showed, one after the other. *)
Fixpoint frames (t : list ui) : list string :=
  match t with
  | [] => []
  | StMarkdown s :: t' => s :: frames t'
  | _ :: t' => frames t'
  end.

Fixpoint pauses (t : list ui) : list positive :=
  match t with
  | [] => []
  | TimeSleep p :: t' => p :: pauses t'
  | _ :: t' => pauses t'
  end.

Fixpoint requests (t : list ui) : list (string * json) :=
  match t with
  | [] => []
  | RequestsPost u p :: t' => (u, p) :: requests t'
  | _ :: t' => requests t'
  end.

(** The messages in the coloured boxes. *)
Fixpoint notices (t : list ui) : list ui :=
  match t with
  | [] => []
  | StSuccess s :: t' => StSuccess s :: notices t'
  | StError s :: t' => StError s :: notices t'
  | StWarning s :: t' => StWarning s :: notices t'
  | _ :: t' => notices t'
  end.

(** A word: not empty and without whitespace. *)
Fixpoint spaceless (s : string) : bool :=
  match s with
  | EmptyString => true
  | String c s' => negb (is_space c) && spaceless s'
  end.

Definition is_word (s : string) : bool := negb (s =? "") && spaceless s.

End RagApp.


(** * Properties *)

(** ** The string operations *)

Section Strings.

Local Open Scope string_scope.












End Strings.

Local Arguments String.append : simpl never.
Local Open Scope list_scope.

(** ** The string operations on examples *)

Example strip_ex : strip ("  a b" ++ nl ++ " ") = "a b".
Proof. reflexivity. Qed.

Example replace_ex : replace "ab" "" "xabyababz" = "xyz".
Proof. reflexivity. Qed.

Example replace_overlap_ex : replace "aa" "-" "aaa" = "-a".
Proof. reflexivity. Qed.

Example str_nat_ex : str_nat 12 = "12" /\ str_nat 0 = "0" /\ str_Z 200 = "200".
Proof. repeat split; reflexivity. Qed.

(** ** Rules for [post] *)

Section Rules.

Context {E : Env}.

Lemma post_run {A} (m : M A) P w o w' t :
  post m P -> m w = (o, w', t) -> P o t.
Proof. intros H Hr. specialize (H w). rewrite Hr in H. exact H. Qed.

Lemma post_weaken {A} (m : M A) (P Q : outcome A -> list event -> Prop) :
  post m P -> (forall o t, P o t -> Q o t) -> post m Q.
Proof.
  intros H HPQ w. specialize (H w).
  destruct (m w) as [[o w'] t]. auto.
Qed.

(** Every run is a run. *)
Lemma post_self {A} (m : M A) :
  post m (fun o t => exists w w', m w = (o, w', t)).
Proof. intros w. destruct (m w) as [[o w'] t] eqn:Hr. eauto. Qed.

Lemma post_pure {A} (a : A) P : P (Val a) [] -> post (pure a) P.
Proof. intros H w. exact H. Qed.

Lemma post_ret {A} r (P : outcome A -> _) : P (Ret r) [] -> post (ret r) P.
Proof. intros H w. exact H. Qed.

Lemma post_raise {A} e (P : outcome A -> _) : P (Exc e) [] -> post (raise e) P.
Proof. intros H w. exact H. Qed.

Lemma post_spin {A} (P : outcome A -> _) : P Spin [] -> post spin P.
Proof. intros H w. exact H. Qed.

Lemma post_log lvl msg P : P (Val tt) [EvLog lvl msg] -> post (log lvl msg) P.
Proof. intros H w. exact H. Qed.

Lemma post_sleep n P : P (Val tt) [EvSleep n] -> post (sleep n) P.
Proof. intros H w. exact H. Qed.

Lemma post_uuid P : (forall u, P (Val u) [EvUuid u]) -> post new_uuid P.
Proof. intros H w. unfold new_uuid. destruct (uuid4 w). apply H. Qed.

Lemma post_lift {A} (r : exn + A) P :
  (forall e, r = inl e -> P (Exc e) []) ->
  (forall a, r = inr a -> P (Val a) []) ->
  post (lift r) P.
Proof. intros He Ha w. destruct r; cbn; auto. Qed.

Lemma post_call {A} (op : World -> (exn + A) * World) ev P :
  (forall e, P (Exc e) [ev (inl e)]) ->
  (forall a, P (Val a) [ev (inr a)]) ->
  post (call op ev) P.
Proof.
  intros He Ha w. unfold call. destruct (op w) as [[e | a] w1]; auto.
Qed.

Lemma post_bind {A B} (m : M A) (k : A -> M B) P :
  post m (fun o t1 =>
            match o with
            | Val a => post (k a) (fun o2 t2 => P o2 (t1 ++ t2)%list)
            | Ret r => P (Ret r) t1
            | Exc e => P (Exc e) t1
            | Spin => P Spin t1
            end) ->
  post (bind m k) P.
Proof.
  intros H w. specialize (H w). unfold bind.
  destruct (m w) as [[[a | r | e |] w1] t1]; auto.
  specialize (H w1). destruct (k a w1) as [[o2 w2] t2]. exact H.
Qed.

Lemma post_try {A} (m : M A) (handles : exn -> bool) (h : exn -> M A)
      (P : outcome A -> list event -> Prop) :
  post m (fun o t1 =>
            match o with
            | Exc e =>
                if handles e
                then post (h e) (fun o2 t2 => P o2 (t1 ++ t2)%list)
                else P (Exc e) t1
            | _ => P o t1
            end) ->
  post (try_except m handles h) P.
Proof.
  intros H w. specialize (H w). unfold try_except.
  destruct (m w) as [[[a | r | e |] w1] t1]; auto.
  destruct (handles e); auto.
  specialize (H w1). destruct (h e w1) as [[o2 w2] t2]. exact H.
Qed.

End Rules.

(** Symbolic execution of handler code under [post]. *)
Ltac wp_step :=
  lazymatch goal with
  | |- post (bind _ _) _ => apply post_bind
  | |- post (try_except _ _ _) _ => apply post_try
  | |- post (pure _) _ => apply post_pure
  | |- post (ret _) _ => apply post_ret
  | |- post (raise _) _ => apply post_raise
  | |- post spin _ => apply post_spin
  | |- post (log _ _) _ => apply post_log
  | |- post (sleep _) _ => apply post_sleep
  | |- post new_uuid _ => apply post_uuid; intro
  | |- post (lift _) _ => apply post_lift; intros ? ?
  | |- post (call _ _) _ => apply post_call; intro
  | |- post (get_detection _ _) _ => unfold get_detection
  | |- post (if ?b then _ else _) _ => destruct b eqn:?
  | |- post (match ?x with _ => _ end) _ => destruct x eqn:?
  | |- if ?b then post _ _ else _ => destruct b eqn:?
  end; cbv beta iota zeta.

(** Rewrite with the equations that the case distinctions left behind. *)
Ltac recall :=
  repeat match goal with
         | H : ?x = _ |- context [?x] => rewrite H
         end.

Ltac settle :=
  repeat first [ progress cbv beta iota | progress recall | reflexivity
               | split | eexists ].

Ltac wp := repeat wp_step.

(** ** The pagination loop *)

Section Pagination.

Context {E : Env}.

Lemma paginate_fetch n : forall j d acc tok,
  has_token tok = true ->
  post (paginate n j d acc tok)
       (fun o t => chain j tok t /\ t <> [] /\ o = pag_outcome acc tok t).
Proof.
  induction n as [| n IH]; intros j d acc tok Htok;
    cbn [paginate]; rewrite Htok; wp; cbn [app chain pag_outcome];
    try rewrite Heqb; try (repeat split; (reflexivity || discriminate || assumption)).
  eapply post_weaken; [apply (IH j d _ _ Heqb) |].
  cbv beta. intros o t (Hc & _ & Ho).
  cbn [app chain pag_outcome]. repeat split; (assumption || discriminate).
Qed.

Lemma paginate_spec n j d acc tok :
  has_token tok = false ->
  post (paginate n j d acc tok)
       (fun o t => chain j (NextToken d) t /\
                   o = pag_outcome (acc ++ page_lines d) (NextToken d) t).
Proof.
  intros Htok.
  destruct n as [| n]; cbn [paginate]; rewrite Htok; wp;
    cbn [app chain pag_outcome];
    try rewrite Heqb; try (split; (reflexivity || exact I)).
  eapply post_weaken; [apply (paginate_fetch n j d _ _ Heqb) |].
  cbv beta. intros o t (Hc & _ & Ho). split; assumption.
Qed.

End Pagination.

(** ** Reading a trace: algebra *)

Section TraceAlgebra.

Ltac by_cases t IH :=
  induction t as [| [ | | | | | | ? [?|] [?|?] | | ] t IH]; intros; cbn; try rewrite IH; auto.

Lemma polls_app t1 t2 : polls (t1 ++ t2) = polls t1 ++ polls t2.
Proof. revert t2. by_cases t1 IH. Qed.

Lemma fetch_events_app t1 t2 :
  fetch_events (t1 ++ t2) = fetch_events t1 ++ fetch_events t2.
Proof. revert t2. by_cases t1 IH. Qed.

Lemma fetched_pages_app t1 t2 :
  fetched_pages (t1 ++ t2) = fetched_pages t1 ++ fetched_pages t2.
Proof. revert t2. by_cases t1 IH. Qed.

Lemma fetches_ok_app t1 t2 :
  fetches_ok (t1 ++ t2) = fetches_ok t1 && fetches_ok t2.
Proof. revert t2. by_cases t1 IH. Qed.

Lemma posts_app t1 t2 : posts (t1 ++ t2) = posts t1 ++ posts t2.
Proof. revert t2. by_cases t1 IH. Qed.

Lemma timeline_app t1 t2 : timeline (t1 ++ t2) = timeline t1 ++ timeline t2.
Proof. revert t2. by_cases t1 IH. Qed.

Lemma deletes_app t1 t2 : deletes (t1 ++ t2) = deletes t1 ++ deletes t2.
Proof. revert t2. by_cases t1 IH. Qed.

Lemma has_token_some tok :
  has_token tok = true -> exists s, tok = Some s.
Proof. destruct tok; [eauto | discriminate]. Qed.

(** A chain of fetches holds nothing but fetches. *)
Lemma chain_only_fetches j : forall t tok,
  chain j tok t ->
  fetch_events t = t /\ polls t = [] /\ posts t = [] /\ timeline t = [] /\
  deletes t = [].
Proof.
  induction t as [| e t IH]; intros tok Hc; [repeat split |].
  destruct e; cbn in Hc; try contradiction.
  destruct Hc as (-> & -> & Htok & Hr).
  destruct (has_token_some _ Htok) as [s ->].
  destruct res as [e | d].
  - subst t. repeat split.
  - destruct (IH _ Hr) as (H1 & H2 & H3 & H4 & H5).
    cbn. rewrite H1. repeat split; assumption.
Qed.

(** The pagination loop never executes a [return]. *)
Lemma pag_outcome_not_ret : forall t acc tok r, pag_outcome acc tok t <> Ret r.
Proof.
  induction t as [| e t IH]; intros acc tok r; cbn.
  - destruct (has_token tok); discriminate.
  - destruct e; try discriminate. destruct res; [discriminate | apply IH].
Qed.

(** When no fetch raised and the last page has no token, the loop
    ends with the lines of all pages. *)
Lemma pag_outcome_complete : forall t acc tok,
  fetches_ok t = true ->
  has_token (final_token tok (fetched_pages t)) = false ->
  (forall e, In e t -> exists j s r, e = EvGet j (Some s) r) ->
  pag_outcome acc tok t = Val (acc ++ flat_map page_lines (fetched_pages t)).
Proof.
  induction t as [| e t IH]; intros acc tok Hok Hlast Hall.
  - cbn in *. rewrite Hlast, app_nil_r. reflexivity.
  - destruct (Hall e (or_introl eq_refl)) as (j & s & r & ->).
    destruct r as [e | d]; [discriminate |].
    cbn in Hok, Hlast |- *. rewrite IH.
    + rewrite <- app_assoc. reflexivity.
    + assumption.
    + assumption.
    + intros e He. apply Hall. right. assumption.
Qed.

Lemma fetch_events_are_fetches : forall t e,
  In e (fetch_events t) -> exists j s r, e = EvGet j (Some s) r.
Proof.
  induction t as [| [ | | | | | | j [s|] r | | ] t IH]; intros e He;
    cbn in He; try contradiction; auto.
  destruct He as [<- | He]; eauto.
Qed.

Lemma fetch_events_idem t : fetch_events (fetch_events t) = fetch_events t.
Proof. by_cases t IH. Qed.

Lemma fetched_pages_fetch_events t :
  fetched_pages (fetch_events t) = fetched_pages t.
Proof. by_cases t IH. Qed.

Lemma fetches_ok_fetch_events t : fetches_ok (fetch_events t) = fetches_ok t.
Proof. by_cases t IH. Qed.

Lemma last_cons_indep {A} : forall (l : list A) a d d',
  last (a :: l) d = last (a :: l) d'.
Proof.
  induction l as [| b l IH]; intros a d d'; [reflexivity |].
  change (last (a :: b :: l) d) with (last (b :: l) d).
  change (last (a :: b :: l) d') with (last (b :: l) d').
  apply IH.
Qed.

(** [final_token] is the token of the last page. *)
Lemma final_token_last : forall ps d,
  final_token (NextToken d) ps = NextToken (last (d :: ps) d).
Proof.
  induction ps as [| p ps IH]; intros d; [reflexivity |].
  change (final_token (NextToken d) (p :: ps))
    with (final_token (NextToken p) ps).
  rewrite IH.
  change (last (d :: p :: ps) d) with (last (p :: ps) d).
  f_equal. apply last_cons_indep.
Qed.

End TraceAlgebra.

Ltac trace_simpl :=
  repeat (rewrite ?polls_app, ?fetch_events_app, ?posts_app, ?timeline_app,
           ?fetched_pages_app, ?fetches_ok_app, ?deletes_app, ?app_nil_r;
          cbn [app polls fetch_events posts timeline fetched_pages fetches_ok
               deletes length flat_map]).

(** ** The polling loop *)

Section Polling.

Context {E : Env}.
Variable fuel : nat.

(** The loop polls at most [n] times, never calls the inference
    endpoint, and returns only on a FAILED job. *)
Lemma poll_loop_frame n : forall attempt j,
  post (poll_loop fuel n attempt j)
       (fun o t =>
          length (polls t) <= n /\ posts t = [] /\
          (forall r, o = Ret r ->
             exists d, r = create_error_response 500 "Textract processing failed"
                             (Some (status_message d))) /\
          (forall a, o = Val a -> a = ""%string \/
             exists k d, nth_error (polls t) k = Some (inr d) /\
                         JobStatus d = Some "SUCCEEDED"%string) /\
          deletes t = []).
Proof.
  induction n as [| n IH]; intros attempt j; cbn [poll_loop]; wp.
  - cbn. repeat split; intros; try discriminate; auto.
    left. congruence.
  - cbn. repeat split; intros; try discriminate; auto. lia.
  - eapply post_weaken; [apply (paginate_spec fuel j a [] None eq_refl) |].
    cbv beta. intros o t (Hc & Ho).
    destruct (chain_only_fetches _ _ _ Hc) as (Hf & Hp & Hpo & Htl & Hdel).
    apply String.eqb_eq in Heqb. subst s.
    destruct o as [l | r | e |]; wp; trace_simpl; rewrite ?Hp, ?Hpo, ?Hdel; cbn;
      repeat split; intros; try discriminate; try lia.
    + right. exists 0, a. split; [reflexivity | assumption].
    + symmetry in Ho. apply pag_outcome_not_ret in Ho. contradiction.
  - cbn. repeat split; intros; try discriminate; try lia.
    exists a. congruence.
  - eapply post_weaken; [apply (IH (S attempt) j) |].
    cbv beta. intros o t (Hlen & Hpo & Hret & Hval & Hdel).
    trace_simpl. repeat split; auto; try lia.
    intros v Hv. destruct (Hval v Hv) as [-> | (k & d & Hk & Hd)]; auto.
    right. exists (S k), d. split; assumption.
  - cbn. repeat split; intros; try discriminate; auto. lia.
Qed.

Lemma status_neq (s c : string) d :
  (s =? c)%string = false -> JobStatus d = Some s -> JobStatus d = Some c -> False.
Proof.
  intros Hne Hs Hc. rewrite Hs in Hc. injection Hc as ->.
  rewrite String.eqb_refl in Hne. discriminate.
Qed.

(** A job that is in progress at every poll: [n] polls, a sleep of 5
    after each, no page fetch, and the loop leaves [text] empty. *)
Lemma poll_loop_running n : forall attempt j,
  post (poll_loop fuel n attempt j)
       (fun o t =>
          forallb in_progress (polls t) = true ->
          o = Val ""%string /\ length (polls t) = n /\
          timeline t = flat_map (fun r => [EvGet j None r; EvSleep 5]) (polls t) /\
          fetch_events t = []).
Proof.
  induction n as [| n IH]; intros attempt j; cbn [poll_loop]; wp.
  - cbn. auto.
  - cbn. discriminate.
  - eapply post_weaken; [apply (paginate_spec fuel j a [] None eq_refl) |].
    cbv beta. intros o t _.
    assert (Hin : in_progress (inr a) = false)
      by (cbn; rewrite Heqo, Heqb; reflexivity).
    destruct o; wp; trace_simpl; cbn [forallb]; rewrite Hin; discriminate.
  - cbn [app polls forallb in_progress]. rewrite Heqo, Heqb, Heqb0.
    discriminate.
  - eapply post_weaken; [apply (IH (S attempt) j) |].
    cbv beta. intros o t Hrun. trace_simpl. cbn [forallb].
    intros Hall. apply andb_prop in Hall. destruct Hall as [_ Hall].
    destruct (Hrun Hall) as (-> & Hlen & Htl & Hf).
    rewrite Htl, Hf, Hlen. auto.
  - cbn [app polls forallb in_progress]. rewrite Heqo. discriminate.
Qed.

(** A job found FAILED at poll [k]: the loop returns the failure
    response at once; that poll and its log line end the trace. *)
Lemma poll_loop_failed n : forall attempt j,
  post (poll_loop fuel n attempt j)
       (fun o t =>
          forall k d,
            nth_error (polls t) k = Some (inr d) ->
            JobStatus d = Some "FAILED"%string ->
            o = Ret (create_error_response 500 "Textract processing failed"
                       (Some (status_message d))) /\
            length (polls t) = S k /\ fetch_events t = [] /\
            exists pre msg, t = pre ++ [EvGet j None (inr d); EvLog INFO msg]).
Proof.
  induction n as [| n IH]; intros attempt j; cbn [poll_loop]; wp.
  - cbn. intros [| k] d H; discriminate.
  - cbn. intros [| [| k]] d H; discriminate.
  - eapply post_weaken; [apply (paginate_spec fuel j a [] None eq_refl) |].
    cbv beta. intros o t (Hc & _).
    destruct (chain_only_fetches _ _ _ Hc) as (_ & Hp & _ & _).
    apply String.eqb_eq in Heqb. subst s.
    assert (Hno : forall k d, nth_error [@inr exn _ a] k = Some (inr d) ->
                              JobStatus d = Some "FAILED"%string -> False).
    { intros [| [| k]] d H Hd; try discriminate.
      injection H as <-. rewrite Heqo in Hd. discriminate. }
    destruct o; wp; trace_simpl; rewrite ?Hp; cbn [app];
      intros k d H Hd; destruct (Hno k d H Hd).
  - cbn [app polls fetch_events]. intros [| [| k]] d H Hd; try discriminate.
    injection H as <-. repeat split.
    exists [], ("Textract job status: " ++ s ++ " (attempt "
                ++ str_nat (attempt + 1) ++ ")")%string. reflexivity.
  - eapply post_weaken; [apply (IH (S attempt) j) |].
    cbv beta. intros o t Hrun. trace_simpl.
    intros [| k] d H Hd.
    + injection H as <-. destruct (status_neq _ _ _ Heqb0 Heqo Hd).
    + destruct (Hrun k d H Hd) as (-> & Hlen & Hf & pre & msg & ->).
      repeat split; auto.
      eexists (_ :: _ :: _ :: pre), msg. reflexivity.
  - cbn. intros [| [| k]] d H Hd; try discriminate.
    injection H as <-. rewrite Heqo in Hd. discriminate.
Qed.

(** A job found SUCCEEDED at poll [k]: no poll follows, the fetches
    chain from that poll's page, and the loop ends as the pagination
    does, with the lines joined by single spaces. *)
Lemma poll_loop_succeeded n : forall attempt j,
  post (poll_loop fuel n attempt j)
       (fun o t =>
          forall k d,
            nth_error (polls t) k = Some (inr d) ->
            JobStatus d = Some "SUCCEEDED"%string ->
            length (polls t) = S k /\
            chain j (NextToken d) (fetch_events t) /\
            match pag_outcome (page_lines d) (NextToken d) (fetch_events t) with
            | Val l =>
                o = Val (String.concat " " l) /\
                In (EvLog INFO ("Extracted text length: "
                                ++ str_nat (String.length (String.concat " " l)))) t
            | Exc e => o = Exc e
            | Spin => o = Spin
            | Ret _ => False
            end).
Proof.
  induction n as [| n IH]; intros attempt j; cbn [poll_loop]; wp.
  - cbn. intros [| k] d H; discriminate.
  - cbn. intros [| [| k]] d H; discriminate.
  - eapply post_weaken; [apply (paginate_spec fuel j a [] None eq_refl) |].
    cbv beta. intros o t (Hc & Ho).
    destruct (chain_only_fetches _ _ _ Hc) as (Hf & Hp & _ & _).
    assert (Hk : forall k d, nth_error [@inr exn _ a] k = Some (inr d) ->
                             k = 0 /\ d = a).
    { intros [| [| k]] d H; try discriminate. injection H as <-. auto. }
    cbn [app] in Ho.
    destruct o; wp; trace_simpl; rewrite ?Hp, ?Hf; cbn [app];
      intros k d H Hd; destruct (Hk k d H) as [-> ->];
      (split; [reflexivity | split; [assumption |]]);
      rewrite <- Ho; auto.
    + split; [reflexivity |].
      right. right. apply in_or_app. right. left. reflexivity.
    + symmetry in Ho. apply pag_outcome_not_ret in Ho. contradiction.
  - cbn [app polls fetch_events]. intros [| [| k]] d H Hd; try discriminate.
    injection H as <-. apply String.eqb_neq in Heqb.
    rewrite Heqo in Hd. congruence.
  - eapply post_weaken; [apply (IH (S attempt) j) |].
    cbv beta. intros o t Hrun. trace_simpl.
    intros [| k] d H Hd.
    + injection H as <-. destruct (status_neq _ _ _ Heqb Heqo Hd).
    + destruct (Hrun k d H Hd) as (Hlen & Hch & Hout).
      repeat split; auto.
      destruct (pag_outcome _ _ _); auto.
      destruct Hout as [-> Hin]. split; [reflexivity |].
      right. right. right. assumption.
  - cbn. intros [| [| k]] d H Hd; try discriminate.
    injection H as <-. rewrite Heqo in Hd. discriminate.
Qed.

End Polling.

(** ** The inference stage *)

Section Inference.

Context {E : Env}.

Lemma inference_run text question key :
  post (inference text question key) (inference_spec text question key).
Proof.
  unfold inference, inference_spec. cbv zeta.
  set (prompt := make_prompt _ _).
  wp; cbn [app]; unfold escape, api_error, inference_error; settle.
Qed.

End Inference.

(** ** The shape of every run *)

Section Shape.

Context {E : Env}.
Variable fuel : nat.

Lemma staged_cons event e o t :
  quiet_event e = true -> staged fuel event o t -> staged fuel event o (e :: t).
Proof.
  intros He (pre & rest & -> & Hq & H).
  exists (e :: pre), rest. split; [reflexivity |]. split; [| exact H].
  unfold quiet in *. cbn. rewrite He. exact Hq.
Qed.

Lemma staged_early event s m :
  (s = 400 \/ s = 500)%Z ->
  staged fuel event (Ret (create_error_response s m None)) [].
Proof.
  intros Hs. exists [], []. repeat split. left. split; eauto.
Qed.

Lemma staged_polled event o t :
  polled fuel event o t -> staged fuel event o t.
Proof. intros H. exists [], t. repeat split. right. exact H. Qed.

Ltac staged_tac :=
  cbn [app];
  repeat (apply staged_cons; [reflexivity |]);
  try (apply staged_early; auto).

Ltac polled_tac :=
  repeat rewrite <- app_assoc; cbn [app]; rewrite ?app_nil_r;
  repeat (apply staged_cons; [reflexivity |]);
  apply staged_polled.

Lemma lambda_handler_staged event :
  post (lambda_handler fuel event) (staged fuel event).
Proof.
  unfold lambda_handler, lambda_body, textract. wp; try solve [staged_tac].
  eapply post_weaken; [apply post_self |]. cbv beta.
  intros op tp (w & w' & Hp).
  assert (Hq : request_field event "question" = inr a2)
    by (unfold request_field, request_body; rewrite H, H0; exact H2).
  destruct op as [text | r | e |]; wp.
  - polled_tac. exists s, a2, ("uploads/" ++ u ++ ".pdf")%string, (Val text), tp, [].
    split; [symmetry; apply app_nil_r |]. split; [exact Hq |]. split; [eauto |].
    cbv beta iota. rewrite Heqb0. split; reflexivity.
  - eapply post_weaken; [apply post_self |]. cbv beta.
    intros oi ti (w1 & w1' & Hi).
    destruct oi; wp; polled_tac;
      exists s, a2, ("uploads/" ++ u ++ ".pdf")%string, (Val text), tp, ti;
      (split; [reflexivity |]); (split; [exact Hq |]); (split; [eauto |]);
      cbv beta iota; rewrite Heqb0; eexists; (split; [eauto |]); reflexivity.
  - polled_tac. exists s, a2, ("uploads/" ++ u ++ ".pdf")%string, (Ret r), tp, [].
    split; [symmetry; apply app_nil_r |]. split; [exact Hq |]. split; [eauto |]. split; reflexivity.
  - polled_tac. exists s, a2, ("uploads/" ++ u ++ ".pdf")%string, (Exc e), tp, [].
    split; [symmetry; apply app_nil_r |]. split; [exact Hq |]. split; [eauto |]. split; reflexivity.
  - polled_tac. exists s, a2, ("uploads/" ++ u ++ ".pdf")%string, Spin, tp, [].
    split; [symmetry; apply app_nil_r |]. split; [exact Hq |]. split; [eauto |]. split; reflexivity.
Qed.

End Shape.

(** ** Reading a staged run *)

Section Views.

Context {E : Env}.
Variable fuel : nat.

Lemma quiet_views t :
  quiet t ->
  polls t = [] /\ fetch_events t = [] /\ fetched_pages t = [] /\
  fetches_ok t = true /\ posts t = [] /\ timeline t = [] /\ deletes t = [].
Proof.
  unfold quiet. induction t as [| e t IH]; cbn; [repeat split |].
  intros H. apply andb_prop in H. destruct H as [He Ht].
  specialize (IH Ht). destruct e; try discriminate; exact IH.
Qed.

Lemma inference_views text question key o t :
  inference_spec text question key o t ->
  polls t = [] /\ fetch_events t = [] /\ fetched_pages t = [] /\
  fetches_ok t = true /\ timeline t = [] /\
  exists res,
    posts t = [(api_url,
                make_prompt (slice_to max_context_length text) (str question),
                res)].
Proof.
  unfold inference_spec. cbv zeta.
  intros (res & rest & -> & H).
  destruct res as [e | api].
  - destruct H as [-> _]. cbn. repeat split. eauto.
  - destruct H as (rest' & -> & H).
    destruct (negb (status_code api =? 200)%Z);
      [destruct H as [-> _]; cbn; repeat split; eauto |].
    destruct (resp_json api) as [e | data];
      [destruct H as [-> _]; cbn; repeat split; eauto |].
    destruct (parse_answer _ data) as [e | answer];
      [destruct H as [-> _]; cbn; repeat split; eauto |].
    destruct H as (deleted & rest'' & -> & H).
    destruct deleted as [e | []].
    + destruct (is_ClientError e); destruct H as [-> _]; cbn;
        repeat split; eauto.
    + destruct H as [-> _]. cbn. repeat split; eauto.
Qed.

(** A run either ends before the first poll with an error response,
    or consists of quiet preparations, the polling loop and what
    follows it. *)
Lemma run_anatomy event w o w' t :
  lambda_handler fuel event w = (o, w', t) ->
  (quiet t /\
   exists s m, (s = 400 \/ s = 500)%Z /\ o = Ret (create_error_response s m None))
  \/ exists pre j question key op tp tail w1 w2,
      t = pre ++ tp ++ tail /\ quiet pre /\
      poll_loop fuel max_retries 0 j w1 = (op, w2, tp) /\
      continued question key op tail o /\
      request_field event "question" = inr question /\
      polls t = polls tp /\ fetch_events t = fetch_events tp /\
      fetched_pages t = fetched_pages tp /\ fetches_ok t = fetches_ok tp /\
      timeline t = timeline tp /\ posts t = posts tail /\
      deletes t = deletes tail.
Proof.
  intros Hrun.
  destruct (post_run _ _ _ _ _ _ (lambda_handler_staged fuel event) Hrun)
    as (pre & rest & -> & Hq & [[-> Hearly] | Hpolled]).
  - left. rewrite app_nil_r. auto.
  - right.
    destruct Hpolled
      as (j & q & key & op & tp & tail & -> & Hqu & (w1 & w2 & Hp) & Hc).
    destruct (quiet_views _ Hq) as (Q1 & Q2 & Q3 & Q4 & Q5 & Q6 & Q7).
    destruct (post_run _ _ _ _ _ _ (poll_loop_frame fuel max_retries 0 j) Hp)
      as (_ & Hposts & _ & _ & Hdel).
    assert (Hcont : continued q key op tail o).
    { unfold continued. destruct op as [text | r | e |]; auto.
      destruct (text =? "")%string; auto.
      destruct Hc as (oi & (w3 & w4 & Hi) & Ho).
      exists oi. split; [| exact Ho].
      exact (post_run _ _ _ _ _ _ (inference_run text q key) Hi). }
    assert (Htail : polls tail = [] /\ fetch_events tail = [] /\
                    fetched_pages tail = [] /\ fetches_ok tail = true /\
                    timeline tail = []).
    { unfold continued in Hcont. destruct op as [text | r | e |];
        try (destruct Hcont as [-> _]; repeat split).
      destruct (text =? "")%string; [destruct Hcont as [-> _]; repeat split |].
      destruct Hcont as (oi & Hspec & _).
      destruct (inference_views _ _ _ _ _ Hspec) as (? & ? & ? & ? & ? & _).
      auto. }
    destruct Htail as (T1 & T2 & T3 & T4 & T5).
    exists pre, j, q, key, op, tp, tail, w1, w2.
    trace_simpl.
    rewrite Q1, Q2, Q3, Q4, Q5, Q6, Q7, T1, T2, T3, T4, T5, Hposts, Hdel.
    cbn [app]. rewrite ?app_nil_r, ?andb_true_r.
    repeat split; auto.
Qed.

End Views.

(** ** What the stages deliver *)

Section Deliveries.

Context {E : Env}.
Variable fuel : nat.

(** After a successful poll and a pagination that ran to its end, the
    loop's text is the text of the pages. *)
Lemma poll_loop_text n attempt j w op w' tp k d :
  poll_loop fuel n attempt j w = (op, w', tp) ->
  nth_error (polls tp) k = Some (inr d) ->
  JobStatus d = Some "SUCCEEDED"%string ->
  fetches_ok tp = true ->
  has_token (final_token (NextToken d) (fetched_pages tp)) = false ->
  op = Val (extracted_text (d :: fetched_pages tp)).
Proof.
  intros Hp Hk Hd Hok Hend.
  destruct (post_run _ _ _ _ _ _ (poll_loop_succeeded fuel n attempt j) Hp k d Hk Hd)
    as (_ & _ & Hout).
  rewrite (pag_outcome_complete (fetch_events tp) (page_lines d) (NextToken d))
    in Hout.
  - rewrite fetched_pages_fetch_events in Hout. destruct Hout as [-> _].
    reflexivity.
  - rewrite fetches_ok_fetch_events. exact Hok.
  - rewrite fetched_pages_fetch_events. exact Hend.
  - apply fetch_events_are_fetches.
Qed.

Lemma pag_outcome_incomplete : forall t acc tok,
  fetches_ok t = true ->
  has_token (final_token tok (fetched_pages t)) = true ->
  (forall e, In e t -> exists j s r, e = EvGet j (Some s) r) ->
  pag_outcome acc tok t = Spin.
Proof.
  induction t as [| e t IH]; intros acc tok Hok Hlast Hall.
  - cbn in *. rewrite Hlast. reflexivity.
  - destruct (Hall e (or_introl eq_refl)) as (j & s & r & ->).
    destruct r as [e | d]; [discriminate |].
    cbn in Hok, Hlast |- *. apply IH; auto.
    intros e He. apply Hall. right. assumption.
Qed.

(** A pagination that no fetch error ended and that still holds a token
    has run out of fuel. *)
Lemma poll_loop_unfinished n attempt j w op w' tp k d :
  poll_loop fuel n attempt j w = (op, w', tp) ->
  nth_error (polls tp) k = Some (inr d) ->
  JobStatus d = Some "SUCCEEDED"%string ->
  fetches_ok tp = true ->
  has_token (final_token (NextToken d) (fetched_pages tp)) = true ->
  op = Spin.
Proof.
  intros Hp Hk Hd Hok Hend.
  destruct (post_run _ _ _ _ _ _ (poll_loop_succeeded fuel n attempt j) Hp k d Hk Hd)
    as (_ & _ & Hout).
  rewrite (pag_outcome_incomplete (fetch_events tp) (page_lines d) (NextToken d))
    in Hout.
  - exact Hout.
  - rewrite fetches_ok_fetch_events. exact Hok.
  - rewrite fetched_pages_fetch_events. exact Hend.
  - apply fetch_events_are_fetches.
Qed.

Lemma pag_outcome_val : forall t acc tok l,
  (forall e, In e t -> exists j s r, e = EvGet j (Some s) r) ->
  pag_outcome acc tok t = Val l ->
  l = acc ++ flat_map page_lines (fetched_pages t).
Proof.
  induction t as [| e t IH]; intros acc tok l Hall H.
  - cbn in *. destruct (has_token tok); [discriminate |].
    injection H as <-. rewrite app_nil_r. reflexivity.
  - destruct (Hall e (or_introl eq_refl)) as (j & s & r & ->).
    destruct r as [e | d]; [discriminate |].
    cbn in H |- *. rewrite (IH _ _ _ (fun e He => Hall e (or_intror He)) H).
    rewrite <- app_assoc. reflexivity.
Qed.

(** A text that the polling loop hands on was assembled from the pages
    of a job found SUCCEEDED at the last poll. *)
Lemma poll_loop_val n attempt j w text w' tp :
  poll_loop fuel n attempt j w = (Val text, w', tp) ->
  text <> ""%string ->
  exists k d,
    nth_error (polls tp) k = Some (inr d) /\
    JobStatus d = Some "SUCCEEDED"%string /\
    length (polls tp) = S k /\
    text = extracted_text (d :: fetched_pages tp).
Proof.
  intros Hp Htext.
  destruct (post_run _ _ _ _ _ _ (poll_loop_frame fuel n attempt j) Hp)
    as (_ & _ & _ & Hval & _).
  destruct (Hval text eq_refl) as [-> | (k & d & Hk & Hd)]; [congruence |].
  destruct (post_run _ _ _ _ _ _ (poll_loop_succeeded fuel n attempt j) Hp k d Hk Hd)
    as (Hlen & _ & Hout).
  exists k, d. repeat split; auto.
  destruct (pag_outcome (page_lines d) (NextToken d) (fetch_events tp))
    as [l | r | e |] eqn:Hpag; try discriminate; try contradiction.
  destruct Hout as [[= ->] _].
  apply pag_outcome_val in Hpag; [| apply fetch_events_are_fetches].
  rewrite fetched_pages_fetch_events in Hpag. subst l. reflexivity.
Qed.

(** A 200 response of the inference stage is the success response built
    from the answer parsed out of the endpoint's 200 reply. *)
Lemma inference_success text question key oi tail r :
  inference_spec text question key oi tail ->
  match oi with Exc e => Ret (textract_error e) | _ => oi end = Ret r ->
  statusCode r = 200%Z ->
  exists api data a,
    posts tail = [(api_url,
                   make_prompt (slice_to max_context_length text) (str question),
                   inr api)] /\
    status_code api = 200%Z /\ resp_json api = inr data /\
    parse_answer (make_prompt (slice_to max_context_length text) (str question))
                 data = inr a /\
    r = success_response question a text.
Proof.
  unfold inference_spec, escape. cbv zeta.
  set (prompt := make_prompt _ _).
  intros (res & rest & -> & H) Ho Hs.
  destruct res as [e | api].
  - destruct H as [_ ->]. destruct (is_RequestException e);
      injection Ho as <-; discriminate.
  - destruct H as (rest' & -> & H).
    destruct (negb (status_code api =? 200)%Z) eqn:Hcode.
    { destruct H as [_ ->]. injection Ho as <-. discriminate. }
    apply negb_false_iff, Z.eqb_eq in Hcode.
    destruct (resp_json api) as [e | data] eqn:Hjson.
    { destruct H as [_ ->]. destruct (is_RequestException e);
        injection Ho as <-; discriminate. }
    destruct (parse_answer prompt data) as [e | a] eqn:Hparse.
    { destruct H as [_ ->]. destruct (is_RequestException e);
        injection Ho as <-; discriminate. }
    destruct H as (deleted & rest'' & -> & H).
    assert (Hgoal : oi = Ret (success_response question a text) ->
                    exists api0 data0 a0,
                      posts (EvPost api_url prompt (inr api)
                             :: EvLog INFO ("HF API Status: " ++ str_Z (status_code api))
                             :: EvLog INFO ("HF API Response: " ++ resp_text api)
                             :: EvDelete bucket_name key deleted :: rest'')
                      = [(api_url, prompt, inr api0)] /\
                      status_code api0 = 200%Z /\ resp_json api0 = inr data0 /\
                      parse_answer prompt data0 = inr a0 /\
                      r = success_response question a0 text).
    { intros ->. injection Ho as <-. exists api, data, a.
      assert (Hposts : posts rest'' = []).
      { destruct deleted as [e | u]; [destruct (is_ClientError e) |];
          destruct H as [-> _]; reflexivity. }
      cbn [posts]. rewrite Hposts. repeat split; assumption. }
    destruct deleted as [e | u].
    + destruct (is_ClientError e).
      * apply Hgoal. apply H.
      * destruct H as [_ ->]. destruct (is_RequestException e);
          injection Ho as <-; discriminate.
    + apply Hgoal. apply H.
Qed.

(** The inference stage returns a response or lets an exception escape
    that is no RequestException; it neither falls through nor spins. *)
Lemma inference_outcomes text question key oi tail :
  inference_spec text question key oi tail ->
  (exists r, oi = Ret r /\
             ((exists a, r = success_response question a text)
              \/ exists m, r = create_error_response 500 m None))
  \/ (exists e, oi = Exc e /\ is_RequestException e = false).
Proof.
  unfold inference_spec. cbv zeta.
  set (prompt := make_prompt _ _).
  assert (Hesc : forall e o, o = escape e ->
            (exists r, o = Ret r /\
                       ((exists a, r = success_response question a text)
                        \/ exists m, r = create_error_response 500 m None))
            \/ (exists e0, o = Exc e0 /\ is_RequestException e0 = false)).
  { intros e o ->. unfold escape.
    destruct (is_RequestException e) eqn:He; [left | right; eauto].
    eexists. split; [reflexivity |]. right. unfold inference_error. eauto. }
  intros (res & rest & -> & H).
  destruct res as [e | api]; [destruct H as [_ H]; eauto |].
  destruct H as (rest' & -> & H).
  destruct (negb (status_code api =? 200)%Z).
  { destruct H as [_ ->]. left. eexists. split; [reflexivity |].
    right. unfold api_error. eauto. }
  destruct (resp_json api) as [e | data]; [destruct H as [_ H]; eauto |].
  destruct (parse_answer prompt data) as [e | a]; [destruct H as [_ H]; eauto |].
  destruct H as (deleted & rest'' & -> & H).
  destruct deleted as [e | u]; [destruct (is_ClientError e) |];
    destruct H as [_ H]; eauto.
  all: left; eexists; split; [exact H |]; left; eauto.
Qed.

End Deliveries.



(** ** Runs that reach the inference stage *)

Section Reached.

Context {E : Env}.
Variable fuel : nat.


(** What the answer parsing raises is never a RequestException. *)
Lemma parse_answer_error p data e :
  parse_answer p data = inl e -> is_RequestException e = false.
Proof.
  unfold parse_answer, generated_text, clean_answer, py_get.
  intros H.
  destruct data as [| b | z | s | [| first l] | f];
    try (injection H as <-; reflexivity).
  - destruct first as [| b | z | s | l' | f];
      try (injection H as <-; reflexivity).
    destruct (lookup "generated_text" f) as [[| b | z | s | l' | f'] |];
      try discriminate; injection H as <-; reflexivity.
  - destruct (lookup "generated_text" f) as [[| b | z | s | l' | f'] |];
      try discriminate; injection H as <-; reflexivity.
Qed.

(** A run with an inference call went through the inference stage. *)
Lemma reached_inference event w o w' t u p res :
  lambda_handler fuel event w = (o, w', t) ->
  In (u, p, res) (posts t) ->
  exists text question key oi tail,
    inference_spec text question key oi tail /\
    o = match oi with Exc e => Ret (textract_error e) | _ => oi end /\
    u = api_url /\
    p = make_prompt (slice_to max_context_length text) (str question) /\
    posts t = [(u, p, res)] /\ posts tail = [(u, p, res)] /\
    deletes t = deletes tail /\
    request_field event "question" = inr question /\
    (exists pre, t = pre ++ tail) /\
    exists k d,
      nth_error (polls t) k = Some (inr d) /\
      JobStatus d = Some "SUCCEEDED"%string /\
      length (polls t) = S k /\
      text = extracted_text (d :: fetched_pages t).
Proof.
  intros Hrun Hin.
  destruct (run_anatomy fuel _ _ _ _ _ Hrun)
    as [[Hq _] | (pre & j & q & key & op & tp & tail & w1 & w2 & Ht & Hq & Hp
                  & Hc & Hqu & P1 & _ & P3 & _ & _ & P6 & P7)].
  { destruct (quiet_views _ Hq) as (_ & _ & _ & _ & Hposts & _).
    rewrite Hposts in Hin. contradiction. }
  rewrite P6 in Hin |- *. rewrite P7, P1, P3.
  destruct op as [text | r | e |]; cbn [continued] in Hc;
    try (destruct Hc as [-> _]; contradiction).
  destruct (text =? "")%string eqn:Htext;
    [destruct Hc as [-> _]; contradiction |].
  apply String.eqb_neq in Htext.
  destruct Hc as (oi & Hspec & Ho).
  destruct (inference_views _ _ _ _ _ Hspec) as (_ & _ & _ & _ & _ & res' & Hposts).
  rewrite Hposts in Hin |- *.
  destruct Hin as [[= <- <- <-] | []].
  destruct (poll_loop_val _ _ _ _ _ _ _ _ Hp Htext) as (k & d & Hk & Hd & Hlen & Hx).
  exists text, q, key, oi, tail.
  repeat split; auto.
  - exists (pre ++ tp). rewrite <- app_assoc. exact Ht.
  - exists k, d. auto.
Qed.

(** The result of the inference stage, read off its reply: when the
    endpoint's call raised [e], or its 200 reply could not be parsed, or
    no answer could be taken from it. *)
Lemma inference_failure text question key oi tail u p res e :
  inference_spec text question key oi tail ->
  posts tail = [(u, p, res)] ->
  (res = inl e
   \/ exists api, res = inr api /\ status_code api = 200%Z /\
        (resp_json api = inl e
         \/ exists data, resp_json api = inr data /\ parse_answer p data = inl e)) ->
  oi = escape e.
Proof.
  unfold inference_spec. cbv zeta.
  intros (res' & rest & -> & H) Hposts Hres.
  cbn [posts] in Hposts. injection Hposts as <- <- <- _.
  destruct Hres as [-> | (api & -> & Hcode & Hj)].
  - apply H.
  - destruct H as (rest' & -> & H).
    rewrite Hcode in H. cbn [Z.eqb Pos.eqb negb] in H.
    destruct Hj as [Hj | (data & Hj & Hparse)]; rewrite Hj in H.
    + apply H.
    + rewrite Hparse in H. apply H.
Qed.

(** The result of the inference stage after a usable answer: the
    success response, unless the deletion raised something other than
    a ClientError. *)
Lemma inference_answer text question key oi tail u p api data a :
  inference_spec text question key oi tail ->
  posts tail = [(u, p, inr api)] ->
  status_code api = 200%Z ->
  resp_json api = inr data ->
  parse_answer p data = inr a ->
  exists deleted,
    deletes tail = [deleted] /\
    match deleted with
    | inr _ =>
        oi = Ret (success_response question a text) /\
        exists pre, tail = pre ++ [EvDelete bucket_name key deleted;
                                   EvLog INFO ("Deleted PDF from S3: " ++ key)]
    | inl e =>
        if is_ClientError e
        then oi = Ret (success_response question a text) /\
             exists pre,
               tail = pre ++ [EvDelete bucket_name key deleted;
                              EvLog ERROR ("Error deleting PDF from S3: "
                                           ++ exn_msg e)]
        else oi = escape e
    end.
Proof.
  unfold inference_spec. cbv zeta.
  intros (res' & rest & -> & H) Hposts Hcode Hj Hparse.
  cbn [posts] in Hposts. injection Hposts as <- <- -> _.
  destruct H as (rest' & -> & H).
  rewrite Hcode in H. cbn [Z.eqb Pos.eqb negb] in H.
  rewrite Hj, Hparse in H.
  destruct H as (deleted & rest'' & -> & H).
  exists deleted.
  destruct deleted as [e | u0]; [destruct (is_ClientError e) |].
  - destruct H as [-> ->]. cbn [deletes]. repeat split.
    eexists [_; _; _]. reflexivity.
  - destruct H as [-> ->]. cbn [deletes]. repeat split.
  - destruct H as [-> ->]. cbn [deletes]. repeat split.
    eexists [_; _; _]. reflexivity.
Qed.

End Reached.

(** ** Runs that reach the deletion *)

Section Deletion.

Context {E : Env}.
Variable fuel : nat.

(** The deletion is attempted once, after an answer was parsed out of a
    200 reply. *)
Lemma inference_deleted text question key oi tail deleted :
  inference_spec text question key oi tail ->
  In deleted (deletes tail) ->
  exists api data a,
    posts tail = [(api_url,
                   make_prompt (slice_to max_context_length text) (str question),
                   inr api)] /\
    status_code api = 200%Z /\ resp_json api = inr data /\
    parse_answer (make_prompt (slice_to max_context_length text) (str question))
                 data = inr a /\
    deletes tail = [deleted].
Proof.
  unfold inference_spec. cbv zeta.
  intros (res & rest & -> & H) Hin.
  destruct res as [e | api]; [destruct H as [-> _]; contradiction |].
  destruct H as (rest' & -> & H).
  destruct (negb (status_code api =? 200)%Z) eqn:Hcode;
    [destruct H as [-> _]; contradiction |].
  apply negb_false_iff, Z.eqb_eq in Hcode.
  destruct (resp_json api) as [e | data] eqn:Hj;
    [destruct H as [-> _]; contradiction |].
  destruct (parse_answer _ data) as [e | a] eqn:Hparse;
    [destruct H as [-> _]; contradiction |].
  destruct H as (deleted' & rest'' & -> & H).
  assert (Hrest : deletes rest'' = [] /\ posts rest'' = []).
  { destruct deleted' as [e | u]; [destruct (is_ClientError e) |];
      destruct H as [-> _]; split; reflexivity. }
  destruct Hrest as [Hd Hp].
  cbn [deletes posts] in Hin |- *. rewrite Hd in Hin |- *. rewrite Hp.
  destruct Hin as [-> | []].
  exists api, data, a. repeat split; auto.
Qed.

(** A run whose deletion succeeded or failed with a ClientError returns
    the 200 response made of the request's question, the answer parsed
    from the endpoint's reply and the text of the job's pages; a failed
    deletion and its error log line end the trace. *)
Lemma deletion_run event w o w' t deleted :
  lambda_handler fuel event w = (o, w', t) ->
  In deleted (deletes t) ->
  match deleted with inl e => is_ClientError e = true | inr _ => True end ->
  (exists question p api data a k d,
      request_field event "question" = inr question /\
      posts t = [(api_url, p, inr api)] /\
      resp_json api = inr data /\ parse_answer p data = inr a /\
      nth_error (polls t) k = Some (inr d) /\ length (polls t) = S k /\
      o = Ret (success_response question a
                 (extracted_text (d :: fetched_pages t)))) /\
  (forall e, deleted = inl e ->
     exists pre b key,
       t = pre ++ [EvDelete b key (inl e);
                   EvLog ERROR ("Error deleting PDF from S3: " ++ exn_msg e)]).
Proof.
  intros Hrun Hin Hok.
  destruct (run_anatomy fuel _ _ _ _ _ Hrun)
    as [[Hq _] | (pre & j & q & key & op & tp & tail & w1 & w2 & Ht & Hq & Hp
                  & Hc & Hqu & _ & _ & _ & _ & _ & P6 & P7)].
  { destruct (quiet_views _ Hq) as (_ & _ & _ & _ & _ & _ & Hd).
    rewrite Hd in Hin. contradiction. }
  assert (Hspec : exists text oi, inference_spec text q key oi tail).
  { rewrite P7 in Hin.
    destruct op as [text | r | e |]; cbn [continued] in Hc;
      try (destruct Hc as [-> _]; contradiction).
    destruct (text =? "")%string; [destruct Hc as [-> _]; contradiction |].
    destruct Hc as (oi & Hspec & _). eauto. }
  destruct Hspec as (text0 & oi0 & Hspec0).
  rewrite P7 in Hin.
  destruct (inference_deleted _ _ _ _ _ _ Hspec0 Hin)
    as (api & data & a & Hposts0 & Hcode & Hj & Hparse & Hdel).
  assert (Hinp : In (api_url,
                     make_prompt (slice_to max_context_length text0) (str q),
                     inr api) (posts t))
    by (rewrite P6, Hposts0; left; reflexivity).
  destruct (reached_inference fuel _ _ _ _ _ _ _ _ Hrun Hinp)
    as (text & q' & key' & oi & tail' & Hspec & -> & _ & Hprompt & Hposts & Hpt
        & Hdt & Hqu' & (pre' & Ht') & k & d & Hk & Hd & Hlen & ->).
  rewrite Hqu in Hqu'. injection Hqu' as <-.
  assert (Hdel' : deletes tail' = [deleted])
    by (rewrite <- Hdt, P7; exact Hdel).
  destruct (inference_answer _ _ _ _ _ _ _ _ _ _ Hspec Hpt Hcode Hj Hparse)
    as (deleted' & Hd' & Hout).
  rewrite Hdel' in Hd'. injection Hd' as <-.
  destruct deleted as [e | u].
  - rewrite Hok in Hout. destruct Hout as [-> (pre'' & Htail)].
    split.
    + exists q. eexists. exists api, data, a, k, d.
      repeat split; eauto.
    + intros e0 [= <-]. exists (pre' ++ pre''), bucket_name, key'.
      rewrite Ht', Htail, app_assoc. reflexivity.
  - destruct Hout as [-> _]. split.
    + exists q. eexists. exists api, data, a, k, d.
      repeat split; eauto.
    + intros e0 H. discriminate.
Qed.

End Deletion.

(** ** The text, in the specification's words *)

Section Wording.

Lemma page_lines_as_stated blocks :
  map block_text (filter is_line blocks) = line_texts_as_stated blocks.
Proof.
  induction blocks as [| b rest IH]; [reflexivity |].
  cbn [filter line_texts_as_stated]. unfold is_line at 1.
  destruct (BlockType b) as [kind |]; [| exact IH].
  destruct (string_dec kind "LINE") as [-> | Hkind].
  - cbn [String.eqb Ascii.eqb Bool.eqb map]. unfold block_text at 1.
    rewrite IH. reflexivity.
  - apply String.eqb_neq in Hkind. rewrite Hkind. exact IH.
Qed.

Lemma line_texts_app a b :
  line_texts_as_stated (a ++ b)
  = line_texts_as_stated a ++ line_texts_as_stated b.
Proof.
  induction a as [| x a IH]; [reflexivity |].
  cbn [app line_texts_as_stated].
  destruct (BlockType x) as [kind |]; [| exact IH].
  destruct (string_dec kind "LINE"); [cbn [app]; rewrite IH; reflexivity | exact IH].
Qed.

(** The text the handler assembles is the text the specification
    describes. *)
Lemma extracted_text_as_stated pages :
  extracted_text pages = text_as_stated pages.
Proof.
  unfold extracted_text, text_as_stated, blocks_as_stated. f_equal.
  induction pages as [| page pages IH]; [reflexivity |].
  cbn [flat_map]. rewrite line_texts_app, IH.
  unfold page_lines at 1. rewrite page_lines_as_stated. reflexivity.
Qed.

End Wording.

(** ** Fuel *)

Section Fuel.

Context {E : Env}.

Lemma settled_refl {A} (m : M A) : settled m m.
Proof. intros w o w' t H _. exact H. Qed.

Lemma settled_spin {A} (m : M A) : settled spin m.
Proof. intros w o w' t [= <- _ _] H. contradiction. Qed.

Lemma settled_bind {A B} (m1 m2 : M A) (k1 k2 : A -> M B) :
  settled m1 m2 -> (forall a, settled (k1 a) (k2 a)) ->
  settled (bind m1 k1) (bind m2 k2).
Proof.
  intros Hm Hk w o w' t. unfold bind.
  destruct (m1 w) as [[o1 w1] t1] eqn:H1.
  destruct o1 as [a | r | e |].
  - destruct (k1 a w1) as [[o2 w2] t2] eqn:H2.
    intros [= <- <- <-] Ho.
    rewrite (Hm _ _ _ _ H1) by discriminate.
    rewrite (Hk a _ _ _ _ H2 Ho). reflexivity.
  - intros [= <- <- <-] _. rewrite (Hm _ _ _ _ H1) by discriminate. reflexivity.
  - intros [= <- <- <-] _. rewrite (Hm _ _ _ _ H1) by discriminate. reflexivity.
  - intros [= <- <- <-] Ho. contradiction.
Qed.

Lemma settled_try {A} (m1 m2 : M A) handles h :
  settled m1 m2 -> settled (try_except m1 handles h) (try_except m2 handles h).
Proof.
  intros Hm w o w' t. unfold try_except.
  destruct (m1 w) as [[o1 w1] t1] eqn:H1.
  destruct o1 as [a | r | e |];
    intros H Ho; rewrite (Hm _ _ _ _ H1) by congruence; exact H.
Qed.

Ltac settled_step :=
  cbv zeta;
  lazymatch goal with
  | |- settled ?m ?m => apply settled_refl
  | |- settled spin _ => apply settled_spin
  | |- settled (bind _ _) (bind _ _) => apply settled_bind; [| intros ?]
  | |- settled (try_except _ _ _) (try_except _ _ _) => apply settled_try
  | |- settled (if ?b then _ else _) (if ?b then _ else _) => destruct b
  | |- settled (match ?x with _ => _ end) (match ?x with _ => _ end) =>
      destruct x
  end.

(** More fuel changes nothing in a pagination that came to an end. *)
Lemma paginate_settled n : forall m j d acc tok,
  n <= m -> settled (paginate n j d acc tok) (paginate m j d acc tok).
Proof.
  induction n as [| n IH]; intros [| m] j d acc tok Hle; try lia;
    cbn [paginate]; repeat settled_step.
  apply IH. lia.
Qed.

Lemma poll_loop_settled f1 f2 n : forall attempt j,
  f1 <= f2 -> settled (poll_loop f1 n attempt j) (poll_loop f2 n attempt j).
Proof.
  induction n as [| n IH]; intros attempt j Hle; cbn [poll_loop];
    repeat settled_step.
  - apply paginate_settled. exact Hle.
  - apply IH. exact Hle.
Qed.

Lemma lambda_handler_settled f1 f2 event :
  f1 <= f2 -> settled (lambda_handler f1 event) (lambda_handler f2 event).
Proof.
  intros Hle. unfold lambda_handler, lambda_body, textract.
  repeat settled_step.
  apply poll_loop_settled. exact Hle.
Qed.

(** A pagination that ran out of fuel has made as many fetches as it
    had fuel (and one more when it began with a token). *)
Lemma paginate_spin_fetch n : forall j d acc tok,
  has_token tok = true ->
  post (paginate n j d acc tok)
       (fun o t => o = Spin -> length (fetched_pages t) = S n).
Proof.
  induction n as [| n IH]; intros j d acc tok Htok;
    cbn [paginate]; rewrite Htok; wp;
    destruct tok as [s |]; try discriminate;
    cbn [app fetched_pages length]; try discriminate; try reflexivity.
  eapply post_weaken; [apply (IH j d _ _ Heqb) |].
  cbv beta. intros o t Ho Hs. trace_simpl. cbn [fetched_pages length app].
  rewrite (Ho Hs). reflexivity.
Qed.

Lemma paginate_spin n j d acc tok :
  has_token tok = false ->
  post (paginate n j d acc tok)
       (fun o t => o = Spin -> length (fetched_pages t) = n).
Proof.
  intros Htok.
  destruct n as [| n]; cbn [paginate]; rewrite Htok; wp;
    cbn [app fetched_pages length]; try discriminate; try reflexivity.
  eapply post_weaken; [apply (paginate_spin_fetch n j d _ _ Heqb) |].
  cbv beta. intros o t Ho Hs. exact (Ho Hs).
Qed.

End Fuel.

Section OutOfFuel.

Context {E : Env}.
Variable fuel : nat.

(** The polling loop runs out of fuel only in its pagination, after as
    many fetches as there was fuel. *)
Lemma poll_loop_spin n : forall attempt j,
  post (poll_loop fuel n attempt j)
       (fun o t => o = Spin -> length (fetched_pages t) = fuel).
Proof.
  induction n as [| n IH]; intros attempt j; cbn [poll_loop]; wp;
    try (cbn; discriminate).
  - eapply post_weaken; [apply (paginate_spin fuel j a [] None eq_refl) |].
    cbv beta. intros o t Ho.
    destruct o; wp; trace_simpl; cbn [fetched_pages app length];
      try discriminate.
    intros _. rewrite ?app_nil_r. apply Ho. reflexivity.
  - eapply post_weaken; [apply (IH (S attempt) j) |].
    cbv beta. intros o t Ho Hs. trace_simpl. cbn [fetched_pages app].
    exact (Ho Hs).
Qed.

(** A run of the handler either returns a response or has run out of
    fuel in the pagination, after exactly [fuel] fetches. *)
Lemma run_ends event w o w' t :
  lambda_handler fuel event w = (o, w', t) ->
  (exists r, o = Ret r)
  \/ (o = Spin /\ length (fetched_pages t) = fuel).
Proof.
  intros Hrun.
  destruct (run_anatomy fuel _ _ _ _ _ Hrun)
    as [[Hq (s & m & Hs & Ho)] | (pre & j & q & key & op & tp & tail & w1 & w2
                  & Ht & Hq & Hp & Hc & _ & _ & _ & P3 & _)]; [eauto |].
  destruct op as [text | r' | e |]; cbn [continued] in Hc.
  - destruct (text =? "")%string; [destruct Hc as [_ ->]; eauto |].
    destruct Hc as (oi & Hspec & ->).
    destruct (inference_outcomes _ _ _ _ _ Hspec)
      as [(r' & -> & _) | (e & -> & _)]; eauto.
  - destruct Hc as [_ ->]. eauto.
  - destruct Hc as [_ ->]. eauto.
  - destruct Hc as [_ ->]. right. split; [reflexivity |].
    rewrite P3.
    exact (post_run _ _ _ _ _ _ (poll_loop_spin max_retries 0 j) Hp eq_refl).
Qed.

End OutOfFuel.

(** ** A pagination without end *)

Section EndlessPages.

Lemma endless_pagination n : forall j d acc,
  exists t,
    @paginate Endless.env n j d acc (Some "more"%string) tt = (Spin, tt, t).
Proof.
  induction n as [| n IH]; intros j d acc.
  - cbn. eexists. reflexivity.
  - cbn [paginate]. unfold bind, get_detection, call. cbn.
    edestruct (IH j d) as (t & Ht). rewrite Ht.
    eexists. reflexivity.
Qed.

Lemma endless_run fuel :
  exists w' t,
    @lambda_handler Endless.env fuel (Scripted.event_of "REQ") tt
    = (Spin, w', t).
Proof.
  destruct fuel as [| n].
  - vm_compute. eexists _, _. reflexivity.
  - unfold lambda_handler, lambda_body, textract, try_except.
    cbn -[paginate String.append].
    cbn [paginate]. unfold bind at 1. cbn -[paginate String.append].
    edestruct (endless_pagination n) as (t & Ht). 
    unfold bind. cbn -[paginate String.append].
    rewrite Ht. eexists _, _. reflexivity.
Qed.

End EndlessPages.

(** * The claims *)

Section Claims.

Context {E : Env}.
Variable fuel : nat.

(** C2.  The status is never polled more than 12 times in any run.
    In a run whose every status poll finds the job in progress (status
    RUNNING, or any status other than SUCCEEDED and FAILED) there are
    exactly 12 polls, each followed by a sleep of 5, so that 5 units
    pass between successive polls, and the handler returns the 500
    timeout error. *)
Theorem polling_budget event w o w' t :
  lambda_handler fuel event w = (o, w', t) ->
  length (polls t) <= 12 /\
  (polls t <> [] ->
   forallb in_progress (polls t) = true ->
   length (polls t) = 12 /\
   (exists j, timeline t
              = flat_map (fun r => [EvGet j None r; EvSleep 5]) (polls t)) /\
   o = Ret timeout_response /\
   statusCode timeout_response = 500%Z).
Proof.
  intros Hrun.
  destruct (run_anatomy fuel _ _ _ _ _ Hrun)
    as [[Hq _] | (pre & j & q & key & op & tp & tail & w1 & w2 & -> & Hq & Hp
                  & Hc & Hqu & P1 & P2 & P3 & P4 & P5 & P6 & P7)].
  - destruct (quiet_views _ Hq) as (-> & _). cbn. split; [lia | congruence].
  - rewrite P1, P5.
    destruct (post_run _ _ _ _ _ _ (poll_loop_frame fuel max_retries 0 j) Hp)
      as (Hlen & _).
    split; [exact Hlen |].
    intros _ Hall.
    destruct (post_run _ _ _ _ _ _ (poll_loop_running fuel max_retries 0 j) Hp Hall)
      as (-> & Hn & Htl & _).
    cbn in Hc. destruct Hc as [_ ->].
    repeat split; eauto.
Qed.

(** C4.  When the job succeeded but the text assembled from all pages is
    empty, the handler returns the very response it returns when the
    polling budget runs out: status 500 with the timeout message.  The
    inference endpoint is called in neither case. *)
Theorem empty_text_is_timeout event w o w' t :
  lambda_handler fuel event w = (o, w', t) ->
  (forall k d,
      nth_error (polls t) k = Some (inr d) ->
      JobStatus d = Some "SUCCEEDED"%string ->
      fetches_ok t = true ->
      has_token (final_token (NextToken d) (fetched_pages t)) = false ->
      extracted_text (d :: fetched_pages t) = ""%string ->
      o = Ret timeout_response /\ posts t = []) /\
  (polls t <> [] ->
   forallb in_progress (polls t) = true ->
   o = Ret timeout_response /\ posts t = []) /\
  timeout_response
  = {| statusCode := 500;
       headers := std_headers;
       body := json_dumps
                 (JObj [("error", JStr "Textract processing timeout");
                        ("details", JStr "Textract processing timeout")]) |}.
Proof.
  intros Hrun.
  destruct (run_anatomy fuel _ _ _ _ _ Hrun)
    as [[Hq _] | (pre & j & q & key & op & tp & tail & w1 & w2 & -> & Hq & Hp
                  & Hc & Hqu & P1 & P2 & P3 & P4 & P5 & P6 & P7)].
  - destruct (quiet_views _ Hq) as (-> & _).
    split; [| split; [congruence | reflexivity]].
    intros [| k] d H; discriminate.
  - rewrite P1, P3, P4, P6. split; [| split; [| reflexivity]].
    + intros k d Hk Hd Hok Hend Htext.
      rewrite (poll_loop_text fuel _ _ _ _ _ _ _ _ _ Hp Hk Hd Hok Hend) in Hc.
      cbn [continued] in Hc. rewrite Htext in Hc. cbn in Hc.
      destruct Hc as [-> ->]. auto.
    + intros _ Hall.
      destruct (post_run _ _ _ _ _ _ (poll_loop_running fuel max_retries 0 j) Hp Hall)
        as (-> & _).
      cbn in Hc. destruct Hc as [-> ->]. auto.
Qed.

(** C1.  When poll [k] (counted from 0, so attempt [k + 1] of at most
    12) finds the job SUCCEEDED, no further status poll is made and the
    page fetches chain from that poll's reply: the first fetch uses its
    continuation token and each later one the token of the page before.
    The handler keeps fetching as long as the latest page carries a
    token: a run without fetch error whose last page carries one has
    run out of fuel, after exactly [fuel] fetches.  A run that ends on
    a page without token stays the same on any more fuel, and the text
    it hands on is the text of exactly the blocks whose BlockType is
    LINE, page after page and block after block, joined by single
    spaces, whatever [k] is: an empty text gives the timeout response,
    and any other is the context of the one inference call (cut to
    2000 characters) and the source of the preview in a 200
    response. *)
Theorem extracted_text_passed_on event w o w' t k d :
  lambda_handler fuel event w = (o, w', t) ->
  nth_error (polls t) k = Some (inr d) ->
  JobStatus d = Some "SUCCEEDED"%string ->
  k < 12 /\ length (polls t) = S k /\
  (exists j, chain j (NextToken d) (fetch_events t)) /\
  (fetches_ok t = true ->
   if has_token (final_token (NextToken d) (fetched_pages t))
   then o = Spin /\ length (fetched_pages t) = fuel
   else
     (forall more, fuel <= more -> lambda_handler more event w = (o, w', t)) /\
     let text := text_as_stated (d :: fetched_pages t) in
     if (text =? "")%string
     then o = Ret timeout_response /\ posts t = []
     else exists question res,
         request_field event "question" = inr question /\
         posts t = [(api_url,
                     make_prompt (slice_to 2000 text) (str question), res)] /\
         (exists r, o = Ret r) /\
         forall r, o = Ret r -> statusCode r = 200%Z ->
                   exists a, r = success_response question a text).
Proof.
  intros Hrun Hk Hd.
  destruct (run_anatomy fuel _ _ _ _ _ Hrun)
    as [[Hq _] | (pre & j & q & key & op & tp & tail & w1 & w2 & Ht & Hq & Hp
                  & Hc & Hqu & P1 & P2 & P3 & P4 & P5 & P6 & P7)].
  { destruct (quiet_views _ Hq) as (Hpolls & _). rewrite Hpolls in Hk.
    destruct k; discriminate. }
  rewrite P1 in Hk |- *. rewrite P2, P3, P4, P6. clear Ht P1 P2 P4 P5 P6.
  destruct (post_run _ _ _ _ _ _ (poll_loop_frame fuel max_retries 0 j) Hp)
    as (Hlen & _).
  destruct (post_run _ _ _ _ _ _ (poll_loop_succeeded fuel max_retries 0 j) Hp k d Hk Hd)
    as (Hsk & Hchain & _).
  split; [unfold max_retries in Hlen; lia |].
  split; [exact Hsk |]. split; [eauto |].
  intros Hok.
  destruct (has_token (final_token (NextToken d) (fetched_pages tp))) eqn:Hend.
  - pose proof (poll_loop_unfinished _ _ _ _ _ _ _ _ _ _ Hp Hk Hd Hok Hend)
      as Hop.
    subst op. destruct Hc as [_ ->]. split; [reflexivity |].
    exact (post_run _ _ _ _ _ _ (poll_loop_spin fuel max_retries 0 j) Hp eq_refl).
  - rewrite <- extracted_text_as_stated. cbv zeta.
    rewrite (poll_loop_text _ _ _ _ _ _ _ _ _ _ Hp Hk Hd Hok Hend) in Hc.
    cbn [continued] in Hc.
    assert (Hret : exists r, o = Ret r).
    { destruct (extracted_text (d :: fetched_pages tp) =? "")%string.
      - destruct Hc as [_ ->]. eauto.
      - destruct Hc as (oi & Hspec & ->).
        destruct (inference_outcomes _ _ _ _ _ Hspec)
          as [(r' & -> & _) | (e & -> & _)]; eauto. }
    split.
    { intros more Hle. destruct Hret as (r & ->).
      apply (lambda_handler_settled fuel more event Hle _ _ _ _ Hrun).
      discriminate. }
    destruct (extracted_text (d :: fetched_pages tp) =? "")%string.
    + destruct Hc as [-> ->]. auto.
    + destruct Hc as (oi & Hspec & ->).
      destruct (inference_views _ _ _ _ _ Hspec) as (_ & _ & _ & _ & _ & res & Hposts).
      exists q, res. split; [exact Hqu |]. split; [exact Hposts |].
      split; [exact Hret |].
      intros r Hr Hs.
      destruct (inference_success _ _ _ _ _ _ Hspec Hr Hs)
        as (api & data & a & _ & _ & _ & _ & ->).
      eauto.
Qed.

(** C3, as amended.  When poll [k] finds the job FAILED the handler
    returns at once: status 500, error "Textract processing failed",
    and as details the service's status message when it is present and
    not empty, the placeholder when it is absent, and the error message
    itself when it is present but empty.  That poll and its log line
    end the trace: no further poll, no page fetch and no inference
    call. *)
Theorem failed_job_stops event w o w' t k d :
  lambda_handler fuel event w = (o, w', t) ->
  nth_error (polls t) k = Some (inr d) ->
  JobStatus d = Some "FAILED"%string ->
  o = Ret (failed_response d) /\
  statusCode (failed_response d) = 500%Z /\
  body (failed_response d)
  = json_dumps
      (JObj [("error", JStr "Textract processing failed");
             ("details",
              JStr (match StatusMessage d with
                    | Some m => if (m =? "")%string
                                then "Textract processing failed" else m
                    | None => "No error details available"
                    end))]) /\
  length (polls t) = S k /\ fetch_events t = [] /\ posts t = [] /\
  exists pre j msg, t = pre ++ [EvGet j None (inr d); EvLog INFO msg].
Proof.
  intros Hrun Hk Hd.
  destruct (run_anatomy fuel _ _ _ _ _ Hrun)
    as [[Hq _] | (pre & j & q & key & op & tp & tail & w1 & w2 & Ht & Hq & Hp
                  & Hc & Hqu & P1 & P2 & P3 & P4 & P5 & P6 & P7)].
  { destruct (quiet_views _ Hq) as (Hpolls & _). rewrite Hpolls in Hk.
    destruct k; discriminate. }
  rewrite P1 in Hk |- *. rewrite P2, P6.
  destruct (post_run _ _ _ _ _ _ (poll_loop_failed fuel max_retries 0 j) Hp k d Hk Hd)
    as (-> & Hsk & Hf & pre' & msg & ->).
  destruct Hc as [-> ->].
  split; [reflexivity |]. split; [reflexivity |].
  split.
  { unfold failed_response, create_error_response, details_or, status_message.
    cbn [body]. destruct (StatusMessage d) as [m |]; reflexivity. }
  repeat split; auto.
  exists (pre ++ pre'), j, msg. rewrite Ht, app_nil_r, app_assoc. reflexivity.
Qed.

(** C9.  Whatever the handler returns carries the two headers
    Content-Type: application/json and Access-Control-Allow-Origin: *.
    A returned response is either the 200 answer or an error with status
    400 or 500 whose body is the envelope of an error and its details;
    the details repeat the error message, except after a FAILED job,
    where they are its status message (and the error message again when
    that is empty). *)
Theorem uniform_responses event w o w' t r :
  lambda_handler fuel event w = (o, w', t) ->
  o = Ret r ->
  headers r = [("Content-Type", "application/json");
               ("Access-Control-Allow-Origin", "*")]%string /\
  ((statusCode r = 200%Z /\
    exists question answer text,
      body r = json_dumps (JObj [("question", question);
                                 ("answer", JStr answer);
                                 ("textPreview", JStr (text_preview text))]))
   \/ ((statusCode r = 400%Z \/ statusCode r = 500%Z) /\
       exists message details,
         body r = json_dumps (JObj [("error", JStr message);
                                    ("details", JStr details)]) /\
         (details = message
          \/ exists d, message = "Textract processing failed"%string /\
                       details = status_message d /\ details <> ""%string))).
Proof.
  intros Hrun ->.
  assert (Herr : forall s m, (s = 400 \/ s = 500)%Z ->
            r = create_error_response s m None ->
            headers r = std_headers /\
            ((statusCode r = 200%Z /\
              exists question answer text,
                body r = json_dumps (JObj [("question", question);
                                           ("answer", JStr answer);
                                           ("textPreview", JStr (text_preview text))]))
             \/ ((statusCode r = 400%Z \/ statusCode r = 500%Z) /\
                 exists message details,
                   body r = json_dumps (JObj [("error", JStr message);
                                              ("details", JStr details)]) /\
                   (details = message
                    \/ exists d, message = "Textract processing failed"%string /\
                                 details = status_message d /\
                                 details <> ""%string)))).
  { intros s m Hs ->. split; [reflexivity |]. right. split; [exact Hs |].
    exists m, m. split; [reflexivity | left; reflexivity]. }
  destruct (run_anatomy fuel _ _ _ _ _ Hrun)
    as [[Hq (s & m & Hs & Ho)] | (pre & j & q & key & op & tp & tail & w1 & w2 & Ht
                  & Hq & Hp & Hc & _)].
  { injection Ho as ->. apply (Herr s m Hs eq_refl). }
  destruct (post_run _ _ _ _ _ _ (poll_loop_frame fuel max_retries 0 j) Hp)
    as (_ & _ & Hret & _).
  destruct op as [text | r' | e |]; cbn [continued] in Hc.
  - destruct (text =? "")%string.
    + destruct Hc as [_ Ho]. injection Ho as ->.
      apply (Herr 500%Z _ (or_intror eq_refl) eq_refl).
    + destruct Hc as (oi & Hspec & Ho).
      destruct (inference_outcomes _ _ _ _ _ Hspec)
        as [(r' & -> & [(a & ->) | (m & ->)]) | (e & -> & _)];
        injection Ho as ->.
      * split; [reflexivity |]. left. split; [reflexivity |].
        exists q, a, text. reflexivity.
      * apply (Herr 500%Z _ (or_intror eq_refl) eq_refl).
      * apply (Herr 500%Z _ (or_intror eq_refl) eq_refl).
  - destruct Hc as [_ Ho]. injection Ho as ->.
    destruct (Hret r' eq_refl) as (d & ->).
    split; [reflexivity |]. right. split; [right; reflexivity |].
    unfold create_error_response, details_or. cbn [body].
    destruct (status_message d =? "")%string eqn:Hm.
    + eexists _, _. split; [reflexivity | left; reflexivity].
    + eexists _, _. split; [reflexivity |]. right. exists d.
      apply String.eqb_neq in Hm. auto.
  - destruct Hc as [_ Ho]. injection Ho as ->.
    apply (Herr 500%Z _ (or_intror eq_refl) eq_refl).
  - destruct Hc as [_ Ho]. discriminate.
Qed.

(** C8, as amended.  The handler never lets an exception out and never
    falls off its end: a run returns a response, unless its
    pagination goes on for ever, which is here a run that is out of
    fuel after exactly [fuel] page fetches.  So a run in which
    Textract hands out fewer continuation tokens than there is fuel
    returns a response, and a run that returned one is the same on any
    more fuel.  An exception that leaves the body of the outermost
    [try] is logged and answered with a 500 response that carries the
    exception's message. *)
Theorem handler_always_responds event w o w' t :
  lambda_handler fuel event w = (o, w', t) ->
  ((exists r, o = Ret r)
   \/ (o = Spin /\ length (fetched_pages t) = fuel)) /\
  (length (fetched_pages t) < fuel -> exists r, o = Ret r) /\
  (forall r, o = Ret r ->
     forall more, fuel <= more ->
       lambda_handler more event w = (Ret r, w', t)) /\
  (forall e w1 t1,
      lambda_body fuel event w = (Exc e, w1, t1) ->
      o = Ret (create_error_response 500
                 ("Unexpected error: " ++ exn_msg e)%string None) /\
      t = t1 ++ [EvLog ERROR ("Unexpected error: " ++ exn_msg e)%string]).
Proof.
  intros Hrun.
  pose proof (run_ends fuel _ _ _ _ _ Hrun) as Hends.
  split; [exact Hends |]. split; [| split].
  - intros Hlt. destruct Hends as [H | [_ H]]; [exact H | lia].
  - intros r -> more Hle.
    apply (lambda_handler_settled fuel more event Hle _ _ _ _ Hrun).
    discriminate.
  - intros e w1 t1 Hbody.
    unfold lambda_handler, try_except in Hrun. rewrite Hbody in Hrun.
    unfold bind, log, ret in Hrun. injection Hrun as <- _ <-.
    split; reflexivity.
Qed.

(** C10, as amended.  A failure in the inference stage is reported by
    the class of its exception: a RequestException as an inference
    error, anything else as a Textract processing error, each with the
    exception's message.  This holds when the call of the endpoint
    raises, when [.json()] raises on a 200 reply, and when no answer
    can be taken from the parsed reply.  What the answer parsing raises
    is never a RequestException, so that an empty sequence is reported
    as a Textract processing error; the JSONDecodeError that
    [requests] raises for a body that is no JSON is a RequestException,
    so that such a reply is reported as an inference error. *)
Theorem other_failures_are_textract_errors event w o w' t :
  lambda_handler fuel event w = (o, w', t) ->
  (forall u p res e,
      In (u, p, res) (posts t) ->
      (res = inl e
       \/ exists api, res = inr api /\ status_code api = 200%Z /\
            (resp_json api = inl e
             \/ exists data, resp_json api = inr data /\
                             parse_answer p data = inl e)) ->
      o = Ret (if is_RequestException e
               then inference_error e else textract_error e)) /\
  (forall u p api,
      In (u, p, inr api) (posts t) ->
      status_code api = 200%Z ->
      resp_json api = inr (JArr []) ->
      o = Ret (textract_error (mkExn IndexError "list index out of range"))) /\
  (forall u p api e,
      In (u, p, inr api) (posts t) ->
      status_code api = 200%Z ->
      resp_json api = inl e ->
      exn_cls e = RequestsJSONDecodeError ->
      o = Ret (inference_error e)) /\
  (forall p data e, parse_answer p data = inl e -> is_RequestException e = false) /\
  (forall e,
      textract_error e
      = {| statusCode := 500;
           headers := std_headers;
           body := json_dumps
                     (JObj [("error",
                             JStr ("Textract processing error: " ++ exn_msg e));
                            ("details",
                             JStr ("Textract processing error: " ++ exn_msg e))]) |}
      /\
      inference_error e
      = {| statusCode := 500;
           headers := std_headers;
           body := json_dumps
                     (JObj [("error",
                             JStr ("Error calling Hugging Face API: " ++ exn_msg e));
                            ("details",
                             JStr ("Error calling Hugging Face API: " ++ exn_msg e))]) |})%string.
Proof.
  intros Hrun.
  assert (H1 : forall u p res e,
             In (u, p, res) (posts t) ->
             (res = inl e
              \/ exists api, res = inr api /\ status_code api = 200%Z /\
                   (resp_json api = inl e
                    \/ exists data, resp_json api = inr data /\
                                    parse_answer p data = inl e)) ->
             o = Ret (if is_RequestException e
                      then inference_error e else textract_error e)).
  { intros u p res e Hin Hres.
    destruct (reached_inference fuel _ _ _ _ _ _ _ _ Hrun Hin)
      as (text & q & key & oi & tail & Hspec & -> & _ & _ & _ & Hposts & _).
    rewrite (inference_failure _ _ _ _ _ _ _ _ _ Hspec Hposts Hres).
    unfold escape. destruct (is_RequestException e); reflexivity. }
  split; [exact H1 |].
  split; [| split; [| split; [apply parse_answer_error | split; reflexivity]]].
  - intros u p api Hin Hcode Hj.
    apply (H1 u p (inr api) (mkExn IndexError "list index out of range") Hin).
    right. exists api. repeat split; auto. right. exists (JArr []). auto.
  - intros u p api e Hin Hcode Hj Hcls.
    assert (Hreq : is_RequestException e = true)
      by (unfold is_RequestException; rewrite Hcls; reflexivity).
    rewrite (H1 u p (inr api) e Hin); [rewrite Hreq; reflexivity |].
    right. exists api. auto.
Qed.


(** C7, as amended.  Of two runs on the same request that saw the same
    replies of Textract and of the endpoint, one whose deletion
    succeeded and one whose deletion failed with a ClientError, the
    second returns what the first returns: the 200 response with the
    question, the answer and the text preview.  The failed deletion is
    followed by its error log line and by nothing else. *)
Theorem deletion_failure_is_harmless event w1 w2 o1 o2 w1' w2' t1 t2 e :
  lambda_handler fuel event w1 = (o1, w1', t1) ->
  lambda_handler fuel event w2 = (o2, w2', t2) ->
  polls t1 = polls t2 ->
  fetched_pages t1 = fetched_pages t2 ->
  posts t1 = posts t2 ->
  deletes t1 = [inr tt] ->
  deletes t2 = [inl e] ->
  is_ClientError e = true ->
  o2 = o1 /\
  (exists question answer text,
      o2 = Ret (success_response question answer text) /\
      statusCode (success_response question answer text) = 200%Z /\
      body (success_response question answer text)
      = json_dumps (JObj [("question", question);
                          ("answer", JStr answer);
                          ("textPreview", JStr (text_preview text))])) /\
  exists pre b key,
    t2 = pre ++ [EvDelete b key (inl e);
                 EvLog ERROR ("Error deleting PDF from S3: " ++ exn_msg e)].
Proof.
  intros Hrun1 Hrun2 Hpolls Hpages Hposts Hd1 Hd2 He.
  assert (Hin1 : In (@inr exn unit tt) (deletes t1)) by (rewrite Hd1; left; reflexivity).
  assert (Hin2 : In (@inl exn unit e) (deletes t2)) by (rewrite Hd2; left; reflexivity).
  destruct (deletion_run fuel _ _ _ _ _ _ Hrun1 Hin1 I)
    as ((q1 & p1 & api1 & data1 & a1 & k1 & d1 & Hq1 & Hp1 & Hj1 & Ha1 & Hk1
         & Hl1 & Ho1) & _).
  destruct (deletion_run fuel _ _ _ _ _ _ Hrun2 Hin2 He)
    as ((q2 & p2 & api2 & data2 & a2 & k2 & d2 & Hq2 & Hp2 & Hj2 & Ha2 & Hk2
         & Hl2 & Ho2) & Hlog).
  rewrite Hq1 in Hq2. injection Hq2 as <-.
  rewrite Hposts, Hp2 in Hp1. injection Hp1 as <- <-.
  rewrite Hj1 in Hj2. injection Hj2 as <-.
  rewrite Ha1 in Ha2. injection Ha2 as <-.
  rewrite Hpolls in Hk1, Hl1. rewrite Hl2 in Hl1. injection Hl1 as <-.
  rewrite Hk1 in Hk2. injection Hk2 as <-.
  rewrite Hpages in Ho1. subst o1 o2.
  split; [reflexivity |].
  split; [eexists _, _, _; repeat split |].
  exact (Hlog e eq_refl).
Qed.

(** C5, as amended.  When the body parses to a JSON object in which
    pdf_base64, question or both are absent or false in Python's sense
    (null, false, 0, an empty string, array or object), the handler
    returns status 400 with a message that names exactly these fields,
    pdf_base64 before question, and calls no service: the trace holds
    the one log line that precedes the parsing.  A body that parses to
    anything but an object is answered with status 500. *)
Theorem missing_parameters_rejected event w :
  (forall fields,
      request_body event = inr (JObj fields) ->
      let pdf_base64 :=
        match lookup "pdf_base64" fields with Some v => v | None => JNull end in
      let question :=
        match lookup "question" fields with Some v => v | None => JNull end in
      truthy pdf_base64 && truthy question = false ->
      lambda_handler fuel event w
      = (Ret (create_error_response 400
                ("Missing required parameters: "
                 ++ (if truthy pdf_base64 then "question"
                     else if truthy question then "pdf_base64"
                          else "pdf_base64, question")) None),
         w, [EvLog INFO ("Incoming event: " ++ json_dumps event)])) /\
  (forall body,
      request_body event = inr body ->
      (forall fields, body <> JObj fields) ->
      lambda_handler fuel event w
      = (Ret (create_error_response 500
                ("Unexpected error: " ++ exn_msg (no_attribute body "get")) None),
         w, [EvLog INFO ("Incoming event: " ++ json_dumps event);
             EvLog ERROR ("Unexpected error: "
                          ++ exn_msg (no_attribute body "get"))])).
Proof.
  unfold request_body. split.
  - intros fields Hbody Hmiss.
    set (pdf_base64 := match lookup "pdf_base64" fields with
                       | Some v => v
                       | None => JNull
                       end) in *.
    set (question := match lookup "question" fields with
                     | Some v => v
                     | None => JNull
                     end) in *.
    unfold lambda_handler, lambda_body, try_except, bind, log, lift, pure, ret.
    destruct (py_get event "body" (JStr "{}")) as [e | raw]; [discriminate |].
    rewrite Hbody. cbn [py_get].
    fold pdf_base64. fold question. rewrite Hmiss. cbn [negb app].
    unfold missing_params.
    destruct (truthy pdf_base64), (truthy question); try discriminate;
      reflexivity.
  - intros body Hbody Hobj.
    unfold lambda_handler, lambda_body, try_except, bind, log, lift, pure, ret,
      raise.
    destruct (py_get event "body" (JStr "{}")) as [e | raw]; [discriminate |].
    rewrite Hbody.
    destruct body as [| b | z | s | l | f]; try reflexivity.
    destruct (Hobj f eq_refl).
Qed.

End Claims.

(** * The claims on concrete runs *)

(** Evaluate the one run of the goal and put its outcome and trace in
    place of the variables that stand for them. *)
Ltac evaluate_run E fuel ev w H :=
  let o := fresh "o" in
  let w' := fresh "w'" in
  let t := fresh "t" in
  let Hv := fresh "Hv" in
  destruct (@lambda_handler E fuel ev w) as [[o w'] t] eqn:H;
  pose proof H as Hv; vm_compute in Hv;
  injection Hv as <- <- <-.

(** Decide the test of the conditional that a hypothesis has become. *)
Ltac decide_test H :=
  lazymatch type of H with
  | if ?b then _ else _ =>
      let v := eval vm_compute in b in
      change b with v in H; cbv iota in H
  end.

Lemma extracted_text_passed_on_witness :
  let r := @lambda_handler Scripted.env 5 (Scripted.event_of "REQ")
                           Scripted.happy in
  exists d,
    (nth_error (polls (snd r)) 1 = Some (inr d) /\
     JobStatus d = Some "SUCCEEDED"%string) /\
    length (polls (snd r)) = 2 /\
    fetches_ok (snd r) = true /\
    length (fetched_pages (snd r)) = 1 /\
    text_as_stated (d :: fetched_pages (snd r)) = "Hello world again"%string /\
    exists res,
      posts (snd r)
      = [(api_url, @make_prompt "Hello world again" "Who?", res)].
Proof.
  cbv zeta.
  evaluate_run Scripted.env 5 (Scripted.event_of "REQ") Scripted.happy Hrun.
  eexists. split; [split; reflexivity |].
  destruct (extracted_text_passed_on 5 _ _ _ _ _ 1 _ Hrun eq_refl eq_refl)
    as (_ & Hlen & _ & H).
  specialize (H eq_refl). cbn [snd] in H. decide_test H.
  destruct H as [_ H]. cbv zeta in H. decide_test H.
  destruct H as (question & res & Hq & Hposts & _).
  vm_compute in Hq. injection Hq as <-.
  split; [exact Hlen |]. split; [reflexivity |]. split; [reflexivity |].
  split; [reflexivity |].
  exists res. exact Hposts.
Defined.

Lemma polling_budget_witness :
  let r := @lambda_handler Scripted.env 0 (Scripted.event_of "REQ")
                           Scripted.stuck in
  (polls (snd r) <> [] /\ forallb in_progress (polls (snd r)) = true) /\
  length (polls (snd r)) = 12 /\
  fst (fst r) = Ret (@timeout_response Scripted.env).
Proof.
  cbv zeta.
  evaluate_run Scripted.env 0 (Scripted.event_of "REQ") Scripted.stuck Hrun.
  assert (Hp : forall A (x : A) l, x :: l <> []) by discriminate.
  split; [split; [apply Hp | reflexivity] |].
  destruct (polling_budget 0 _ _ _ _ _ Hrun) as [_ H].
  destruct (H (Hp _ _ _) eq_refl) as (Hlen & _ & Ho & _).
  split; assumption.
Defined.

Lemma failed_job_stops_witness :
  let r := @lambda_handler Scripted.env 0 (Scripted.event_of "REQ")
                           Scripted.failing in
  exists d,
    (nth_error (polls (snd r)) 1 = Some (inr d) /\
     JobStatus d = Some "FAILED"%string) /\
    fst (fst r) = Ret (@failed_response Scripted.env d) /\
    length (polls (snd r)) = 2 /\ posts (snd r) = [].
Proof.
  cbv zeta.
  evaluate_run Scripted.env 0 (Scripted.event_of "REQ") Scripted.failing Hrun.
  eexists. split; [split; reflexivity |].
  destruct (failed_job_stops 0 _ _ _ _ _ 1 _ Hrun eq_refl eq_refl)
    as (Ho & _ & _ & Hlen & _ & Hposts & _).
  repeat split; assumption.
Defined.

Lemma empty_text_is_timeout_witness :
  let r := @lambda_handler Scripted.env 0 (Scripted.event_of "REQ")
                           Scripted.blank in
  exists d,
    (nth_error (polls (snd r)) 0 = Some (inr d) /\
     JobStatus d = Some "SUCCEEDED"%string /\
     fetches_ok (snd r) = true /\
     has_token (final_token (NextToken d) (fetched_pages (snd r))) = false /\
     extracted_text (d :: fetched_pages (snd r)) = ""%string) /\
    fst (fst r) = Ret (@timeout_response Scripted.env) /\ posts (snd r) = [].
Proof.
  cbv zeta.
  evaluate_run Scripted.env 0 (Scripted.event_of "REQ") Scripted.blank Hrun.
  eexists. split; [repeat split; reflexivity |].
  destruct (empty_text_is_timeout 0 _ _ _ _ _ Hrun) as (H & _).
  exact (H 0 _ eq_refl eq_refl eq_refl eq_refl eq_refl).
Defined.

Lemma missing_parameters_rejected_witness :
  let fields := [("question", JStr "Who?")]%string in
  (@request_body Scripted.env (Scripted.event_of "NOPDF") = inr (JObj fields) /\
   truthy JNull && truthy (JStr "Who?") = false) /\
  @lambda_handler Scripted.env 0 (Scripted.event_of "NOPDF") Scripted.happy
  = (Ret (@create_error_response Scripted.env 400
            "Missing required parameters: pdf_base64" None),
     Scripted.happy,
     [EvLog INFO ("Incoming event: "
                  ++ @json_dumps Scripted.env (Scripted.event_of "NOPDF"))]).
Proof.
  cbv zeta. split; [split; reflexivity |].
  destruct (@missing_parameters_rejected Scripted.env 0
              (Scripted.event_of "NOPDF") Scripted.happy) as [H _].
  exact (H _ eq_refl eq_refl).
Defined.


Lemma deletion_failure_is_harmless_witness :
  let r1 := @lambda_handler Scripted.env 5 (Scripted.event_of "REQ")
                            Scripted.happy in
  let r2 := @lambda_handler Scripted.env 5 (Scripted.event_of "REQ")
                            Scripted.denied in
  let e := mkExn ClientError "AccessDenied" in
  (polls (snd r1) = polls (snd r2) /\
   fetched_pages (snd r1) = fetched_pages (snd r2) /\
   posts (snd r1) = posts (snd r2) /\
   deletes (snd r1) = [inr tt] /\ deletes (snd r2) = [inl e] /\
   is_ClientError e = true) /\
  fst (fst r2) = fst (fst r1).
Proof.
  cbv zeta.
  evaluate_run Scripted.env 5 (Scripted.event_of "REQ") Scripted.happy Hrun1.
  evaluate_run Scripted.env 5 (Scripted.event_of "REQ") Scripted.denied Hrun2.
  split; [repeat split; reflexivity |].
  exact (proj1 (deletion_failure_is_harmless 5 _ _ _ _ _ _ _ _ _ _ Hrun1 Hrun2
                  eq_refl eq_refl eq_refl eq_refl eq_refl eq_refl)).
Defined.

Lemma handler_always_responds_witness :
  let event := JObj [("body"%string, JNull)] in
  let e := mkExn TypeError
             "the JSON object must be str, bytes or bytearray, not NoneType" in
  let r := @lambda_handler Scripted.env 0 event Scripted.happy in
  (exists t1,
      @lambda_body Scripted.env 0 event Scripted.happy
      = (Exc e, Scripted.happy, t1)) /\
  fst (fst r)
  = Ret (@create_error_response Scripted.env 500
           ("Unexpected error: " ++ exn_msg e)%string None) /\
  forall more,
    @lambda_handler Scripted.env more event Scripted.happy = r.
Proof.
  cbv zeta.
  evaluate_run Scripted.env 0 (JObj [("body"%string, JNull)]) Scripted.happy Hrun.
  destruct (handler_always_responds 0 _ _ _ _ _ Hrun) as (_ & _ & Hmore & Hexc).
  assert (Hbody : exists t1,
             @lambda_body Scripted.env 0 (JObj [("body"%string, JNull)])
                          Scripted.happy
             = (Exc (mkExn TypeError
                       "the JSON object must be str, bytes or bytearray, not NoneType"),
                Scripted.happy, t1))
    by (eexists; vm_compute; reflexivity).
  split; [exact Hbody |].
  destruct Hbody as (t1 & Hbody).
  split; [exact (proj1 (Hexc _ _ _ Hbody)) |].
  intros more. apply (Hmore _ eq_refl). lia.
Defined.

Lemma uniform_responses_witness :
  let r := @lambda_handler Scripted.env 0 (Scripted.event_of "x")
                           Scripted.happy in
  exists r0,
    fst (fst r) = Ret r0 /\
    headers r0 = [("Content-Type", "application/json");
                  ("Access-Control-Allow-Origin", "*")]%string.
Proof.
  cbv zeta.
  evaluate_run Scripted.env 0 (Scripted.event_of "x") Scripted.happy Hrun.
  eexists. split; [reflexivity |].
  exact (proj1 (uniform_responses 0 _ _ _ _ _ _ Hrun eq_refl)).
Defined.

Lemma other_failures_are_textract_errors_witness :
  let r := @lambda_handler Scripted.env 5 (Scripted.event_of "REQ")
                           Scripted.speechless in
  exists u p api,
    (In (u, p, inr api) (posts (snd r)) /\
     status_code api = 200%Z /\ resp_json api = inr (JArr [])) /\
    fst (fst r)
    = Ret (@textract_error Scripted.env
             (mkExn IndexError "list index out of range")).
Proof.
  cbv zeta.
  evaluate_run Scripted.env 5 (Scripted.event_of "REQ") Scripted.speechless Hrun.
  do 3 eexists.
  assert (Hin : forall A (x : A) l, In x (x :: l)) by (intros; left; reflexivity).
  split; [split; [apply Hin | split; reflexivity] |].
  destruct (other_failures_are_textract_errors 5 _ _ _ _ _ Hrun) as (_ & H & _).
  exact (H _ _ _ (Hin _ _ _) eq_refl eq_refl).
Defined.

(** C3, as stated, fails: a FAILED job whose status message is present
    but empty gets the error message as details, not the (empty) status
    message. *)
Lemma failure_details_counterexample : ~ failure_details_as_stated.
Proof.
  intros H.
  destruct (@lambda_handler Scripted.env 0 (Scripted.event_of "REQ")
                            Scripted.failing) as [[o w'] t] eqn:Hrun.
  pose proof Hrun as Hv. vm_compute in Hv. injection Hv as <- <- <-.
  destruct (H Scripted.env 0 _ _ _ _ _ 1 _ Hrun eq_refl eq_refl)
    as (r & Ho & _ & Hbody).
  injection Ho as <-. vm_compute in Hbody. discriminate.
Qed.

(** C5, as stated, fails: a body that parses to a JSON array has neither
    field and is answered with status 500, not 400. *)
Lemma missing_parameters_counterexample : ~ missing_parameters_as_stated.
Proof.
  intros H.
  destruct (@lambda_handler Scripted.env 0 (Scripted.event_of "[]")
                            Scripted.happy) as [[o w'] t] eqn:Hrun.
  pose proof Hrun as Hv. vm_compute in Hv. injection Hv as <- <- <-.
  destruct (H Scripted.env 0 (Scripted.event_of "[]") (JArr []) _ _ _ _
              eq_refl eq_refl Hrun) as (r & Ho & Hs).
  injection Ho as <-. discriminate.
Qed.

(** C7, as stated, fails: a deletion that fails with something other
    than a ClientError turns the 200 response into a 500 response. *)
Lemma deletion_failure_counterexample : ~ deletion_failure_as_stated.
Proof.
  intros H.
  destruct (@lambda_handler Scripted.env 5 (Scripted.event_of "REQ")
                            Scripted.happy) as [[o1 w1'] t1] eqn:Hrun1.
  pose proof Hrun1 as Hv. vm_compute in Hv. injection Hv as <- <- <-.
  destruct (@lambda_handler Scripted.env 5 (Scripted.event_of "REQ")
                            Scripted.unreachable) as [[o2 w2'] t2] eqn:Hrun2.
  pose proof Hrun2 as Hv. vm_compute in Hv. injection Hv as <- <- <-.
  pose proof (H Scripted.env 5 _ _ _ _ _ _ _ _ _ _ Hrun1 Hrun2
                eq_refl eq_refl eq_refl eq_refl eq_refl) as Ho.
  discriminate.
Qed.

(** C8, as stated, fails: when Textract hands out a continuation token
    with every page, the pagination never ends and the handler returns
    nothing, however much fuel the run is given. *)
Lemma always_responds_counterexample : ~ always_responds_as_stated.
Proof.
  intros H.
  destruct (H Endless.env (Scripted.event_of "REQ") tt)
    as (fuel & r & w' & t & Hrun).
  destruct (endless_run fuel) as (w1 & t1 & Hspin).
  rewrite Hspin in Hrun. discriminate.
Qed.

(** C10, as stated, fails at its first example: for a 200 reply whose
    body is no JSON, [.json()] raises the JSONDecodeError of [requests],
    a RequestException, and the handler reports an inference error, not
    a Textract processing error. *)
Lemma unparseable_reply_counterexample : ~ unparseable_reply_as_stated.
Proof.
  intros H.
  destruct (@lambda_handler Scripted.env 5 (Scripted.event_of "REQ")
                            Faulty.garbled) as [[o w'] t] eqn:Hrun.
  pose proof Hrun as Hv. vm_compute in Hv. injection Hv as <- <- <-.
  assert (Hin : forall A (x : A) l, In x (x :: l)) by (intros; left; reflexivity).
  pose proof (H Scripted.env 5 _ _ _ _ _ _ _ _
                (mkExn RequestsJSONDecodeError
                       "Expecting value: line 1 column 1 (char 0)")
                Hrun (Hin _ _ _) eq_refl eq_refl eq_refl) as Ho.
  injection Ho as Hb. vm_compute in Hb. discriminate.
Qed.


(** * More properties of the handler *)

Section Anatomy.

Context {E : Env}.
Variable fuel : nat.

Ltac open_handled :=
  repeat rewrite <- app_assoc; cbn [app];
  unfold handled, request_body, uploaded, submitted, pdf_key_of;
  repeat first [ progress cbv beta iota | progress recall
               | split; [reflexivity |]
               | match goal with |- exists _, _ => eexists end ].

Ltac bare_tail tp :=
  repeat rewrite <- app_assoc; cbn [app]; rewrite ?app_nil_r;
  rewrite <- (app_nil_r tp).

(** Every run is as [handled] reads it. *)
Lemma lambda_handler_handled event :
  post (lambda_handler fuel event) (handled fuel event).
Proof.
  unfold lambda_handler, lambda_body, textract.
  wp.
  all: try solve [unfold handled, request_body, uploaded, upload_failed,
                  unexpected, submitted, pdf_key_of; cbn [app]; recall; settle].
  eapply post_weaken; [apply post_self |]. cbv beta.
  intros op tp (w & w' & Hp).
  destruct op as [text | r | e |]; wp.
  - bare_tail tp. open_handled. split; [eauto |].
    cbn [continued]. rewrite Heqb0. split; reflexivity.
  - eapply post_weaken; [apply inference_run |]. cbv beta.
    intros oi ti Hspec.
    destruct oi; wp; repeat rewrite <- app_assoc; rewrite ?(app_nil_r ti);
      open_handled; (split; [eauto |]);
      cbn [continued]; rewrite Heqb0; eexists; (split; [exact Hspec |]);
      reflexivity.
  - bare_tail tp. open_handled. split; [eauto |]. split; reflexivity.
  - bare_tail tp. open_handled. split; [eauto |]. split; reflexivity.
  - bare_tail tp. open_handled. split; [eauto |]. split; reflexivity.
Qed.

Lemma run_handled event w o w' t :
  lambda_handler fuel event w = (o, w', t) -> handled fuel event o t.
Proof. apply post_run, lambda_handler_handled. Qed.

End Anatomy.
(** ** Reading service calls off a trace *)

Section ServiceCalls.

Ltac by_events t IH :=
  induction t as [| [ | | | | | | | | ] t IH]; intros; cbn; try rewrite IH; auto.

Lemma puts_app t1 t2 : puts (t1 ++ t2) = puts t1 ++ puts t2.
Proof. revert t2. by_events t1 IH. Qed.

Lemma starts_app t1 t2 : starts (t1 ++ t2) = starts t1 ++ starts t2.
Proof. revert t2. by_events t1 IH. Qed.

Lemma deleted_keys_app t1 t2 :
  deleted_keys (t1 ++ t2) = deleted_keys t1 ++ deleted_keys t2.
Proof. revert t2. by_events t1 IH. Qed.

Lemma get_jobs_app t1 t2 : get_jobs (t1 ++ t2) = get_jobs t1 ++ get_jobs t2.
Proof. revert t2. by_events t1 IH. Qed.

Lemma uuids_app t1 t2 : uuids (t1 ++ t2) = uuids t1 ++ uuids t2.
Proof. revert t2. by_events t1 IH. Qed.

Lemma clients_app t1 t2 : clients (t1 ++ t2) = clients t1 ++ clients t2.
Proof. revert t2. by_events t1 IH. Qed.

Lemma slept_app t1 t2 : slept (t1 ++ t2) = slept t1 + slept t2.
Proof. revert t2. by_events t1 IH. lia. Qed.

(** The polling loop calls nothing but [get_document_text_detection]. *)
Lemma polling_views j t :
  Forall (polling_event j) t ->
  puts t = [] /\ starts t = [] /\ deleted_keys t = [] /\ deletes t = [] /\
  posts t = [] /\ uuids t = [] /\ Forall (eq j) (get_jobs t) /\ clients t = [].
Proof.
  induction 1 as [| e t He Ht IH]; [repeat split; constructor |].
  destruct IH as (I1 & I2 & I3 & I4 & I5 & I6 & I7 & I8).
  destruct e; cbn in He; try contradiction; cbn; repeat split; auto.
Qed.

Lemma chain_polling j : forall t tok,
  chain j tok t -> Forall (polling_event j) t /\ slept t = 0.
Proof.
  induction t as [| e t IH]; intros tok Hc; [split; [constructor | reflexivity] |].
  destruct e; cbn in Hc; try contradiction.
  destruct Hc as (-> & -> & Htok & Hr).
  destruct res as [e | d].
  - subst t. split; [repeat constructor | reflexivity].
  - destruct (IH _ Hr) as [IH1 IH2]. split; [constructor; [reflexivity | exact IH1] |].
    exact IH2.
Qed.

(** A fetch that raises ends the pagination with its exception. *)
Lemma pag_outcome_raised j : forall t tok acc j' tk e,
  chain j tok t ->
  In (EvGet j' (Some tk) (inl e)) t ->
  pag_outcome acc tok t = Exc e.
Proof.
  induction t as [| ev t IH]; intros tok acc j' tk e Hc Hi; [destruct Hi |].
  destruct ev; cbn in Hc; try contradiction.
  destruct Hc as (-> & -> & Htok & Hr).
  destruct res as [e0 | d].
  - subst t. destruct Hi as [[= _ _ <-] | []]. reflexivity.
  - destruct Hi as [Hi | Hi]; [discriminate |].
    cbn [pag_outcome]. eapply IH; eauto.
Qed.

End ServiceCalls.

Ltac calls_simpl :=
  repeat (rewrite ?puts_app, ?starts_app, ?deleted_keys_app, ?get_jobs_app,
           ?uuids_app, ?slept_app, ?clients_app, ?polls_app, ?fetch_events_app, ?posts_app,
           ?timeline_app, ?fetched_pages_app, ?fetches_ok_app, ?deletes_app,
           ?app_nil_r;
          cbn [app puts starts deleted_keys get_jobs uuids slept clients polls
               fetch_events posts timeline fetched_pages fetches_ok deletes
               length]).

Section PollingMore.

Context {E : Env}.
Variable fuel : nat.

(** The events of the polling loop; what it sleeps; how a poll that
    raises, or a reply without status, ends it. *)
Lemma poll_loop_events n : forall attempt j,
  post (poll_loop fuel n attempt j)
       (fun o t =>
          Forall (polling_event j) t /\
          slept t = 5 * length (filter in_progress (polls t)) /\
          (forall k e, nth_error (polls t) k = Some (inl e) ->
             o = Exc e /\ length (polls t) = S k /\ fetch_events t = []) /\
          (forall k d, nth_error (polls t) k = Some (inr d) ->
             JobStatus d = None ->
             o = Exc (key_error "JobStatus") /\ length (polls t) = S k /\
             fetch_events t = []) /\
          (forall j' tok e, In (EvGet j' (Some tok) (inl e)) t -> o = Exc e)).
Proof.
  induction n as [| n IH]; intros attempt j; cbn [poll_loop]; wp.
  - cbn. split; [constructor |]. split; [reflexivity |].
    split; [intros [| k] e0 H; discriminate |].
    split; [intros [| k] d H; discriminate |].
    intros j' tok e0 [].
  - cbn. split; [repeat constructor |]. split; [reflexivity |].
    split; [| split].
    + intros [| [| k]] e0 H; try discriminate. injection H as <-. auto.
    + intros [| [| k]] d H; discriminate.
    + intros j' tok e0 [H | []]. discriminate.
  - eapply post_weaken; [apply (paginate_spec fuel j a [] None eq_refl) |].
    cbv beta. intros o t (Hc & Ho).
    destruct (chain_only_fetches _ _ _ Hc) as (Hf & Hp & _ & _ & _).
    destruct (chain_polling _ _ _ Hc) as (Hev & Hsl).
    apply String.eqb_eq in Heqb. subst s.
    assert (Hin : in_progress (inr a) = false)
      by (cbn; rewrite Heqo; reflexivity).
    assert (Hraise : forall j' tok e, In (EvGet j' (Some tok) (inl e)) t ->
                                      o = Exc e).
    { intros j' tok e Hi. rewrite Ho.
      exact (pag_outcome_raised _ _ _ _ _ _ _ Hc Hi). }
    assert (Hall : forall l, Forall (polling_event j)
                     (EvGet j None (inr a) :: EvLog INFO l :: t)).
    { intros l. constructor; [reflexivity |]. constructor; [exact I | exact Hev]. }
    assert (Hall' : forall l l', Forall (polling_event j)
                     (EvGet j None (inr a) :: EvLog INFO l :: t ++ [EvLog INFO l'])).
    { intros l l'. constructor; [reflexivity |]. constructor; [exact I |].
      apply Forall_app. split; [exact Hev | repeat constructor]. }
    destruct o as [l | r | e |]; wp; calls_simpl;
      rewrite ?Hp, ?Hsl; cbn [app filter length]; rewrite ?Hin;
      (split; [first [apply Hall' | apply Hall] |]);
      (split; [reflexivity |]);
      (split; [intros [| [| k]] e0 H; discriminate |]);
      (split; [intros [| [| k]] d H Hd; try discriminate;
               injection H as <-; rewrite Heqo in Hd; discriminate |]).
    + intros j' tok e [H | [H | H]]; try discriminate.
      apply in_app_or in H. destruct H as [H | [H | []]]; [| discriminate].
      discriminate (Hraise _ _ _ H).
    + intros j' tok e [H | [H | H]]; try discriminate.
      discriminate (Hraise _ _ _ H).
    + intros j' tok e0 [H | [H | H]]; try discriminate.
      injection (Hraise _ _ _ H) as ->. reflexivity.
    + intros j' tok e [H | [H | H]]; try discriminate.
      discriminate (Hraise _ _ _ H).
  - cbn [app polls fetch_events slept filter in_progress length].
    rewrite Heqo, Heqb, Heqb0. cbn [negb andb length].
    split; [repeat constructor |]. split; [reflexivity |].
    split; [intros [| [| k]] e0 H; discriminate |].
    split; [intros [| [| k]] d H Hd; try discriminate;
            injection H as <-; rewrite Heqo in Hd; discriminate |].
    intros j' tok e [H | [H | []]]; discriminate.
  - eapply post_weaken; [apply (IH (S attempt) j) |].
    cbv beta. intros o t (Hev & Hsl & Hexc & Hkey & Hfetch).
    calls_simpl. cbn [filter in_progress]. rewrite Heqo, Heqb, Heqb0.
    cbn [negb andb length].
    split; [repeat (constructor; [cbn; auto |]); exact Hev |].
    split; [rewrite Hsl; lia |].
    split; [| split].
    + intros [| k] e0 H; [discriminate |].
      destruct (Hexc k e0 H) as (-> & Hlen & Hf). auto.
    + intros [| k] d H Hd.
      * injection H as <-. rewrite Heqo in Hd. discriminate.
      * destruct (Hkey k d H Hd) as (-> & Hlen & Hf). auto.
    + intros j' tok e [H | [H | [H | H]]]; try discriminate.
      exact (Hfetch _ _ _ H).
  - cbn [app polls fetch_events slept filter in_progress length].
    rewrite Heqo. cbn [length].
    split; [repeat constructor |]. split; [reflexivity |].
    split; [intros [| [| k]] e0 H; discriminate |].
    split; [| intros j' tok e [H | []]; discriminate].
    intros [| [| k]] d H Hd; try discriminate. injection H as <-. auto.
Qed.

End PollingMore.

(** ** Reading service calls off a trace *)

(** Take a reading of a run apart, case by case. *)
Ltac crack H :=
  repeat match type of H with
         | exists _, _ => let x := fresh "x" in destruct H as [x H]
         | _ /\ _ => let H1 := fresh "Hc" in destruct H as [H1 H]
         | match ?x with _ => _ end => destruct x eqn:?
         | if ?b then _ else _ => destruct b eqn:?
         | unexpected _ _ _ => unfold unexpected in H
         | upload_failed _ _ _ => unfold upload_failed in H
         | uploaded _ _ _ _ _ => unfold uploaded in H
         | submitted _ _ _ _ _ => unfold submitted in H
         | handled _ _ _ _ => unfold handled in H
         end.

(** Settle membership in a short list. *)
Ltac in_cases :=
  repeat match goal with
         | H : In _ [] |- _ => destruct H
         | H : In _ (_ :: _) |- _ => destruct H as [H | H]
         | H : (_, _) = (_, _) |- _ => injection H as ? ?; subst
         | H : inl _ = inl _ |- _ => injection H as ?; subst
         | H : inr _ = inr _ |- _ => injection H as ?; subst
         | H : False |- _ => destruct H
         end.

Section Calls.

Context {E : Env}.
Variable fuel : nat.

(** The inference stage calls the endpoint and at most the deletion. *)
Lemma inference_calls text question key oi tail :
  inference_spec text question key oi tail ->
  puts tail = [] /\ starts tail = [] /\ uuids tail = [] /\
  get_jobs tail = [] /\ slept tail = 0 /\
  (deletes tail = [] /\ deleted_keys tail = []
   \/ exists d, deletes tail = [d] /\ deleted_keys tail = [(bucket_name, key)]) /\
  clients tail = [].
Proof.
  unfold inference_spec. cbv zeta.
  intros (res & rest & -> & H).
  destruct res as [e | api].
  { destruct H as [-> _]. cbn. repeat split. auto. }
  destruct H as (rest' & -> & H).
  destruct (negb (status_code api =? 200)%Z);
    [destruct H as [-> _]; cbn; repeat split; auto |].
  destruct (resp_json api) as [e | data];
    [destruct H as [-> _]; cbn; repeat split; auto |].
  destruct (parse_answer _ data) as [e | answer];
    [destruct H as [-> _]; cbn; repeat split; auto |].
  destruct H as (deleted & rest'' & -> & H).
  destruct deleted as [e | []]; [destruct (is_ClientError e) |];
    destruct H as [-> _]; cbn; repeat split; eauto.
Qed.

(** The calls of a run: one identifier drawn at most, one upload at
    most under the key made from it, one submission at most of that
    very object and only after its upload succeeded, every poll and
    fetch for the job that the submission returned, and one deletion at
    most of the uploaded object. *)
Lemma run_calls event w o w' t :
  lambda_handler fuel event w = (o, w', t) ->
  (uuids t = [] /\ puts t = [] /\ starts t = [] /\ get_jobs t = [] /\
   deleted_keys t = [] /\ deletes t = [] /\ posts t = [] /\ slept t = 0)
  \/ exists u,
      uuids t = [u] /\
      ((puts t = [] \/ exists e, puts t = [(bucket_name, pdf_key_of u, inl e)]) /\
       starts t = [] /\ get_jobs t = [] /\ deleted_keys t = [] /\
       deletes t = [] /\ posts t = [] /\ slept t = 0
       \/ exists x,
           puts t = [(bucket_name, pdf_key_of u, inr x)] /\
           (starts t = [] /\ get_jobs t = [] /\ deleted_keys t = [] /\
            deletes t = [] /\ posts t = [] /\ slept t = 0
            \/ exists s,
                starts t = [(bucket_name, pdf_key_of u, s)] /\
                (get_jobs t = [] /\ deleted_keys t = [] /\ deletes t = [] /\
                 posts t = [] /\ slept t = 0
                 \/ exists reply j,
                     s = inr reply /\ JobId reply = Some j /\
                     Forall (eq j) (get_jobs t) /\
                     (deletes t = [] /\ deleted_keys t = []
                      \/ exists d, deletes t = [d] /\
                                   deleted_keys t = [(bucket_name, pdf_key_of u)])))).
Proof.
  intros Hrun. pose proof (run_handled fuel _ _ _ _ _ Hrun) as H.
  crack H; subst; cbn [uuids puts starts get_jobs deleted_keys deletes posts slept];
    try solve [left; repeat split; reflexivity];
    try solve [right; eexists; (split; [reflexivity |]);
               left; repeat split; eauto];
    try solve [right; eexists; (split; [reflexivity |]);
               right; eexists; (split; [reflexivity |]);
               left; repeat split; eauto];
    try solve [right; eexists; (split; [reflexivity |]);
               right; eexists; (split; [reflexivity |]);
               right; eexists; (split; [reflexivity |]);
               left; repeat split; eauto].
  destruct Hc6 as (w1 & w2 & Hp).
  destruct (post_run _ _ _ _ _ _ (poll_loop_events fuel max_retries 0 s0) Hp)
    as (Hev & _).
  destruct (polling_views _ _ Hev) as (V1 & V2 & V3 & V4 & V5 & V6 & V7 & _).
  assert (Htail : puts x12 = [] /\ starts x12 = [] /\ uuids x12 = [] /\
                  get_jobs x12 = [] /\
                  (deletes x12 = [] /\ deleted_keys x12 = []
                   \/ exists d, deletes x12 = [d] /\
                                deleted_keys x12 = [(bucket_name, pdf_key_of x0)])).
  { unfold continued in H. destruct x10 as [text | r | e |];
      try (destruct H as [-> _]; repeat split; auto).
    destruct (text =? "")%string; [destruct H as [-> _]; repeat split; auto |].
    destruct H as (oi & Hspec & _).
    destruct (inference_calls _ _ _ _ _ Hspec) as (? & ? & ? & ? & _ & ? & _).
    auto. }
  destruct Htail as (T1 & T2 & T3 & T4 & T5).
  calls_simpl. rewrite V1, V2, V3, V4, V6, T1, T2, T3, T4. cbn [app].
  right. exists x0. split; [reflexivity |].
  right. exists u0. split; [reflexivity |].
  right. exists (inr s). split; [reflexivity |].
  right. exists s, s0. repeat split; auto.
  rewrite app_nil_r. exact V7.
Qed.

(** What the polling loop and the stage after it call. *)
Lemma after_start_views j question key op tp tail o w1 w2 :
  poll_loop fuel max_retries 0 j w1 = (op, w2, tp) ->
  continued question key op tail o ->
  puts (tp ++ tail) = [] /\ starts (tp ++ tail) = [] /\
  clients (tp ++ tail) = [] /\ uuids (tp ++ tail) = [].
Proof.
  intros Hp Hc.
  destruct (post_run _ _ _ _ _ _ (poll_loop_events fuel max_retries 0 j) Hp)
    as (Hev & _).
  destruct (polling_views _ _ Hev) as (V1 & V2 & _ & _ & _ & V6 & _ & V8).
  assert (Htail : puts tail = [] /\ starts tail = [] /\ clients tail = [] /\
                  uuids tail = []).
  { unfold continued in Hc. destruct op as [text | r | e |];
      try (destruct Hc as [-> _]; repeat split; auto).
    destruct (text =? "")%string; [destruct Hc as [-> _]; repeat split; auto |].
    destruct Hc as (oi & Hspec & _).
    destruct (inference_calls _ _ _ _ _ Hspec) as (? & ? & ? & _ & _ & _ & ?).
    auto. }
  destruct Htail as (T1 & T2 & T3 & T4).
  calls_simpl. rewrite V1, V2, V6, V8, T1, T2, T3, T4. auto.
Qed.

(** How the failures before the polling are reported. *)
Lemma run_report event w o w' t :
  lambda_handler fuel event w = (o, w', t) ->
  (forall b k e, In (b, k, inl e) (puts t) ->
     o = Ret (if is_ClientError e then upload_error e else unexpected_error e)) /\
  (forall b k e, In (b, k, inl e) (starts t) -> o = Ret (textract_error e)) /\
  (forall b k reply, In (b, k, inr reply) (starts t) -> JobId reply = None ->
     o = Ret (textract_error (key_error "JobId")) /\ get_jobs t = []) /\
  (forall s e, In (s, inl e) (clients t) ->
     (s = "s3"%string /\ o = Ret (unexpected_error e) /\ puts t = [])
     \/ (s = "textract"%string /\ o = Ret (textract_error e) /\ starts t = [])).
Proof.
  intros Hrun. pose proof (run_handled fuel _ _ _ _ _ Hrun) as H.
  crack H; subst; cbn [puts starts clients get_jobs];
    try (match goal with
         | Hx : exists w1 w2, poll_loop _ _ _ _ w1 = _ |- _ =>
             let w1 := fresh "w" in
             let w2 := fresh "w" in
             let Hp := fresh "Hp" in
             destruct Hx as (w1 & w2 & Hp);
             destruct (after_start_views _ _ _ _ _ _ _ _ _ Hp H)
               as (V1 & V2 & V3 & V4);
             rewrite V1, V2, V3
         end);
    repeat split; intros; in_cases; try discriminate; recall; auto;
    congruence.
Qed.

End Calls.

(** ** Slices *)

Section Slices.

Lemma slice_to_length n : forall s,
  String.length (slice_to n s) = Nat.min n (String.length s).
Proof.
  unfold slice_to.
  induction n as [| n IH]; intros [| c s]; cbn; auto.
Qed.



Lemma append_length s1 s2 :
  String.length (s1 ++ s2)%string = String.length s1 + String.length s2.
Proof.
  induction s1 as [| c s1 IH]; [reflexivity |].
  change (String c s1 ++ s2)%string with (String c (s1 ++ s2)).
  cbn [String.length]. rewrite IH. reflexivity.
Qed.

End Slices.

Section MoreViews.

Context {E : Env}.
Variable fuel : nat.

Lemma quiet_calm t : quiet t -> slept t = 0 /\ get_jobs t = [].
Proof.
  unfold quiet. induction t as [| e t IH]; cbn; [auto |].
  intros H. apply andb_prop in H. destruct H as [He Ht].
  destruct e; try discriminate; auto.
Qed.

Lemma in_fetch_events j tok r : forall t,
  In (EvGet j (Some tok) r) t -> In (EvGet j (Some tok) r) (fetch_events t).
Proof.
  induction t as [| e t IH]; intros H; [destruct H |].
  destruct H as [-> | H]; [left; reflexivity |].
  destruct e as [ | | | | | | j' [tk |] r' | | ]; cbn; auto.
Qed.

Lemma fetch_events_in e : forall t, In e (fetch_events t) -> In e t.
Proof.
  induction t as [| e' t IH]; intros H; [destruct H |].
  destruct e' as [ | | | | | | j' [tk |] r' | | ]; cbn in H;
    try (right; auto; fail).
  destruct H as [H | H]; [left; exact H | right; auto].
Qed.

(** A run that returns 200: where its response comes from. *)
Lemma success_run event w o w' t r :
  lambda_handler fuel event w = (o, w', t) ->
  o = Ret r -> statusCode r = 200%Z ->
  exists question a p api k d,
    request_field event "question" = inr question /\
    posts t = [(api_url, p, inr api)] /\
    nth_error (polls t) k = Some (inr d) /\
    JobStatus d = Some "SUCCEEDED"%string /\
    extracted_text (d :: fetched_pages t) <> ""%string /\
    r = success_response question a (extracted_text (d :: fetched_pages t)) /\
    exists deleted,
      deletes t = [deleted] /\
      match deleted with inl e => is_ClientError e = true | inr _ => True end.
Proof.
  intros Hrun -> Hs.
  destruct (run_anatomy fuel _ _ _ _ _ Hrun)
    as [[Hq (s & m & [-> | ->] & Ho)]
       | (pre & j & q & key & op & tp & tail & w1 & w2 & Ht & Hq & Hp
          & Hc & Hqu & P1 & _ & P3 & _ & _ & P6 & P7)];
    try (injection Ho as ->; discriminate).
  destruct (post_run _ _ _ _ _ _ (poll_loop_frame fuel max_retries 0 j) Hp)
    as (_ & _ & Hret & _).
  destruct op as [text | r' | e |]; cbn [continued] in Hc.
  - destruct (text =? "")%string eqn:Htext;
      [destruct Hc as [_ Ho]; injection Ho as ->; discriminate |].
    apply String.eqb_neq in Htext.
    destruct Hc as (oi & Hspec & Ho). symmetry in Ho.
    destruct (inference_success _ _ _ _ _ _ Hspec Ho Hs)
      as (api & data & a & Hposts & Hcode & Hj & Hparse & ->).
    destruct (poll_loop_val _ _ _ _ _ _ _ _ Hp Htext)
      as (k & d & Hk & Hd & _ & Hx).
    destruct (inference_answer _ _ _ _ _ _ _ _ _ _ Hspec Hposts Hcode Hj Hparse)
      as (deleted & Hdel & Hout).
    exists q, a. eexists. exists api, k, d.
    rewrite P1, P3, P6, P7, <- Hx.
    repeat split; eauto.
    exists deleted. split; [exact Hdel |].
    destruct deleted as [e | u]; [| exact I].
    destruct (is_ClientError e); [reflexivity |].
    subst oi. unfold escape in Ho.
    destruct (is_RequestException e); injection Ho as Ho;
      rewrite <- Ho in Hs; discriminate.
  - destruct Hc as [_ Ho]. injection Ho as ->.
    destruct (Hret r' eq_refl) as (d & ->). discriminate.
  - destruct Hc as [_ Ho]. injection Ho as ->. discriminate.
  - destruct Hc as [_ Ho]. discriminate.
Qed.

End MoreViews.

Lemma no_jobs_no_polls t :
  get_jobs t = [] -> polls t = [] /\ fetch_events t = [].
Proof.
  induction t as [| e t IH]; [auto |].
  destruct e as [ | | | | | | j [tk |] r | | ]; cbn; auto; discriminate.
Qed.

(** * Runs that end early *)

Section EarlyExits.

Context {E : Env}.
Variable fuel : nat.

(** X1.  A request whose body cannot be read is turned away before
    anything else happens: when [json.loads] raises a JSONDecodeError
    the handler answers 400 with the message Invalid JSON in request
    body, and the trace holds the log line of the incoming event only;
    when reading the body raises anything else, the exception is
    logged and answered with 500 and the message Unexpected error
    followed by the exception's text. *)
Theorem unreadable_body_rejected event w o w' t e :
  lambda_handler fuel event w = (o, w', t) ->
  request_body event = inl e ->
  if is_JSONDecodeError e
  then o = Ret (create_error_response 400 "Invalid JSON in request body" None) /\
       t = [EvLog INFO ("Incoming event: " ++ json_dumps event)%string]
  else o = Ret (create_error_response 500 ("Unexpected error: " ++ exn_msg e)%string None) /\
       t = [EvLog INFO ("Incoming event: " ++ json_dumps event)%string;
            EvLog ERROR ("Unexpected error: " ++ exn_msg e)%string].
Proof.
  intros Hrun He.
  pose proof (run_handled fuel _ _ _ _ _ Hrun) as H.
  unfold handled in H. destruct H as (rest & -> & H).
  rewrite He in H.
  destruct (is_JSONDecodeError e).
  - destruct H as [-> ->]. split; reflexivity.
  - destruct H as [-> ->]. split; reflexivity.
Qed.

(** X2.  The body has to be a text.  An event that is no dict has no
    [get], and an event whose [body] is not a string (a null body, as
    for a request without payload, or an already parsed object) makes
    [json.loads] raise a TypeError: both are answered with 500 and an
    Unexpected error message, not with 400, and no service is called. *)
Theorem body_must_be_text event w o w' t :
  lambda_handler fuel event w = (o, w', t) ->
  (forall f, event = JObj f ->
     exists v, lookup "body" f = Some v /\ forall s, v <> JStr s) ->
  exists m,
    o = Ret (create_error_response 500 ("Unexpected error: " ++ m)%string None) /\
    t = [EvLog INFO ("Incoming event: " ++ json_dumps event)%string;
         EvLog ERROR ("Unexpected error: " ++ m)%string] /\
    m = match event with
        | JObj f =>
            match lookup "body" f with
            | Some v => ("the JSON object must be str, bytes or bytearray, not "
                         ++ type_name v)%string
            | None => ""%string
            end
        | _ => ("'" ++ type_name event ++ "' object has no attribute 'get'")%string
        end.
Proof.
  intros Hrun Hev.
  assert (He : exists e, request_body event = inl e /\
                         is_JSONDecodeError e = false /\
                         exn_msg e
                         = match event with
                           | JObj f =>
                               match lookup "body" f with
                               | Some v =>
                                   ("the JSON object must be str, bytes or bytearray, not "
                                    ++ type_name v)%string
                               | None => ""%string
                               end
                           | _ => ("'" ++ type_name event
                                   ++ "' object has no attribute 'get'")%string
                           end).
  { unfold request_body, py_get.
    destruct event as [ | b | z | s | l | f];
      try (eexists; repeat split; reflexivity).
    destruct (Hev f eq_refl) as (v & -> & Hv).
    unfold loads.
    destruct v as [ | b | z | s | l | f'];
      try (eexists; repeat split; reflexivity).
    destruct (Hv s eq_refl). }
  destruct He as (e & He & Hcls & Hmsg).
  pose proof (run_handled fuel _ _ _ _ _ Hrun) as H.
  unfold handled in H. destruct H as (rest & -> & H).
  rewrite He, Hcls in H. destruct H as [-> ->].
  exists (exn_msg e). repeat split; auto.
Qed.

(** X3.  An event without [body] is read as the empty object, that is,
    as a request that lacks both parameters: provided [json.loads]
    reads the text of two braces as the empty dict, the answer is 400
    naming pdf_base64 and question, and nothing but the incoming event
    is logged. *)
Theorem absent_body_is_empty_object f w o w' t :
  lambda_handler fuel (JObj f) w = (o, w', t) ->
  lookup "body" f = None ->
  json_loads "{}" = inr (JObj []) ->
  o = Ret (create_error_response 400
             "Missing required parameters: pdf_base64, question" None) /\
  t = [EvLog INFO ("Incoming event: " ++ json_dumps (JObj f))%string].
Proof.
  intros Hrun Hf Hloads.
  pose proof (run_handled fuel _ _ _ _ _ Hrun) as H.
  unfold handled, request_body, py_get in H. destruct H as (rest & -> & H).
  rewrite Hf in H. cbn [loads] in H. rewrite Hloads in H.
  cbn in H. destruct H as [-> ->]. split; reflexivity.
Qed.

(** X4.  A failed upload ends the run: a ClientError of [put_object]
    is answered with 500 and the message S3 upload error, any other
    exception of it with 500 and Unexpected error; no Textract job is
    started, nothing is polled, the endpoint is not called and nothing
    is deleted. *)
Theorem upload_failure_reported event w o w' t b k e :
  lambda_handler fuel event w = (o, w', t) ->
  In (b, k, inl e) (puts t) ->
  o = Ret (create_error_response 500
             ((if is_ClientError e then "S3 upload error: "
               else "Unexpected error: ") ++ exn_msg e)%string None) /\
  puts t = [(b, k, inl e)] /\
  starts t = [] /\ polls t = [] /\ posts t = [] /\ deletes t = [].
Proof.
  intros Hrun Hin.
  destruct (run_report fuel _ _ _ _ _ Hrun) as (Hput & _).
  rewrite (Hput _ _ _ Hin).
  split; [destruct (is_ClientError e); reflexivity |].
  destruct (run_calls fuel _ _ _ _ _ Hrun)
    as [(_ & Hp & _) | (u & _ & [([Hp | (e' & Hp)] & Hs & Hg & _ & Hd & Hpo & _)
                                 | (x & Hp & _)])];
    rewrite Hp in Hin |- *; in_cases; try discriminate.
  destruct (no_jobs_no_polls _ Hg) as [Hpolls _].
  repeat split; auto.
Qed.

(** X5.  A document that cannot be decoded is not uploaded.  For a
    request with both parameters whose pdf_base64 makes [b64decode]
    raise (a text that is no base64, or a value that is no text), the
    handler answers 500: with Unexpected error and the decoder's
    message, or with S3 upload error if the exception is a
    ClientError, unless already the creation of the S3 client failed.
    Nothing is uploaded, submitted, polled or asked. *)
Theorem undecodable_document_not_uploaded event w o w' t pdf question e :
  lambda_handler fuel event w = (o, w', t) ->
  request_field event "pdf_base64" = inr pdf ->
  request_field event "question" = inr question ->
  truthy pdf = true -> truthy question = true ->
  decode pdf = inl e ->
  puts t = [] /\ starts t = [] /\ polls t = [] /\ posts t = [] /\
  (o = Ret (create_error_response 500
              ((if is_ClientError e then "S3 upload error: "
                else "Unexpected error: ") ++ exn_msg e)%string None)
   \/ exists e', clients t = [("s3", inl e')] /\
                 o = Ret (create_error_response 500
                            ("Unexpected error: " ++ exn_msg e')%string None)).
Proof.
  intros Hrun Hpdf Hq Htp Htq Hdec.
  pose proof (run_handled fuel _ _ _ _ _ Hrun) as H.
  unfold request_field in Hpdf, Hq.
  unfold handled in H. destruct H as (rest & -> & H).
  destruct (request_body event) as [e0 | body]; [discriminate |].
  rewrite Hpdf, Hq, Htp, Htq in H. cbn [andb negb] in H.
  unfold uploaded in H. destruct H as (u & client & rest' & -> & H).
  destruct client as [e' | []].
  - destruct H as [-> ->]. cbn. repeat split; auto.
    right. exists e'. split; reflexivity.
  - rewrite Hdec in H. unfold upload_failed, unexpected in H.
    destruct (is_ClientError e); destruct H as [-> ->]; cbn;
      repeat split; auto.
Qed.

(** X6.  A submission that fails ends the run with a Textract
    processing error: when [start_document_text_detection] raises, the
    message carries the exception's text, and when its reply has no
    JobId, the text of the KeyError.  The job is never polled, the
    endpoint not called, and the document, uploaded under the
    submission's bucket and key, is not deleted. *)
Theorem submission_failure_reported event w o w' t b k s :
  lambda_handler fuel event w = (o, w', t) ->
  In (b, k, s) (starts t) ->
  (forall reply, s = inr reply -> JobId reply = None) ->
  o = Ret (create_error_response 500
             ("Textract processing error: "
              ++ match s with inl e => exn_msg e | inr _ => "'JobId'" end)%string
             None) /\
  polls t = [] /\ posts t = [] /\ deletes t = [] /\
  exists x, puts t = [(b, k, inr x)].
Proof.
  intros Hrun Hin Hs.
  destruct (run_report fuel _ _ _ _ _ Hrun) as (_ & Hraise & Hnone & _).
  assert (Ho : o = Ret (create_error_response 500
             ("Textract processing error: "
              ++ match s with inl e => exn_msg e | inr _ => "'JobId'" end)%string
             None)).
  { destruct s as [e | reply].
    - exact (Hraise _ _ _ Hin).
    - exact (proj1 (Hnone _ _ _ Hin (Hs reply eq_refl))). }
  split; [exact Ho |].
  destruct (run_calls fuel _ _ _ _ _ Hrun)
    as [(_ & _ & Hst & _)
       | (u & _ & [(_ & Hst & _)
                  | (x & Hp & [(Hst & _)
                              | (s' & Hst & [(Hg & _ & Hd & Hpo & _)
                                            | (reply & j & -> & Hj & _)])])])];
    rewrite Hst in Hin; in_cases.
  - destruct (no_jobs_no_polls _ Hg) as [Hpolls _].
    repeat split; eauto.
  - rewrite (Hs reply eq_refl) in Hj. discriminate.
Qed.

(** X7.  A status poll that raises, or whose reply has no JobStatus,
    is the last one: the handler answers 500 with a Textract
    processing error carrying the exception's text (that of the
    KeyError for a missing status); no page is fetched, the endpoint
    is not called, and the document is not deleted. *)
Theorem poll_failure_reported event w o w' t k r :
  lambda_handler fuel event w = (o, w', t) ->
  nth_error (polls t) k = Some r ->
  (forall d, r = inr d -> JobStatus d = None) ->
  o = Ret (create_error_response 500
             ("Textract processing error: "
              ++ match r with inl e => exn_msg e | inr _ => "'JobStatus'" end)%string
             None) /\
  length (polls t) = S k /\ fetch_events t = [] /\
  posts t = [] /\ deletes t = [].
Proof.
  intros Hrun Hk Hr.
  destruct (run_anatomy fuel _ _ _ _ _ Hrun)
    as [[Hq _] | (pre & j & q & key & op & tp & tail & w1 & w2 & Ht & Hq & Hp
                  & Hc & Hqu & P1 & P2 & _ & _ & _ & P6 & P7)].
  { destruct (quiet_views _ Hq) as (Hpolls & _).
    rewrite Hpolls in Hk. destruct k; discriminate. }
  rewrite P1 in Hk |- *. rewrite P2, P6, P7.
  destruct (post_run _ _ _ _ _ _ (poll_loop_events fuel max_retries 0 j) Hp)
    as (_ & _ & Hraise & Hnone & _).
  assert (Hop : op = Exc (match r with
                          | inl e => e
                          | inr _ => key_error "JobStatus"
                          end) /\
                length (polls tp) = S k /\ fetch_events tp = []).
  { destruct r as [e | d].
    - exact (Hraise _ _ Hk).
    - exact (Hnone _ _ Hk (Hr d eq_refl)). }
  destruct Hop as (-> & Hlen & Hf).
  cbn [continued] in Hc. destruct Hc as [-> ->].
  repeat split; auto.
  destruct r; reflexivity.
Qed.

(** X8.  A page fetch that raises ends the run with a Textract
    processing error carrying the exception's text: the lines
    collected so far are dropped, the endpoint is not called and the
    document is not deleted. *)
Theorem fetch_failure_reported event w o w' t j tok e :
  lambda_handler fuel event w = (o, w', t) ->
  In (EvGet j (Some tok) (inl e)) t ->
  o = Ret (create_error_response 500
             ("Textract processing error: " ++ exn_msg e)%string None) /\
  posts t = [] /\ deletes t = [].
Proof.
  intros Hrun Hin.
  apply in_fetch_events in Hin.
  destruct (run_anatomy fuel _ _ _ _ _ Hrun)
    as [[Hq _] | (pre & j' & q & key & op & tp & tail & w1 & w2 & Ht & Hq & Hp
                  & Hc & Hqu & _ & P2 & _ & _ & _ & P6 & P7)].
  { destruct (quiet_views _ Hq) as (_ & Hf & _).
    rewrite Hf in Hin. destruct Hin. }
  rewrite P2 in Hin. apply fetch_events_in in Hin.
  rewrite P6, P7.
  destruct (post_run _ _ _ _ _ _ (poll_loop_events fuel max_retries 0 j') Hp)
    as (_ & _ & _ & _ & Hfetch).
  rewrite (Hfetch _ _ _ Hin) in Hc.
  cbn [continued] in Hc. destruct Hc as [-> ->].
  repeat split; auto.
Qed.

End EarlyExits.

Section Clients.

Context {E : Env}.
Variable fuel : nat.

(** X17.  When a service client cannot be created the run ends at
    once with a 500 response: for the S3 client it is the Unexpected
    error with the exception's text and nothing is uploaded; for the
    Textract client it is the Textract processing error.  In both
    cases no job is submitted, nothing is polled, the endpoint is not
    called and nothing is deleted. *)
Theorem client_failure_reported event w o w' t s e :
  lambda_handler fuel event w = (o, w', t) ->
  In (s, inl e) (clients t) ->
  (s = "s3"%string \/ s = "textract"%string) /\
  o = Ret (create_error_response 500
             ((if (s =? "s3")%string then "Unexpected error: "
               else "Textract processing error: ") ++ exn_msg e)%string None) /\
  (s = "s3"%string -> puts t = []) /\
  starts t = [] /\ polls t = [] /\ posts t = [] /\ deletes t = [].
Proof.
  intros Hrun Hin.
  destruct (run_report fuel _ _ _ _ _ Hrun) as (_ & _ & _ & Hcl).
  assert (Hrest : puts t = [] \/ starts t = [] ->
                  starts t = [] /\ polls t = [] /\ posts t = [] /\ deletes t = []).
  { intros Hnone.
    destruct (run_calls fuel _ _ _ _ _ Hrun)
      as [(_ & _ & Hs & Hg & _ & Hd & Hp & _)
         | (u & _ & [(_ & Hs & Hg & _ & Hd & Hp & _)
                    | (x & Hpu & [(Hs & Hg & _ & Hd & Hp & _)
                                 | (s' & Hs & _)])])];
      try (destruct (no_jobs_no_polls _ Hg) as [Hpolls _]; auto).
    destruct Hnone as [H | H]; [rewrite Hpu in H | rewrite Hs in H];
      discriminate. }
  destruct (Hcl _ _ Hin) as [(-> & -> & Hp) | (-> & -> & Hs)].
  - split; [auto |]. split; [reflexivity |]. split; [auto |]. auto.
  - split; [auto |]. split; [reflexivity |].
    split; [discriminate |]. auto.
Qed.

End Clients.

Section Replies.

Context {E : Env}.

(** The inference stage after a reply that is no 200: the reply's text
    is reported and nothing is deleted. *)
Lemma inference_refused text question key oi tail u p api :
  inference_spec text question key oi tail ->
  posts tail = [(u, p, inr api)] ->
  status_code api <> 200%Z ->
  oi = Ret (api_error api) /\ deletes tail = [].
Proof.
  unfold inference_spec. cbv zeta.
  intros (res & rest & -> & H) Hposts Hcode.
  cbn [posts] in Hposts. injection Hposts as _ _ -> _.
  destruct H as (rest' & -> & H).
  apply Z.eqb_neq in Hcode. rewrite Hcode in H. cbn [negb] in H.
  destruct H as [-> ->]. split; reflexivity.
Qed.

End Replies.

(** * The later stages *)

Section LaterStages.

Context {E : Env}.
Variable fuel : nat.

(** X9.  A reply of the inference endpoint with a status other than
    200 is answered with 500 and the message Hugging Face API error
    followed by the reply's text, whatever that text is; the reply is
    not parsed and the staged document is not deleted. *)
Theorem refused_inference_reported event w o w' t u p api :
  lambda_handler fuel event w = (o, w', t) ->
  In (u, p, inr api) (posts t) ->
  status_code api <> 200%Z ->
  o = Ret (create_error_response 500
             ("Hugging Face API error: " ++ resp_text api)%string None) /\
  deletes t = [].
Proof.
  intros Hrun Hin Hcode.
  destruct (reached_inference fuel _ _ _ _ _ _ _ _ Hrun Hin)
    as (text & q & key & oi & tail & Hspec & -> & _ & _ & _ & Hpt & Hdt & _).
  destruct (inference_refused _ _ _ _ _ _ _ _ Hspec Hpt Hcode) as [-> Hd].
  rewrite Hdt, Hd. split; reflexivity.
Qed.

(** X10.  A RequestException in the inference stage, raised by the
    call of the endpoint or by reading the JSON of its 200 reply, is
    answered with 500 and the message Error calling Hugging Face API
    followed by the exception's text; the staged document is not
    deleted. *)
Theorem request_exception_reported event w o w' t u p res e :
  lambda_handler fuel event w = (o, w', t) ->
  In (u, p, res) (posts t) ->
  is_RequestException e = true ->
  (res = inl e
   \/ exists api, res = inr api /\ status_code api = 200%Z /\
                  resp_json api = inl e) ->
  o = Ret (create_error_response 500
             ("Error calling Hugging Face API: " ++ exn_msg e)%string None) /\
  deletes t = [].
Proof.
  intros Hrun Hin He Hres.
  destruct (reached_inference fuel _ _ _ _ _ _ _ _ Hrun Hin)
    as (text & q & key & oi & tail & Hspec & -> & _ & _ & _ & Hpt & Hdt & _).
  assert (Hoi : oi = escape e).
  { apply (inference_failure _ _ _ _ _ _ _ _ _ Hspec Hpt).
    destruct Hres as [-> | (api & -> & Hcode & Hj)]; [left; reflexivity |].
    right. exists api. auto. }
  subst oi. unfold escape. rewrite He. split; [reflexivity |].
  rewrite Hdt.
  destruct (deletes tail) as [| deleted l] eqn:Hd; [reflexivity |].
  assert (Hdel : In deleted (deletes tail))
    by (rewrite Hd; left; reflexivity).
  destruct (inference_deleted _ _ _ _ _ _ Hspec Hdel)
    as (api' & data & a & Hposts & Hcode' & Hj' & _).
  rewrite Hposts in Hpt. injection Hpt as _ _ <-.
  destruct Hres as [[=] | (api & [= <-] & _ & Hj)].
  rewrite Hj in Hj'. discriminate.
Qed.


(** X12.  The body of a 200 response holds the question as it came
    with the request, the answer, and a preview of the extracted
    text: the text itself when it has at most 200 characters, and
    otherwise its first 200 characters followed by three dots. *)
Theorem preview_of_extracted_text event w o w' t r :
  lambda_handler fuel event w = (o, w', t) ->
  o = Ret r -> statusCode r = 200%Z ->
  exists question a k d preview,
    request_field event "question" = inr question /\
    nth_error (polls t) k = Some (inr d) /\
    body r = json_dumps (JObj [("question", question);
                               ("answer", JStr a);
                               ("textPreview", JStr preview)]) /\
    let text := extracted_text (d :: fetched_pages t) in
    (String.length text <= 200 -> preview = text) /\
    (200 < String.length text ->
     preview = (slice_to 200 text ++ "...")%string /\
     String.length preview = 203).
Proof.
  intros Hrun Ho Hs.
  destruct (success_run fuel _ _ _ _ _ _ Hrun Ho Hs)
    as (q & a & p & api & k & d & Hq & _ & Hk & _ & _ & -> & _).
  exists q, a, k, d. eexists.
  split; [exact Hq |]. split; [exact Hk |]. split; [reflexivity |].
  cbv zeta. unfold text_preview.
  destruct (200 <? String.length (extracted_text (d :: fetched_pages t)))%nat
    eqn:Hlt.
  - apply Nat.ltb_lt in Hlt. split; [lia |]. intros _.
    split; [reflexivity |].
    rewrite append_length, slice_to_length.
    change (String.length "...") with 3. lia.
  - apply Nat.ltb_ge in Hlt. split; [reflexivity | lia].
Qed.

(** X13.  The handler sleeps 5 seconds after every status poll that
    found the job neither SUCCEEDED nor FAILED and at no other time,
    so that no run sleeps for more than 60 seconds in all. *)
Theorem bounded_wait event w o w' t :
  lambda_handler fuel event w = (o, w', t) ->
  slept t = 5 * length (filter in_progress (polls t)) /\
  slept t <= 60.
Proof.
  intros Hrun.
  assert (Hfilter : forall l : list (exn + detection),
             length (filter in_progress l) <= length l).
  { induction l as [| x l IH]; cbn; [lia |].
    destruct (in_progress x); cbn; lia. }
  destruct (run_anatomy fuel _ _ _ _ _ Hrun)
    as [[Hq _] | (pre & j & q & key & op & tp & tail & w1 & w2 & -> & Hq & Hp
                  & Hc & Hqu & P1 & _)].
  { destruct (quiet_views _ Hq) as (-> & _).
    destruct (quiet_calm _ Hq) as (-> & _). cbn. lia. }
  rewrite P1, !slept_app.
  destruct (quiet_calm _ Hq) as (-> & _).
  destruct (post_run _ _ _ _ _ _ (poll_loop_events fuel max_retries 0 j) Hp)
    as (_ & Hs & _).
  destruct (post_run _ _ _ _ _ _ (poll_loop_frame fuel max_retries 0 j) Hp)
    as (Hlen & _).
  assert (Htail : slept tail = 0).
  { unfold continued in Hc.
    destruct op as [text | r | e |]; try (destruct Hc as [-> _]; reflexivity).
    destruct (text =? "")%string; [destruct Hc as [-> _]; reflexivity |].
    destruct Hc as (oi & Hspec & _).
    destruct (inference_calls _ _ _ _ _ Hspec) as (_ & _ & _ & _ & H & _).
    exact H. }
  rewrite Htail, Hs.
  specialize (Hfilter (polls tp)). unfold max_retries in Hlen. lia.
Qed.

(** X14.  One document per run.  A run draws at most one identifier
    and uploads, submits and deletes at most one object, always in the
    bucket awshugb and under the key made of uploads/, the identifier
    and .pdf; a job is submitted only after the upload succeeded. *)
Theorem one_staged_document event w o w' t :
  lambda_handler fuel event w = (o, w', t) ->
  length (uuids t) <= 1 /\ length (puts t) <= 1 /\
  length (starts t) <= 1 /\ length (deleted_keys t) <= 1 /\
  (forall b k,
     In (b, k) (map fst (puts t)) \/ In (b, k) (map fst (starts t))
     \/ In (b, k) (deleted_keys t) ->
     b = "awshugb"%string /\
     exists u, uuids t = [u] /\ k = ("uploads/" ++ u ++ ".pdf")%string) /\
  (starts t <> [] -> exists b k x, puts t = [(b, k, inr x)]).
Proof.
  intros Hrun.
  destruct (run_calls fuel _ _ _ _ _ Hrun)
    as [(Hu & Hp & Hs & _ & Hd & _)
       | (u & Hu & [([Hp | (e & Hp)] & Hs & _ & Hd & _)
                   | (x & Hp & [(Hs & _ & Hd & _)
                               | (s & Hs & [(_ & Hd & _)
                                           | (reply & j & _ & _ & _
                                              & [(_ & Hd) | (dl & _ & Hd)])])])])];
    rewrite Hu, Hp, Hs, Hd; cbn [length map fst];
    (split; [lia |]); (split; [lia |]); (split; [lia |]); (split; [lia |]);
    (split; [intros b k [H | [H | H]]; in_cases; split; eauto
            | intros H; try (destruct (H eq_refl)); eauto]).
Qed.

(** X15.  The staged document is deleted only on the way to a 200
    response.  A run that answers 200 has tried the deletion exactly
    once, and the deletion succeeded or raised a ClientError.  A run
    that answers anything else has deleted nothing: either the
    deletion was not tried, or it raised an exception that is no
    ClientError. *)
Theorem cleanup_only_after_answer event w o w' t r :
  lambda_handler fuel event w = (o, w', t) ->
  o = Ret r ->
  (statusCode r = 200%Z ->
   exists deleted,
     deletes t = [deleted] /\
     match deleted with inl e => is_ClientError e = true | inr _ => True end) /\
  (statusCode r <> 200%Z ->
   deletes t = [] \/
   exists e, deletes t = [inl e] /\ is_ClientError e = false).
Proof.
  intros Hrun Ho. split.
  - intros Hs.
    destruct (success_run fuel _ _ _ _ _ _ Hrun Ho Hs)
      as (_ & _ & _ & _ & _ & _ & _ & _ & _ & _ & _ & _ & H).
    exact H.
  - intros Hs.
    destruct (deletes t) as [| deleted l] eqn:Hd; [left; reflexivity |].
    right.
    assert (Hin : In deleted (deletes t)) by (rewrite Hd; left; reflexivity).
    assert (Hbad : match deleted with
                   | inl e => is_ClientError e = true
                   | inr _ => True
                   end -> False).
    { intros Hok.
      destruct (deletion_run fuel _ _ _ _ _ _ Hrun Hin Hok)
        as ((q & p & api & data & a & k & d & _ & _ & _ & _ & _ & _ & Ho') & _).
      rewrite Ho in Ho'. injection Ho' as ->. apply Hs. reflexivity. }
    destruct deleted as [e | u]; [| destruct (Hbad I)].
    exists e.
    destruct (is_ClientError e) eqn:He; [destruct (Hbad eq_refl) |].
    split; [| reflexivity].
    destruct (run_calls fuel _ _ _ _ _ Hrun)
      as [(_ & _ & _ & _ & _ & Hd' & _)
         | (u & _ & [(_ & _ & _ & _ & Hd' & _)
                    | (x & _ & [(_ & _ & _ & Hd' & _)
                               | (s & _ & [(_ & _ & Hd' & _)
                                          | (reply & j & _ & _ & _
                                             & [(Hd' & _) | (dl & Hd' & _)])])])])];
      rewrite Hd in Hd'; try discriminate.
    injection Hd' as _ ->. reflexivity.
Qed.

(** X16.  Every call of [get_document_text_detection], status poll or
    page fetch, is made for the job whose identifier the one
    submission of the run returned. *)
Theorem polls_follow_submission event w o w' t j :
  lambda_handler fuel event w = (o, w', t) ->
  In j (get_jobs t) ->
  exists b k reply,
    starts t = [(b, k, inr reply)] /\ JobId reply = Some j.
Proof.
  intros Hrun Hin.
  destruct (run_calls fuel _ _ _ _ _ Hrun)
    as [(_ & _ & _ & Hg & _)
       | (u & _ & [(_ & _ & Hg & _)
                  | (x & _ & [(_ & Hg & _)
                             | (s & Hs & [(Hg & _)
                                         | (reply & j' & -> & Hj & Hall & _)])])])];
    try (rewrite Hg in Hin; destruct Hin).
  rewrite Forall_forall in Hall. rewrite <- (Hall _ Hin) in *.
  eauto.
Qed.

End LaterStages.

(** * The front end *)

Section Words.

Local Arguments String.append !s1 s2 : simpl nomatch.

Lemma string_app_nil_r (s : string) : (s ++ "")%string = s.
Proof. induction s as [| c s IH]; cbn; [| rewrite IH]; reflexivity. Qed.

Lemma string_app_assoc (a b c : string) :
  ((a ++ b) ++ c)%string = (a ++ b ++ c)%string.
Proof. induction a as [| x a IH]; cbn; [| rewrite IH]; reflexivity. Qed.

Lemma scan_app w : forall s,
  RagApp.spaceless w = true ->
  RagApp.scan (w ++ s)
  = ((w ++ fst (RagApp.scan s))%string, snd (RagApp.scan s)).
Proof.
  induction w as [| c w IH]; intros s H; cbn.
  - destruct (RagApp.scan s); reflexivity.
  - cbn in H. apply andb_prop in H. destruct H as [Hc Hw].
    apply negb_true_iff in Hc. rewrite (IH s Hw), Hc. reflexivity.
Qed.

Lemma is_word_parts w :
  RagApp.is_word w = true -> (w =? "")%string = false /\ RagApp.spaceless w = true.
Proof.
  unfold RagApp.is_word. intros H. apply andb_prop in H.
  destruct H as [H1 H2]. apply negb_true_iff in H1. auto.
Qed.

(** Words joined by single spaces scan back into the same words. *)
Lemma scan_join w ws :
  forallb RagApp.is_word (w :: ws) = true ->
  RagApp.scan (RagApp.join (w :: ws)) = (w, ws).
Proof.
  revert w. induction ws as [| w' ws IH]; intros w H; cbn in H;
    apply andb_prop in H; destruct H as [Hw Hws];
    destruct (is_word_parts _ Hw) as [Hne Hsp].
  - unfold RagApp.join. cbn.
    rewrite <- (string_app_nil_r w) at 1.
    rewrite scan_app by exact Hsp. cbn. rewrite string_app_nil_r. reflexivity.
  - unfold RagApp.join in *.
    change (String.concat " " (w :: w' :: ws))
      with (w ++ String " " (String.concat " " (w' :: ws)))%string.
    rewrite scan_app by exact Hsp.
    cbn [RagApp.scan]. rewrite (IH w' Hws).
    change (is_space " ") with true. cbn [fst snd].
    apply andb_prop in Hws. destruct Hws as [Hw' _].
    destruct (is_word_parts _ Hw') as [Hne' _].
    unfold RagApp.cons_word. rewrite Hne', string_app_nil_r. reflexivity.
Qed.

Lemma split_join ws :
  forallb RagApp.is_word ws = true -> RagApp.split (RagApp.join ws) = ws.
Proof.
  destruct ws as [| w ws]; [reflexivity |].
  intros H. unfold RagApp.split. rewrite (scan_join _ _ H).
  cbn in H. apply andb_prop in H. destruct H as [Hw _].
  destruct (is_word_parts _ Hw) as [Hne _].
  unfold RagApp.cons_word. rewrite Hne. reflexivity.
Qed.

Lemma scan_words s :
  RagApp.spaceless (fst (RagApp.scan s)) = true /\
  forallb RagApp.is_word (snd (RagApp.scan s)) = true.
Proof.
  induction s as [| c s IH]; cbn; [auto |].
  destruct (RagApp.scan s) as [word rest]. cbn in IH. destruct IH as [Hw Hr].
  destruct (is_space c) eqn:Hc; cbn.
  - split; [reflexivity |].
    unfold RagApp.cons_word. destruct (word =? "")%string eqn:Hne; [exact Hr |].
    cbn [forallb]. rewrite Hr. unfold RagApp.is_word.
    rewrite Hne, Hw. reflexivity.
  - rewrite Hc, Hw. auto.
Qed.

Lemma split_words s : forallb RagApp.is_word (RagApp.split s) = true.
Proof.
  unfold RagApp.split. pose proof (scan_words s) as H.
  destruct (RagApp.scan s) as [word rest]. cbn in H. destruct H as [Hw Hr].
  unfold RagApp.cons_word. destruct (word =? "")%string eqn:Hne; [exact Hr |].
  cbn [forallb]. rewrite Hr. unfold RagApp.is_word.
    rewrite Hne, Hw. reflexivity.
Qed.

Lemma join_snoc l x :
  RagApp.join (l ++ [x])
  = (RagApp.join l ++ (match l with [] => "" | _ => " " end) ++ x)%string.
Proof.
  unfold RagApp.join.
  induction l as [| a l IH]; [reflexivity |].
  destruct l as [| b l].
  - cbn. reflexivity.
  - change ((a :: b :: l) ++ [x]) with (a :: ((b :: l) ++ [x])).
    change (String.concat " " (a :: (b :: l) ++ [x]))
      with (a ++ " " ++ String.concat " " ((b :: l) ++ [x]))%string.
    rewrite IH.
    change (String.concat " " (a :: b :: l))
      with (a ++ " " ++ String.concat " " (b :: l))%string.
    rewrite !string_app_assoc. reflexivity.
Qed.

Lemma firstn_snoc {A} (l : list A) : forall i x,
  nth_error l i = Some x -> firstn (S i) l = firstn i l ++ [x].
Proof.
  induction l as [| a l IH]; intros [| i] x H; try discriminate.
  - injection H as ->. reflexivity.
  - cbn [firstn app]. rewrite <- (IH i x H). reflexivity.
Qed.

End Words.

Section Typing.

Import RagApp.

(** The loop when the sleep goes through: a frame and the sleep's
    event per index. *)
Lemma show_steady tokens speed ev : forall indices,
  sleep_one_over speed = ([ev], inr tt) ->
  show tokens indices speed
  = (flat_map (fun i => [StMarkdown (join (firstn i tokens)); ev]) indices,
     inr tt).
Proof.
  intros indices Hsleep.
  induction indices as [| i l IH]; [reflexivity |].
  cbn [show flat_map]. rewrite Hsleep, IH. reflexivity.
Qed.

Lemma sleep_positive speed :
  (0 < speed)%Z ->
  sleep_one_over speed = ([TimeSleep (Z.to_pos speed)], inr tt).
Proof.
  intros Hs. unfold sleep_one_over.
  destruct (speed =? 0)%Z eqn:H0; [apply Z.eqb_eq in H0; lia |].
  destruct (0 <? speed)%Z eqn:H1; [reflexivity |].
  apply Z.ltb_ge in H1. lia.
Qed.

(** The loop at a positive speed: a frame and a pause per index. *)
Lemma show_spec tokens speed : forall indices,
  (0 < speed)%Z ->
  show tokens indices speed
  = (flat_map (fun i => [StMarkdown (join (firstn i tokens));
                         TimeSleep (Z.to_pos speed)]) indices,
     inr tt).
Proof.
  intros indices Hs. apply show_steady, sleep_positive, Hs.
Qed.

(** At a speed that is not positive, the sleep raises or has no
    length. *)
Lemma sleep_not_positive speed :
  (speed <= 0)%Z ->
  sleep_one_over speed
  = if (speed <=? - 2 ^ 1075)%Z
    then ([TimeSleepZero], inr tt)
    else ([], inl (mkExn OtherError
                         (if (speed =? 0)%Z then "division by zero"
                          else "sleep length must be non-negative"))).
Proof.
  intros Hs. unfold sleep_one_over.
  assert (Hbig : (0 < 2 ^ 1075)%Z) by (apply Z.pow_pos_nonneg; lia).
  set (big := (2 ^ 1075)%Z) in *.
  destruct (speed =? 0)%Z eqn:H0.
  - apply Z.eqb_eq in H0.
    destruct (speed <=? - big)%Z eqn:H2; [apply Z.leb_le in H2; lia |].
    reflexivity.
  - destruct (0 <? speed)%Z eqn:H1; [apply Z.ltb_lt in H1; lia |].
    destruct (speed <=? - big)%Z; reflexivity.
Qed.

Lemma frames_without_delay (f : nat -> string) : forall l,
  frames (flat_map (fun i => [StMarkdown (f i); TimeSleepZero]) l) = map f l /\
  pauses (flat_map (fun i => [StMarkdown (f i); TimeSleepZero]) l) = [].
Proof.
  induction l as [| i l [IH1 IH2]]; [split; reflexivity |].
  cbn. rewrite IH1, IH2. split; reflexivity.
Qed.

Lemma frames_flat_map (f : nat -> string) p : forall l,
  frames (flat_map (fun i => [StMarkdown (f i); TimeSleep p]) l) = map f l /\
  pauses (flat_map (fun i => [StMarkdown (f i); TimeSleep p]) l)
  = repeat p (length l).
Proof.
  induction l as [| i l [IH1 IH2]]; [split; reflexivity |].
  cbn. rewrite IH1, IH2. split; reflexivity.
Qed.

(** What the typewriter shows at a positive speed. *)
Lemma typewriter_spec s template speed :
  (0 < speed)%Z ->
  exists t,
    typewriter (JStr s) template speed = (StEmpty :: t, inr tt) /\
    frames t = map (fun i => join (firstn i (split s)))
                   (seq 0 (length (split s) + 1)) /\
    pauses t = repeat (Z.to_pos speed) (length (split s) + 1) /\
    requests t = [] /\ notices t = [].
Proof.
  intros Hs. unfold typewriter. cbn [split_of attempt and_then].
  rewrite (show_spec _ _ _ Hs).
  eexists. split; [reflexivity |].
  destruct (frames_flat_map (fun i => join (firstn i (split s)))
              (Z.to_pos speed) (seq 0 (length (split s) + 1))) as [H1 H2].
  rewrite H1, H2, length_seq.
  repeat split; auto.
  - generalize (seq 0 (length (split s) + 1)).
    induction l as [| i l IH]; [reflexivity | exact IH].
  - generalize (seq 0 (length (split s) + 1)).
    induction l as [| i l IH]; [reflexivity | exact IH].
Qed.

End Typing.

Section FrontEnd.

Import RagApp.

Lemma frames_app t1 t2 : frames (t1 ++ t2) = frames t1 ++ frames t2.
Proof.
  induction t1 as [| e t1 IH]; [reflexivity |].
  destruct e; cbn; rewrite ?IH; reflexivity.
Qed.

Lemma pauses_app t1 t2 : pauses (t1 ++ t2) = pauses t1 ++ pauses t2.
Proof.
  induction t1 as [| e t1 IH]; [reflexivity |].
  destruct e; cbn; rewrite ?IH; reflexivity.
Qed.


Lemma notices_app t1 t2 : notices (t1 ++ t2) = notices t1 ++ notices t2.
Proof.
  induction t1 as [| e t1 IH]; [reflexivity |].
  destruct e; cbn; rewrite ?IH; reflexivity.
Qed.

(** X18.  At a positive speed the typewriter reveals the text word by
    word: it starts from the empty text, every further frame is the
    one before with the next word added (after a single space, but
    for the first word), there is one frame more than there are
    words, and after each frame it pauses for one over [speed]
    seconds. *)
Theorem typewriter_reveals_words s template speed t r :
  typewriter (JStr s) template speed = (t, r) ->
  (0 < speed)%Z ->
  r = inr tt /\
  length (frames t) = S (length (split s)) /\
  nth_error (frames t) 0 = Some ""%string /\
  (forall i word,
     nth_error (split s) i = Some word ->
     exists shown,
       nth_error (frames t) i = Some shown /\
       nth_error (frames t) (S i)
       = Some (shown ++ (if (i =? 0)%nat then "" else " ") ++ word)%string) /\
  pauses t = repeat (Z.to_pos speed) (S (length (split s))).
Proof.
  intros Hrun Hs.
  destruct (typewriter_spec s template speed Hs) as (t0 & Ht & Hf & Hp & _).
  rewrite Ht in Hrun. injection Hrun as <- <-.
  cbn [frames pauses]. rewrite Hf, Hp, Nat.add_1_r.
  split; [reflexivity |].
  split; [rewrite length_map, length_seq; reflexivity |].
  split; [reflexivity |].
  split; [| reflexivity].
  intros i word Hi.
  assert (Hlt : i < length (split s))
    by (apply nth_error_Some; rewrite Hi; discriminate).
  exists (join (firstn i (split s))).
  rewrite !nth_error_map, !nth_error_seq.
  destruct (Nat.ltb_spec i (S (length (split s)))) as [_ | H]; [| lia].
  destruct (Nat.ltb_spec (S i) (S (length (split s)))) as [_ | H]; [| lia].
  cbn [option_map Nat.add].
  split; [reflexivity |].
  rewrite (firstn_snoc _ _ _ Hi), join_snoc.
  destruct i as [| i]; [reflexivity |].
  destruct (split s) as [| a l]; [cbn in Hlt; lia | reflexivity].
Qed.

(** X19.  The text the typewriter ends on is the words of the answer
    joined by single spaces: line breaks and runs of blanks in the
    answer are lost, its words are not (splitting the final text
    gives the same words, none empty and none with whitespace), and
    an answer that already is words joined by single spaces is shown
    as it is. *)
Theorem typewriter_settles_on_words s template speed t r :
  typewriter (JStr s) template speed = (t, r) ->
  (0 < speed)%Z ->
  last (frames t) s = join (split s) /\
  forallb is_word (split s) = true /\
  split (last (frames t) s) = split s /\
  (forall ws, forallb is_word ws = true -> s = join ws ->
              last (frames t) s = s).
Proof.
  intros Hrun Hs.
  destruct (typewriter_spec s template speed Hs) as (t0 & Ht & Hf & _).
  rewrite Ht in Hrun. injection Hrun as <- <-.
  cbn [frames]. rewrite Hf, Nat.add_1_r, seq_S, map_app. cbn [map Nat.add].
  rewrite last_last, firstn_all.
  pose proof (split_words s) as Hw.
  split; [reflexivity |]. split; [exact Hw |].
  split; [apply split_join; exact Hw |].
  intros ws Hws ->. rewrite (split_join _ Hws). reflexivity.
Qed.

(** X20.  The speed has to be positive, or out of the floats' reach.
    With speed 0 the division raises, and with a negative speed above
    -2^1075 the quotient is a negative float, which makes [time.sleep]
    raise: the typewriter has then shown the empty first frame and
    nothing else, and has not slept.  From -2^1075 downwards the
    quotient is rounded to the negative zero, which [time.sleep]
    takes: the typewriter then shows every frame, the last one being
    the words joined by single spaces, without any pause, and
    returns. *)
Theorem typewriter_needs_positive_speed s template speed t r :
  typewriter (JStr s) template speed = (t, r) ->
  (speed <= 0)%Z ->
  if (speed <=? - 2 ^ 1075)%Z
  then r = inr tt /\
       length (frames t) = S (length (split s)) /\
       last (frames t) s = join (split s) /\
       pauses t = []
  else r = inl (mkExn OtherError
                      (if (speed =? 0)%Z then "division by zero"
                       else "sleep length must be non-negative")) /\
       frames t = [""%string] /\ pauses t = [].
Proof.
  intros Hrun Hs.
  pose proof (sleep_not_positive speed Hs) as Hsleep.
  unfold typewriter in Hrun. cbn [split_of attempt and_then] in Hrun.
  destruct (speed <=? - 2 ^ 1075)%Z.
  - rewrite (show_steady _ _ _ _ Hsleep) in Hrun.
    injection Hrun as <- <-. cbn [app frames pauses].
    destruct (frames_without_delay
                (fun i => join (firstn i (split s)))
                (seq 0 (length (split s) + 1))) as [Hf Hp].
    rewrite Hf, Hp, Nat.add_1_r.
    split; [reflexivity |].
    split; [rewrite length_map, length_seq; reflexivity |].
    split; [| reflexivity].
    rewrite seq_S, map_app. cbn [map Nat.add].
    rewrite last_last, firstn_all. reflexivity.
  - rewrite Nat.add_1_r in Hrun. cbn [seq show] in Hrun.
    rewrite Hsleep in Hrun. cbn in Hrun.
    injection Hrun as <- <-.
    split; [reflexivity |]. split; reflexivity.
Qed.

Section Page.

Variable b64encode : bytes -> string.
Variable user_template : string.


(** X22.  Whatever the pipeline answers with a status other than 200,
    the user is told the same: the one error notice.  Neither the
    status nor the message of the reply is shown, and nothing is
    typed out. *)
Theorem pipeline_errors_hidden data question api t r :
  script b64encode user_template (Some data) question true (inr api) = (t, r) ->
  question <> ""%string ->
  status_code api <> 200%Z ->
  r = inr tt /\
  notices t = [StError "Error retrieving answer. Please try again."] /\
  frames t = [] /\
  forall api', status_code api' <> 200%Z ->
    script b64encode user_template (Some data) question true (inr api') = (t, r).
Proof.
  intros Hrun Hq Hcode.
  assert (Hshape : forall a, status_code a <> 200%Z ->
            script b64encode user_template (Some data) question true (inr a)
            = ([StTitle "PDF Chat - RAG Pipeline";
                StWrite "Upload a PDF and enter a question to get answers based on the PDF content.";
                RequestsPost api_url
                  (JObj [("pdf_base64"%string, JStr (b64encode data));
                         ("question"%string, JStr question)]);
                StError "Error retrieving answer. Please try again."],
               inr tt)).
  { intros a Ha. unfold script.
    apply String.eqb_neq in Hq. rewrite Hq.
    apply Z.eqb_neq in Ha.
    cbn [negb emit attempt and_then app]. rewrite Ha. reflexivity. }
  rewrite (Hshape api Hcode) in Hrun. injection Hrun as <- <-.
  repeat split; auto.
Qed.

(** X23.  A 200 reply whose JSON object holds a text as answer is
    typed out at speed 10 under the heading, and the success notice
    follows: the text ends on the words of the answer joined by
    single spaces, after one frame and one pause of a tenth of a
    second more than there are words.  When the object has no answer,
    the placeholder No answer found. is typed out instead. *)
Theorem answer_typed_out data question api f t r :
  script b64encode user_template (Some data) question true (inr api) = (t, r) ->
  question <> ""%string ->
  status_code api = 200%Z ->
  resp_json api = inr (JObj f) ->
  (forall v, lookup "answer" f = Some v -> exists a, v = JStr a) ->
  exists a,
    JStr a = match lookup "answer" f with
             | Some v => v
             | None => JStr "No answer found."
             end /\
    r = inr tt /\
    last (frames t) a = join (split a) /\
    length (frames t) = S (length (split a)) /\
    pauses t = repeat 10%positive (S (length (split a))) /\
    notices t = [StSuccess "Done!"] /\
    In (StWrite "### Answer:") t.
Proof.
  intros Hrun Hq Hcode Hj Hans.
  assert (Ha : exists a, JStr a = match lookup "answer" f with
                                  | Some v => v
                                  | None => JStr "No answer found."
                                  end).
  { destruct (lookup "answer" f) as [v |] eqn:Hl; [| eauto].
    destruct (Hans v eq_refl) as (a & ->). eauto. }
  destruct Ha as (a & Ha). exists a. split; [exact Ha |].
  unfold script in Hrun. apply String.eqb_neq in Hq. rewrite Hq in Hrun.
  cbn [negb emit attempt and_then app] in Hrun.
  rewrite Hcode in Hrun. cbn [Z.eqb Pos.eqb attempt and_then] in Hrun.
  rewrite Hj in Hrun. cbn [py_get] in Hrun. rewrite <- Ha in Hrun.
  cbn [app and_then] in Hrun.
  assert (Hpos : (0 < 10)%Z) by lia.
  destruct (typewriter_spec a user_template 10 Hpos)
    as (t0 & Ht & Hf & Hp & _ & Hn).
  rewrite Ht in Hrun. cbn in Hrun. injection Hrun as <- <-.
  cbn [frames pauses notices].
  rewrite frames_app, pauses_app, notices_app, Hf, Hp, Hn.
  cbn [frames pauses notices]. rewrite !app_nil_r, Nat.add_1_r.
  split; [reflexivity |].
  split; [rewrite seq_S, map_app; cbn [map Nat.add];
          rewrite last_last, firstn_all; reflexivity |].
  split; [rewrite length_map, length_seq; reflexivity |].
  split; [reflexivity |]. split; [reflexivity |].
  cbn. auto.
Qed.

(** X24.  The script catches no exception.  When the request raises,
    when the body of a 200 reply is no JSON, when that JSON is no
    object, or when its answer is no text, the run ends with that
    exception: no notice is shown and nothing is typed out. *)
Theorem failures_reach_the_user data question reply t r e :
  script b64encode user_template (Some data) question true reply = (t, r) ->
  question <> ""%string ->
  (reply = inl e
   \/ exists api,
       reply = inr api /\ status_code api = 200%Z /\
       (resp_json api = inl e
        \/ exists doc,
            resp_json api = inr doc /\
            (py_get doc "answer" (JStr "No answer found.") = inl e
             \/ exists answer,
                 py_get doc "answer" (JStr "No answer found.") = inr answer /\
                 split_of answer = inl e))) ->
  r = inl e /\ notices t = [] /\ frames t = [].
Proof.
  intros Hrun Hq Hfail.
  unfold script in Hrun. apply String.eqb_neq in Hq. rewrite Hq in Hrun.
  cbn [negb emit attempt and_then app] in Hrun.
  destruct Hfail as [-> | (api & -> & Hcode & Hfail)];
    [injection Hrun as <- <-; repeat split; reflexivity |].
  rewrite Hcode in Hrun. cbn [Z.eqb Pos.eqb attempt and_then] in Hrun.
  destruct Hfail as [Hj | (doc & Hj & Hfail)]; rewrite Hj in Hrun;
    [injection Hrun as <- <-; repeat split; reflexivity |].
  destruct Hfail as [Hg | (answer & Hg & Hsplit)]; rewrite Hg in Hrun;
    [injection Hrun as <- <-; repeat split; reflexivity |].
  unfold typewriter in Hrun. rewrite Hsplit in Hrun.
  cbn in Hrun. injection Hrun as <- <-. repeat split; reflexivity.
Qed.

End Page.

End FrontEnd.

(** * The further properties on concrete runs *)

Lemma unreadable_body_rejected_witness :
  let event := Scripted.event_of "{oops" in
  let e := mkExn JSONDecodeError "Expecting value: line 1 column 1 (char 0)" in
  let r := @lambda_handler Scripted.env 0 event Scripted.happy in
  @request_body Scripted.env event = inl e /\
  fst (fst r)
  = Ret (@create_error_response Scripted.env 400
           "Invalid JSON in request body" None) /\
  length (snd r) = 1.
Proof.
  cbv zeta.
  evaluate_run Scripted.env 0 (Scripted.event_of "{oops") Scripted.happy Hrun.
  split; [reflexivity |].
  pose proof (unreadable_body_rejected 0 _ _ _ _ _
                (mkExn JSONDecodeError "Expecting value: line 1 column 1 (char 0)")
                Hrun eq_refl) as H.
  cbn [is_JSONDecodeError exn_cls] in H. destruct H as [Ho Ht].
  split; [exact Ho | reflexivity].
Defined.

Lemma body_must_be_text_witness :
  let event := JObj [("body"%string, JNull)] in
  let r := @lambda_handler Scripted.env 0 event Scripted.happy in
  fst (fst r)
  = Ret (@create_error_response Scripted.env 500
           "Unexpected error: the JSON object must be str, bytes or bytearray, not NoneType"
           None).
Proof.
  cbv zeta.
  evaluate_run Scripted.env 0 (JObj [("body"%string, JNull)]) Scripted.happy Hrun.
  destruct (body_must_be_text 0 _ _ _ _ _ Hrun) as (m & Ho & _ & Hm).
  { intros f [= <-]. exists JNull. split; [reflexivity | discriminate]. }
  rewrite Hm in Ho. exact Ho.
Defined.

Lemma absent_body_is_empty_object_witness :
  let r := @lambda_handler Scripted.env 0 (JObj []) Scripted.happy in
  @json_loads Scripted.env "{}" = inr (JObj []) /\
  fst (fst r)
  = Ret (@create_error_response Scripted.env 400
           "Missing required parameters: pdf_base64, question" None).
Proof.
  cbv zeta.
  evaluate_run Scripted.env 0 (JObj []) Scripted.happy Hrun.
  split; [reflexivity |].
  destruct (absent_body_is_empty_object 0 _ _ _ _ _ Hrun eq_refl eq_refl)
    as [Ho _].
  exact Ho.
Defined.

Lemma upload_failure_reported_witness :
  let r := @lambda_handler Scripted.env 0 (Scripted.event_of "REQ")
                           Faulty.locked in
  In ("awshugb"%string, "uploads/0000.pdf"%string,
      inl (mkExn ClientError "AccessDenied")) (puts (snd r)) /\
  fst (fst r)
  = Ret (@create_error_response Scripted.env 500
           "S3 upload error: AccessDenied" None) /\
  starts (snd r) = [].
Proof.
  cbv zeta.
  evaluate_run Scripted.env 0 (Scripted.event_of "REQ") Faulty.locked Hrun.
  assert (Hin : In ("awshugb"%string, "uploads/0000.pdf"%string,
                    @inl exn unit (mkExn ClientError "AccessDenied"))
                   [("awshugb"%string, "uploads/0000.pdf"%string,
                     @inl exn unit (mkExn ClientError "AccessDenied"))])
    by (left; reflexivity).
  split; [exact Hin |].
  destruct (upload_failure_reported 0 _ _ _ _ _ _ _ _ Hrun Hin)
    as (Ho & _ & Hs & _).
  split; [exact Ho | exact Hs].
Defined.

Lemma undecodable_document_not_uploaded_witness :
  let E := Faulty.env Faulty.any_client Faulty.no_decoder in
  let r := @lambda_handler E 0 (Scripted.event_of "REQ") Scripted.happy in
  @decode E (JStr "JVBERi0=") = inl (mkExn OtherError "Incorrect padding") /\
  puts (snd r) = [] /\
  fst (fst r)
  = Ret (@create_error_response E 500 "Unexpected error: Incorrect padding"
                                None).
Proof.
  cbv zeta.
  evaluate_run (Faulty.env Faulty.any_client Faulty.no_decoder) 0
               (Scripted.event_of "REQ") Scripted.happy Hrun.
  split; [reflexivity |].
  destruct (undecodable_document_not_uploaded 0 _ _ _ _ _
              (JStr "JVBERi0=") (JStr "Who?")
              (mkExn OtherError "Incorrect padding")
              Hrun eq_refl eq_refl eq_refl eq_refl eq_refl)
    as (Hp & _ & _ & _ & [Ho | (e' & Hc & _)]).
  - split; [exact Hp | exact Ho].
  - discriminate Hc.
Defined.

Lemma submission_failure_reported_witness :
  let r := @lambda_handler Scripted.env 0 (Scripted.event_of "REQ")
                           Faulty.throttled in
  In ("awshugb"%string, "uploads/0000.pdf"%string,
      inl (mkExn ClientError "ThrottlingException")) (starts (snd r)) /\
  fst (fst r)
  = Ret (@create_error_response Scripted.env 500
           "Textract processing error: ThrottlingException" None) /\
  deletes (snd r) = [].
Proof.
  cbv zeta.
  evaluate_run Scripted.env 0 (Scripted.event_of "REQ") Faulty.throttled Hrun.
  assert (Hin : In ("awshugb"%string, "uploads/0000.pdf"%string,
                    @inl exn start_reply (mkExn ClientError "ThrottlingException"))
                   [("awshugb"%string, "uploads/0000.pdf"%string,
                     @inl exn start_reply (mkExn ClientError "ThrottlingException"))])
    by (left; reflexivity).
  split; [exact Hin |].
  destruct (submission_failure_reported 0 _ _ _ _ _ _ _ _ Hrun Hin)
    as (Ho & _ & _ & Hd & _).
  { intros reply H. discriminate H. }
  split; [exact Ho | exact Hd].
Defined.

Lemma poll_failure_reported_witness :
  let r := @lambda_handler Scripted.env 0 (Scripted.event_of "REQ")
                           Faulty.interrupted in
  nth_error (polls (snd r)) 1
  = Some (inl (mkExn ClientError "InvalidJobIdException")) /\
  fst (fst r)
  = Ret (@create_error_response Scripted.env 500
           "Textract processing error: InvalidJobIdException" None) /\
  length (polls (snd r)) = 2.
Proof.
  cbv zeta.
  evaluate_run Scripted.env 0 (Scripted.event_of "REQ") Faulty.interrupted Hrun.
  split; [reflexivity |].
  destruct (poll_failure_reported 0 _ _ _ _ _ 1
              (inl (mkExn ClientError "InvalidJobIdException")) Hrun eq_refl)
    as (Ho & Hlen & _).
  { intros d H. discriminate H. }
  split; [exact Ho | exact Hlen].
Defined.

Lemma fetch_failure_reported_witness :
  let r := @lambda_handler Scripted.env 5 (Scripted.event_of "REQ")
                           Faulty.torn in
  In (EvGet "job-1" (Some "t1"%string)
            (inl (mkExn ClientError "ProvisionedThroughputExceededException")))
     (snd r) /\
  fst (fst r)
  = Ret (@create_error_response Scripted.env 500
           "Textract processing error: ProvisionedThroughputExceededException"
           None) /\
  posts (snd r) = [].
Proof.
  cbv zeta.
  evaluate_run Scripted.env 5 (Scripted.event_of "REQ") Faulty.torn Hrun.
  match goal with
  | |- ?P /\ _ => assert (Hin : P)
      by (cbn [snd In]; repeat first [left; reflexivity | right])
  end.
  split; [exact Hin |].
  destruct (fetch_failure_reported 5 _ _ _ _ _ _ _ _ Hrun Hin) as (Ho & Hp & _).
  split; [exact Ho | exact Hp].
Defined.

Lemma refused_inference_reported_witness :
  let r := @lambda_handler Scripted.env 5 (Scripted.event_of "REQ")
                           Faulty.loading in
  (exists u p api, In (u, p, inr api) (posts (snd r)) /\
                   status_code api = 503%Z) /\
  fst (fst r)
  = Ret (@create_error_response Scripted.env 500
           "Hugging Face API error: Model is loading" None) /\
  deletes (snd r) = [].
Proof.
  cbv zeta.
  evaluate_run Scripted.env 5 (Scripted.event_of "REQ") Faulty.loading Hrun.
  cbn [snd].
  match goal with
  | |- context [posts ?t] =>
      let v := eval vm_compute in (posts t) in change (posts t) with v
  end.
  match goal with
  | |- (exists u p api, In _ (?x :: _) /\ _) /\ _ =>
      assert (Hin : In x [x]) by (left; reflexivity)
  end.
  split; [do 3 eexists; split; [exact Hin | reflexivity] |].
  destruct (refused_inference_reported 5 _ _ _ _ _ _ _ _ Hrun Hin) as (Ho & Hd).
  { discriminate. }
  split; [exact Ho | exact Hd].
Defined.

Lemma request_exception_reported_witness :
  let r := @lambda_handler Scripted.env 5 (Scripted.event_of "REQ")
                           Faulty.offline in
  (exists u p, In (u, p, inl (mkExn RequestException "Connection refused"))
                  (posts (snd r))) /\
  fst (fst r)
  = Ret (@create_error_response Scripted.env 500
           "Error calling Hugging Face API: Connection refused" None) /\
  deletes (snd r) = [].
Proof.
  cbv zeta.
  evaluate_run Scripted.env 5 (Scripted.event_of "REQ") Faulty.offline Hrun.
  cbn [snd].
  match goal with
  | |- context [posts ?t] =>
      let v := eval vm_compute in (posts t) in change (posts t) with v
  end.
  match goal with
  | |- (exists u p, In _ (?x :: _)) /\ _ =>
      assert (Hin : In x [x]) by (left; reflexivity)
  end.
  split; [do 2 eexists; exact Hin |].
  destruct (request_exception_reported 5 _ _ _ _ _ _ _ _
              (mkExn RequestException "Connection refused") Hrun Hin eq_refl)
    as (Ho & Hd).
  { left. reflexivity. }
  split; [exact Ho | exact Hd].
Defined.


Lemma preview_of_extracted_text_witness :
  let r := @lambda_handler Scripted.env 5 (Scripted.event_of "REQ")
                           Scripted.happy in
  exists resp,
    fst (fst r) = Ret resp /\ statusCode resp = 200%Z /\
    exists question a k d preview,
      nth_error (polls (snd r)) k = Some (inr d) /\
      body resp = @json_dumps Scripted.env
                    (JObj [("question"%string, question);
                           ("answer"%string, JStr a);
                           ("textPreview"%string, JStr preview)]) /\
      (String.length (extracted_text (d :: fetched_pages (snd r))) <= 200 ->
       preview = extracted_text (d :: fetched_pages (snd r))).
Proof.
  cbv zeta.
  evaluate_run Scripted.env 5 (Scripted.event_of "REQ") Scripted.happy Hrun.
  eexists. split; [reflexivity |]. split; [reflexivity |].
  destruct (preview_of_extracted_text 5 _ _ _ _ _ _ Hrun eq_refl eq_refl)
    as (q & a & k & d & preview & _ & Hk & Hb & Hshort & _).
  exists q, a, k, d, preview.
  split; [exact Hk |]. split; [exact Hb | exact Hshort].
Defined.

Lemma bounded_wait_witness :
  let r := @lambda_handler Scripted.env 0 (Scripted.event_of "REQ")
                           Scripted.stuck in
  slept (snd r) = 60 /\
  slept (snd r) = 5 * length (filter in_progress (polls (snd r))).
Proof.
  cbv zeta.
  evaluate_run Scripted.env 0 (Scripted.event_of "REQ") Scripted.stuck Hrun.
  split; [reflexivity |].
  destruct (bounded_wait 0 _ _ _ _ _ Hrun) as (Hs & _).
  exact Hs.
Defined.

Lemma one_staged_document_witness :
  let r := @lambda_handler Scripted.env 5 (Scripted.event_of "REQ")
                           Scripted.happy in
  deleted_keys (snd r) = [("awshugb"%string, "uploads/0000.pdf"%string)] /\
  length (puts (snd r)) <= 1 /\
  exists b k x, puts (snd r) = [(b, k, inr x)].
Proof.
  cbv zeta.
  evaluate_run Scripted.env 5 (Scripted.event_of "REQ") Scripted.happy Hrun.
  split; [reflexivity |].
  destruct (one_staged_document 5 _ _ _ _ _ Hrun)
    as (_ & Hp & _ & _ & _ & Hs).
  split; [exact Hp |].
  apply Hs. discriminate.
Defined.

Lemma cleanup_only_after_answer_witness :
  let r := @lambda_handler Scripted.env 5 (Scripted.event_of "REQ")
                           Scripted.happy in
  exists resp,
    fst (fst r) = Ret resp /\ statusCode resp = 200%Z /\
    exists deleted, deletes (snd r) = [deleted].
Proof.
  cbv zeta.
  evaluate_run Scripted.env 5 (Scripted.event_of "REQ") Scripted.happy Hrun.
  eexists. split; [reflexivity |]. split; [reflexivity |].
  destruct (cleanup_only_after_answer 5 _ _ _ _ _ _ Hrun eq_refl) as [H _].
  destruct (H eq_refl) as (deleted & Hd & _).
  exists deleted. exact Hd.
Defined.

Lemma polls_follow_submission_witness :
  let r := @lambda_handler Scripted.env 5 (Scripted.event_of "REQ")
                           Scripted.happy in
  In "job-1"%string (get_jobs (snd r)) /\
  exists b k reply,
    starts (snd r) = [(b, k, inr reply)] /\ JobId reply = Some "job-1"%string.
Proof.
  cbv zeta.
  evaluate_run Scripted.env 5 (Scripted.event_of "REQ") Scripted.happy Hrun.
  assert (Hin : In "job-1"%string
                   (get_jobs
                      (snd (@lambda_handler Scripted.env 5
                              (Scripted.event_of "REQ") Scripted.happy))))
    by (rewrite Hrun; left; reflexivity).
  rewrite Hrun in Hin.
  split; [exact Hin |].
  exact (polls_follow_submission 5 _ _ _ _ _ _ Hrun Hin).
Defined.

Lemma client_failure_reported_witness :
  let E := Faulty.env Faulty.only_s3 Faulty.decoder in
  let r := @lambda_handler E 0 (Scripted.event_of "REQ") Scripted.happy in
  In ("textract"%string, inl Faulty.no_region) (clients (snd r)) /\
  fst (fst r)
  = Ret (@create_error_response E 500
           "Textract processing error: You must specify a region." None) /\
  starts (snd r) = [].
Proof.
  cbv zeta.
  evaluate_run (Faulty.env Faulty.only_s3 Faulty.decoder) 0
               (Scripted.event_of "REQ") Scripted.happy Hrun.
  match goal with
  | |- ?P /\ _ => assert (Hin : P)
      by (cbn [snd In]; repeat first [left; reflexivity | right])
  end.
  split; [exact Hin |].
  destruct (client_failure_reported 0 _ _ _ _ _ _ _ Hrun Hin)
    as (_ & Ho & _ & Hs & _).
  split; [exact Ho | exact Hs].
Defined.

(** * The front end on concrete runs *)

Lemma typewriter_reveals_words_witness :
  let r := RagApp.typewriter (JStr "Alice  Smith") "" 10 in
  (0 < 10)%Z /\ snd r = inr tt /\
  RagApp.frames (fst r) = [""; "Alice"; "Alice Smith"]%string /\
  length (RagApp.frames (fst r)) = 3.
Proof.
  cbv zeta.
  destruct (RagApp.typewriter (JStr "Alice  Smith") "" 10) as [t r] eqn:Hrun.
  pose proof Hrun as Hv. vm_compute in Hv. injection Hv as <- <-.
  destruct (typewriter_reveals_words _ _ _ _ _ Hrun eq_refl)
    as (Hr & Hlen & _).
  split; [reflexivity |]. split; [exact Hr |].
  split; [reflexivity | exact Hlen].
Defined.

Lemma typewriter_settles_on_words_witness :
  let s := ("Alice" ++ nl ++ " Smith ")%string in
  let r := RagApp.typewriter (JStr s) "" 10 in
  (0 < 10)%Z /\
  last (RagApp.frames (fst r)) s = "Alice Smith"%string /\
  RagApp.split (last (RagApp.frames (fst r)) s) = RagApp.split s.
Proof.
  cbv zeta.
  destruct (RagApp.typewriter (JStr ("Alice" ++ nl ++ " Smith ")%string) "" 10)
    as [t r] eqn:Hrun.
  destruct (typewriter_settles_on_words _ _ _ _ _ Hrun eq_refl)
    as (Hlast & _ & Hsplit & _).
  cbn [fst].
  split; [reflexivity |].
  split; [rewrite Hlast; reflexivity | exact Hsplit].
Defined.

Lemma typewriter_needs_positive_speed_witness :
  let r := RagApp.typewriter (JStr "Alice Smith") "" 0 in
  (0 <= 0)%Z /\
  snd r = inl (mkExn OtherError "division by zero") /\
  RagApp.frames (fst r) = [""%string].
Proof.
  cbv zeta.
  destruct (RagApp.typewriter (JStr "Alice Smith") "" 0) as [t r] eqn:Hrun.
  assert (Hle : (0 <= 0)%Z) by discriminate.
  pose proof (typewriter_needs_positive_speed _ _ _ _ _ Hrun Hle) as H.
  decide_test H. destruct H as (Hr & Hf & _).
  split; [exact Hle |]. split; [exact Hr | exact Hf].
Defined.


Lemma pipeline_errors_hidden_witness :
  let api := mkHttp 400 "{}" (inr (JObj [("error"%string, JStr "Invalid JSON in request body")])) in
  let r := RagApp.script string_of_list_byte "" (Some []) "Who?" true (inr api) in
  "Who?"%string <> ""%string /\ status_code api <> 200%Z /\
  snd r = inr tt /\
  RagApp.notices (fst r)
  = [RagApp.StError "Error retrieving answer. Please try again."].
Proof.
  cbv zeta.
  destruct (RagApp.script string_of_list_byte "" (Some []) "Who?" true
              (inr (mkHttp 400 "{}"
                      (inr (JObj [("error"%string,
                                   JStr "Invalid JSON in request body")])))))
    as [t r] eqn:Hrun.
  assert (Hq : "Who?"%string <> ""%string) by discriminate.
  assert (Hc : (400 <> 200)%Z) by discriminate.
  destruct (pipeline_errors_hidden _ _ _ _ _ _ _ Hrun Hq Hc) as (Hr & Hn & _).
  split; [exact Hq |]. split; [exact Hc |]. split; [exact Hr | exact Hn].
Defined.

Lemma answer_typed_out_witness :
  let doc := [("question"%string, JStr "Who?");
              ("answer"%string, JStr "Alice  Smith");
              ("textPreview"%string, JStr "Hello world again")] in
  let r := RagApp.script string_of_list_byte "" (Some []) "Who?" true
                         (inr (mkHttp 200 "{}" (inr (JObj doc)))) in
  (forall v, lookup "answer" doc = Some v -> exists a, v = JStr a) /\
  snd r = inr tt /\
  RagApp.notices (fst r) = [RagApp.StSuccess "Done!"] /\
  last (RagApp.frames (fst r)) "Alice  Smith"%string = "Alice Smith"%string.
Proof.
  cbv zeta.
  destruct (RagApp.script string_of_list_byte "" (Some []) "Who?" true
              (inr (mkHttp 200 "{}"
                      (inr (JObj [("question"%string, JStr "Who?");
                                  ("answer"%string, JStr "Alice  Smith");
                                  ("textPreview"%string,
                                   JStr "Hello world again")])))))
    as [t r] eqn:Hrun.
  assert (Hq : "Who?"%string <> ""%string) by discriminate.
  assert (Hans : forall v,
             lookup "answer" [("question"%string, JStr "Who?");
                              ("answer"%string, JStr "Alice  Smith");
                              ("textPreview"%string, JStr "Hello world again")]
             = Some v -> exists a, v = JStr a).
  { intros v [= <-]. eexists. reflexivity. }
  destruct (answer_typed_out _ _ _ _ _ _ _ _ Hrun Hq eq_refl eq_refl Hans)
    as (a & Ha & Hr & Hlast & _ & _ & Hn & _).
  injection Ha as ->.
  cbn [fst snd].
  split; [exact Hans |]. split; [exact Hr |]. split; [exact Hn |].
  rewrite Hlast. reflexivity.
Defined.

Lemma failures_reach_the_user_witness :
  let doc := JObj [("answer"%string, JNull)] in
  let r := RagApp.script string_of_list_byte "" (Some []) "Who?" true
                         (inr (mkHttp 200 "{}" (inr doc))) in
  RagApp.split_of JNull = inl (no_attribute JNull "split") /\
  snd r = inl (mkExn AttributeError
                 "'NoneType' object has no attribute 'split'") /\
  RagApp.notices (fst r) = [].
Proof.
  cbv zeta.
  destruct (RagApp.script string_of_list_byte "" (Some []) "Who?" true
              (inr (mkHttp 200 "{}"
                      (inr (JObj [("answer"%string, JNull)])))))
    as [t r] eqn:Hrun.
  assert (Hq : "Who?"%string <> ""%string) by discriminate.
  destruct (failures_reach_the_user _ _ _ _ _ _ _
              (no_attribute JNull "split") Hrun Hq)
    as (Hr & Hn & _).
  { right. eexists. split; [reflexivity |]. split; [reflexivity |].
    right. eexists. split; [reflexivity |].
    right. exists JNull. split; reflexivity. }
  cbn [fst snd].
  split; [reflexivity |]. split; [exact Hr | exact Hn].
Defined.
